(** * Video RAG notebooks: job monitor, payload builder and orchestration

    A shallow embedding of the Python functions of the notebooks
    [_01_oss_ingestion], [_02_video_gen_text_only] (embedded in the
    CloudFormation template), [_03_video_gen_text_image] and
    [_06_video_gen_inpainting], together with the properties of the
    asynchronous job monitor and of the retrieval-augmented orchestration.

    Python values that are sent to a service are modelled by [pyval], with
    dictionaries as finite maps; the AWS clients are modelled by a record of
    scripted replies, and every call through a client is recorded in a log. *)

From Stdlib Require Import ZArith String Ascii List Lia DecimalString.
From stdpp Require Import base option list gmap strings fin_maps.

Set Warnings "-register-all".
Local Open Scope string_scope.
Local Open Scope Z_scope.

(** ** Python values *)

(** The JSON-like values the notebooks build and hand to boto3 and to
    opensearch-py.  A [dict] is a finite map from string keys, so two
    dictionaries are equal exactly when they hold the same keys with the
    same values, as with Python's [==].  A float is kept as the pair of its
    mantissa and binary exponent; the notebooks only pass floats on. *)
Inductive pyval : Type :=
| PNone
| PStr (s : string)
| PInt (z : Z)
| PFloat (mantissa exponent : Z)
| PList (l : list pyval)
| PDict (d : gmap string pyval).

(** [d[k]] on a value; [None] where Python raises (missing key, or a value
    that is not a dictionary). *)
Definition py_getitem (v : pyval) (k : string) : option pyval :=
  match v with
  | PDict d => d !! k
  | _ => None
  end.

(** Truth value of an optional string argument, as in [if image_base64:]:
    [None] and the empty string are false. *)
Definition truthy (o : option string) : bool :=
  match o with
  | None => false
  | Some s => negb (String.eqb s "")
  end.

(** An optional string argument as the Python value it is. *)
Definition py_str (o : option string) : pyval :=
  match o with
  | None => PNone
  | Some s => PStr s
  end.

(** ** Payload construction *)

Module TextImage.

(** [build_model_input] of the text-and-image notebook: the [images] key is
    always present, with an empty list when no image is given. *)
Definition build_model_input (prompt : string) (image_base64 : option string)
    (duration fps : Z) (resolution : string) (seed : Z) : pyval :=
  let image_parameter :=
    if truthy image_base64
    then [PDict (list_to_map
                   [("format", PStr "png");
                    ("source", PDict (list_to_map
                        [("bytes", py_str image_base64)]))])]
    else [] in
  PDict (list_to_map
    [("taskType", PStr "TEXT_VIDEO");
     ("textToVideoParams", PDict (list_to_map
        [("text", PStr prompt);
         ("images", PList image_parameter)]));
     ("videoGenerationConfig", PDict (list_to_map
        [("durationSeconds", PInt duration);
         ("fps", PInt fps);
         ("dimension", PStr resolution);
         ("seed", PInt seed)]))]).

End TextImage.

Module TextOnly.

(** [output['textToVideoParams']['images'] = v]: assignment into the nested
    dictionary of the payload. *)
Definition set_images (output : pyval) (v : pyval) : pyval :=
  match output with
  | PDict d =>
      match d !! "textToVideoParams" with
      | Some (PDict params) =>
          PDict (<["textToVideoParams" := PDict (<["images" := v]> params)]> d)
      | _ => output
      end
  | _ => output
  end.

(** [build_model_input] of the text-only notebook: the payload is built
    without [images], and the key is added only for a true [image_base64]. *)
Definition build_model_input (prompt : string) (image_base64 : option string)
    (duration fps : Z) (resolution : string) (seed : Z) : pyval :=
  let output :=
    PDict (list_to_map
      [("taskType", PStr "TEXT_VIDEO");
       ("textToVideoParams", PDict (list_to_map
          [("text", PStr prompt)]));
       ("videoGenerationConfig", PDict (list_to_map
          [("durationSeconds", PInt duration);
           ("fps", PInt fps);
           ("dimension", PStr resolution);
           ("seed", PInt seed)]))]) in
  if truthy image_base64
  then set_images output
         (PList [PDict (list_to_map
                   [("format", PStr "png");
                    ("source", PDict (list_to_map
                        [("bytes", py_str image_base64)]))])])
  else output.

End TextOnly.

(** The [images] entry of a payload's [textToVideoParams]. *)
Definition payload_images (payload : pyval) : option pyval :=
  py_getitem payload "textToVideoParams" ≫= fun p => py_getitem p "images".

(** ** Python string helpers *)

(** [s.split(sep)] for a one-character separator: always at least one
    piece, empty pieces kept. *)
Fixpoint split (sep : ascii) (s : string) : list string :=
  match s with
  | EmptyString => [""]
  | String c rest =>
      if Ascii.eqb c sep then "" :: split sep rest
      else match split sep rest with
           | piece :: pieces => String c piece :: pieces
           | [] => [String c ""]
           end
  end.

(** ["/".join(uri.split('/')[3:])]: the object key of an [s3://bucket/key]
    URI. *)
Definition s3_key_of_uri (uri : string) : string :=
  String.concat "/" (drop 3 (split "/"%char uri)).

(** [str(n)] for a natural number. *)
Definition str_of_nat (n : nat) : string :=
  NilEmpty.string_of_uint (Nat.to_uint n).

(** ** Exceptions, service replies and the call log *)

(** The exceptions the notebooks meet.  An [AttributeError] names the type
    of the object and the attribute it lacks.  A [ClientError] is the
    botocore exception for an error returned by a service: [message] is
    [e.response['Error']['Message']] and [text] is [str(e)], the longer line
    botocore builds from the error code, the operation and that message.  A
    [TransportError] is any other exception of a client call, with the name
    of its type and its [str]. *)
Inductive exn : Type :=
| RuntimeError (msg : string)
| KeyError (key : string)
| AttributeError (type_name attr : string)
| ClientError (message text : string)
| TransportError (type_name msg : string).

(** [type(e).__name__]. *)
Definition exn_type (e : exn) : string :=
  match e with
  | RuntimeError _ => "RuntimeError"
  | KeyError _ => "KeyError"
  | AttributeError _ _ => "AttributeError"
  | ClientError _ _ => "ClientError"
  | TransportError type_name _ => type_name
  end.

(** [str(e)]. *)
Definition exn_message (e : exn) : string :=
  match e with
  | RuntimeError m => m
  | KeyError k => "'" ++ k ++ "'"
  | AttributeError type_name a =>
      "'" ++ type_name ++ "' object has no attribute '" ++ a ++ "'"
  | ClientError _ text => text
  | TransportError _ m => m
  end.

(** The dictionary returned by [get_async_invoke], restricted to the keys
    the monitor reads.  [s3Uri] stands for the path
    [outputDataConfig/s3OutputDataConfig/s3Uri]; an absent key is [None]. *)
Record response : Type := {
  status : string;
  s3Uri : option string;
  submitTime : option string;
  failureMessage : option string
}.

(** A search hit: the [_source] fields of an indexed document, as fixed by
    the index mapping of the ingestion notebook ([image_vector] is excluded
    by the query). *)
Record hit : Type := {
  description : string;
  image_base64_s3_uri : string;
  image_s3_uri : string
}.

(** The clients of the notebooks.  The program is sequential, so the
    behaviour of a service during a run is given by its reply to the n-th
    call of each operation ([inl e]: the call raises [e]); status polls are
    numbered per job. *)
Record services : Type := {
  (* bedrock_runtime.invoke_model, after json.loads of the body *)
  bedrock_invoke_model : nat -> exn + pyval;
  (* oss_client.search, after response["hits"]["hits"] *)
  oss_search : nat -> exn + list hit;
  (* s3_client.get_object and decoding of its body *)
  s3_get_object : nat -> string -> string -> exn + string;
  (* bedrock_runtime.start_async_invoke: the invocationArn *)
  bedrock_start_async_invoke : nat -> exn + string;
  (* bedrock_runtime.get_async_invoke *)
  bedrock_get_async_invoke : string -> nat -> exn + response
}.

Inductive event : Type :=
| InvokeModel (modelId : string) (body : pyval) (reply : exn + pyval)
| OssSearch (index : string) (body : pyval) (reply : exn + list hit)
| GetObject (bucket key : string) (reply : exn + string)
| StartAsyncInvoke (modelId : string) (modelInput : pyval) (s3Uri : string)
    (reply : exn + string)
| GetAsyncInvoke (invocationArn : string) (reply : exn + response)
| Sleep (seconds : Z)
| PrintLine (line : string).

(** The variables the notebooks share between cells and restore with
    [%store -r]. *)
Record globals : Type := {
  BUCKET : string;
  INDEX_NAME : string;
  COLLECTION_ENDPOINT : string;
  REGION : string;
  action_prompt : string;
  inpainted_image_s3_key_file : string
}.

(** What has happened so far: how often each operation was called, and the
    log of calls, oldest first. *)
Record state : Type := {
  n_invoke_model : nat;
  n_search : nat;
  n_get_object : nat;
  n_start : nat;
  n_polls : gmap string nat;
  log : list event
}.

Definition initial_state : state :=
  {| n_invoke_model := 0; n_search := 0; n_get_object := 0; n_start := 0;
     n_polls := ∅; log := [] |}.

(** ** The monad of notebook code: state, exceptions and fuel *)

Inductive outcome (A : Type) : Type :=
| Ret (a : A)
| Raise (e : exn)
| OutOfFuel.
Arguments Ret {A} a.
Arguments Raise {A} e.
Arguments OutOfFuel {A}.

Definition M (A : Type) : Type := state -> outcome A * state.

#[global] Instance M_ret : MRet M := fun A a st => (Ret a, st).

#[global] Instance M_bind : MBind M := fun A B k m st =>
  match m st with
  | (Ret a, st') => k a st'
  | (Raise e, st') => (Raise e, st')
  | (OutOfFuel, st') => (OutOfFuel, st')
  end.

Definition raise {A} (e : exn) : M A := fun st => (Raise e, st).

Definition out_of_fuel {A} : M A := fun st => (OutOfFuel, st).

(** [try: m except Exception as e: h e]. *)
Definition try_except {A} (m : M A) (h : exn -> M A) : M A := fun st =>
  match m st with
  | (Raise e, st') => h e st'
  | r => r
  end.

(** [d[k]] with Python's [KeyError]. *)
Definition key {A} (k : string) (o : option A) : M A :=
  match o with
  | Some a => mret a
  | None => raise (KeyError k)
  end.

Definition emit (e : event) : M unit := fun st =>
  (Ret tt,
   {| n_invoke_model := n_invoke_model st; n_search := n_search st;
      n_get_object := n_get_object st; n_start := n_start st;
      n_polls := n_polls st; log := log st ++ [e] |}).

Definition print (line : string) : M unit := emit (PrintLine line).

Definition time_sleep (seconds : Z) : M unit := emit (Sleep seconds).

(** Turn a service reply into a return or a raise. *)
Definition reply_outcome {A} (r : exn + A) : outcome A :=
  match r with
  | inl e => Raise e
  | inr a => Ret a
  end.

(** ** The notebooks' functions *)

Section Notebooks.

Context (env : services) (g : globals).

(** *** Client calls *)

Definition invoke_model (modelId : string) (body : pyval) : M pyval := fun st =>
  let r := bedrock_invoke_model env (n_invoke_model st) in
  (reply_outcome r,
   {| n_invoke_model := S (n_invoke_model st); n_search := n_search st;
      n_get_object := n_get_object st; n_start := n_start st;
      n_polls := n_polls st;
      log := log st ++ [InvokeModel modelId body r] |}).

Definition search (index : string) (body : pyval) : M (list hit) := fun st =>
  let r := oss_search env (n_search st) in
  (reply_outcome r,
   {| n_invoke_model := n_invoke_model st; n_search := S (n_search st);
      n_get_object := n_get_object st; n_start := n_start st;
      n_polls := n_polls st;
      log := log st ++ [OssSearch index body r] |}).

Definition get_object (bucket key : string) : M string := fun st =>
  let r := s3_get_object env (n_get_object st) bucket key in
  (reply_outcome r,
   {| n_invoke_model := n_invoke_model st; n_search := n_search st;
      n_get_object := S (n_get_object st); n_start := n_start st;
      n_polls := n_polls st;
      log := log st ++ [GetObject bucket key r] |}).

Definition start_async_invoke (modelId : string) (modelInput : pyval)
    (s3Uri : string) : M string := fun st =>
  let r := bedrock_start_async_invoke env (n_start st) in
  (reply_outcome r,
   {| n_invoke_model := n_invoke_model st; n_search := n_search st;
      n_get_object := n_get_object st; n_start := S (n_start st);
      n_polls := n_polls st;
      log := log st ++ [StartAsyncInvoke modelId modelInput s3Uri r] |}).

(** Number of status polls already issued for a job. *)
Definition polls_of (st : state) (invocationArn : string) : nat :=
  default 0%nat (n_polls st !! invocationArn).

Definition get_async_invoke (invocationArn : string) : M response := fun st =>
  let k := polls_of st invocationArn in
  let r := bedrock_get_async_invoke env invocationArn k in
  (reply_outcome r,
   {| n_invoke_model := n_invoke_model st; n_search := n_search st;
      n_get_object := n_get_object st; n_start := n_start st;
      n_polls := <[invocationArn := S k]> (n_polls st);
      log := log st ++ [GetAsyncInvoke invocationArn r] |}).

(** *** [_02_video_gen_text_only] *)

(** [start_video_generation]: the handler reads [e.response], which only a
    botocore [ClientError] has; it prints the message of the response and
    re-raises.  For any other exception the handler itself fails. *)
Definition start_video_generation (bucket : string) (model_input : pyval)
    : M string :=
  try_except
    (invocation ← start_async_invoke "amazon.nova-reel-v1:0" model_input
                    ("s3://" ++ bucket);
     print "Video generation job started successfully.";;
     mret invocation)
    (fun e =>
       match e with
       | ClientError message _ =>
           print ("Error starting video generation: " ++ message);;
           raise e
       | _ => raise (AttributeError (exn_type e) "response")
       end).

Definition is_terminal (status : string) : bool :=
  String.eqb status "Completed" || String.eqb status "Failed".

(** The [while] loop of [monitor_video_generation]: [last] is the value of
    the variable [status] when the condition is tested and [current] its
    value after the poll.  [fuel] bounds the number of iterations, and a
    loop that leaves through its condition makes the function return
    [None]. *)
Fixpoint monitor_loop (fuel : nat) (invocation_arn : string) (last : string)
    : M (option string) :=
  if is_terminal last then mret None
  else
    match fuel with
    | O => out_of_fuel
    | S fuel' =>
        response ← get_async_invoke invocation_arn;
        let current := response.(status) in
        if String.eqb current "Completed" then
          s3_uri ← key "outputDataConfig" response.(s3Uri);
          print ("Video generation completed. Video available at: "
                 ++ s3_uri ++ "/output.mp4");;
          mret (Some (s3_uri ++ "/output.mp4"))
        else
          (if String.eqb current "InProgress" then
             submit_time ← key "submitTime" response.(submitTime);
             print ("Job " ++ invocation_arn
                    ++ " is in progress. Started at: " ++ submit_time)
           else if String.eqb current "Failed" then
             failure_message ← key "failureMessage" response.(failureMessage);
             print ("Job " ++ invocation_arn ++ " failed. Reason: "
                    ++ failure_message);;
             raise (RuntimeError "Video generation failed.")
           else mret tt);;
          time_sleep 60;;
          monitor_loop fuel' invocation_arn current
    end.

Definition monitor_video_generation (fuel : nat) (invocation_arn : string)
    : M (option string) :=
  monitor_loop fuel invocation_arn "InProgress".

(** *** [_01_oss_ingestion] *)

(** [get_titan_multimodal_embedding] as the search calls it: no
    [image_path], a text [description]. *)
Definition get_titan_multimodal_embedding (description : string)
    (dimension : Z) : M pyval :=
  let payload_body : gmap string pyval :=
    if truthy (Some description) then {[ "inputText" := PStr description ]}
    else ∅ in
  let embedding_config : gmap string pyval :=
    {[ "embeddingConfig" :=
         PDict {[ "outputEmbeddingLength" := PInt dimension ]} ]} in
  invoke_model "amazon.titan-embed-image-v1"
    (PDict (embedding_config ∪ payload_body)).

Definition query_open_search (index_name : string) (prompt : string)
    (top_k : Z) : M (list hit) :=
  embedding ← get_titan_multimodal_embedding prompt 1024;
  query_emb ← key "embedding" (py_getitem embedding "embedding");
  let query_body :=
    PDict (list_to_map
      [("size", PInt top_k);
       ("_source", PDict (list_to_map
          [("exclude", PList [PStr "image_vector"])]));
       ("query", PDict (list_to_map
          [("knn", PDict (list_to_map
             [("image_vector", PDict (list_to_map
                [("vector", query_emb);
                 ("k", PInt top_k)]))]))]))]) in
  search index_name query_body.

(** *** [_06_video_gen_inpainting] *)

(** [read_s3_text]: every exception is printed and turned into [None]. *)
Definition read_s3_text (bucket_name file_key : string) : M (option string) :=
  try_except
    (text ← get_object bucket_name file_key; mret (Some text))
    (fun e =>
       print ("Error reading file from S3: " ++ exn_message e);;
       mret None).

(** [vrag] of the inpainting part: neither parameter is used. *)
Definition vrag_inpainting (fuel : nat) (image_prompt camera_prompt : string)
    : M (option string) :=
  image_base64 ← read_s3_text g.(BUCKET) g.(inpainted_image_s3_key_file);
  let model_input :=
    TextImage.build_model_input g.(action_prompt) image_base64
      6 24 "1280x720" 0 in
  invocation ← start_video_generation g.(BUCKET) model_input;
  monitor_video_generation fuel invocation.

(** [vrag] of the retrieval part.  [get_oss_client] only builds the client
    object from the endpoint and the region; the search goes through
    [query_open_search]. *)
Definition vrag (fuel : nat) (image_prompt camera_prompt : string)
    : M (option string) :=
  results ← query_open_search g.(INDEX_NAME) image_prompt 1;
  match results with
  | [] =>
      print ("Warning: No images found for '" ++ image_prompt
             ++ "', skipping video generation.");;
      mret None
  | best :: _ =>
      let file_key := s3_key_of_uri best.(image_base64_s3_uri) in
      image_base64 ← read_s3_text g.(BUCKET) file_key;
      let model_input :=
        TextImage.build_model_input camera_prompt image_base64
          6 24 "1280x720" 0 in
      invocation ← start_video_generation g.(BUCKET) model_input;
      monitor_video_generation fuel invocation
  end.

(** The [for] loop of [process_videos_from_prompts]: [i] is the index of
    the next prompt, [total] is [len(prompt_list)] and [video_uris] the list
    built so far. *)
Fixpoint process_loop (fuel : nat) (object_prompt : string) (total i : nat)
    (prompts : list string) (video_uris : list (option string * string))
    : M (list (option string * string)) :=
  match prompts with
  | [] => mret video_uris
  | formatted_prompt :: rest =>
      print ("Processing video " ++ str_of_nat (i + 1) ++ "/"
             ++ str_of_nat total ++ ": " ++ formatted_prompt);;
      results ← query_open_search g.(INDEX_NAME) object_prompt 1;
      match results with
      | [] =>
          print ("Warning: No images found for '" ++ object_prompt
                 ++ "', skipping this prompt.");;
          process_loop fuel object_prompt total (S i) rest video_uris
      | best :: _ =>
          let file_key := s3_key_of_uri best.(image_base64_s3_uri) in
          image_base64 ← read_s3_text g.(BUCKET) file_key;
          let model_input :=
            TextImage.build_model_input formatted_prompt image_base64
              6 24 "1280x720" 0 in
          invocation ← start_video_generation g.(BUCKET) model_input;
          video_uri ← monitor_video_generation fuel invocation;
          process_loop fuel object_prompt total (S i) rest
            (video_uris ++ [(video_uri, formatted_prompt)])
      end
  end.

Definition process_videos_from_prompts (fuel : nat)
    (prompt_list : list string) (object_prompt : string)
    : M (list (option string * string)) :=
  process_loop fuel object_prompt (length prompt_list) 0 prompt_list [].

End Notebooks.

(** ** Vocabulary of the statements *)

(** The reply a monitor that starts in [st] gets to its [i]-th poll of a
    job (counting from 0): the job's status stream as the monitor sees it. *)
Definition status_stream (env : services) (invocation_arn : string)
    (st : state) (i : nat) : exn + response :=
  bedrock_get_async_invoke env invocation_arn (polls_of st invocation_arn + i).

(** The poll returned a terminal status. *)
Definition terminal_reply (r : exn + response) : bool :=
  match r with
  | inl _ => false
  | inr resp => is_terminal resp.(status)
  end.

(** The poll returned a status that is not terminal, with the submit time
    the progress line prints when the status is [InProgress]. *)
Definition pending_reply (r : exn + response) : bool :=
  match r with
  | inl _ => false
  | inr resp =>
      negb (is_terminal resp.(status))
      && (negb (String.eqb resp.(status) "InProgress")
          || bool_decide (is_Some resp.(submitTime)))
  end.

Definition is_poll (e : event) : bool :=
  match e with GetAsyncInvoke _ _ => true | _ => false end.

Definition is_sleep (e : event) : bool :=
  match e with Sleep _ => true | _ => false end.

Definition is_submit (e : event) : bool :=
  match e with StartAsyncInvoke _ _ _ _ => true | _ => false end.

Definition is_search (e : event) : bool :=
  match e with OssSearch _ _ _ => true | _ => false end.

(** Number of events of a kind in a log. *)
Definition count (kind : event -> bool) (evs : list event) : nat :=
  length (filter (fun e => kind e = true) evs).

(** No status poll follows a poll that returned a terminal status. *)
Definition polls_stop_at_terminal (evs : list event) : Prop :=
  forall (before : list event) arn r (after : list event),
    evs = (before ++ GetAsyncInvoke arn r :: after)%list ->
    terminal_reply r = true ->
    Forall (fun e => is_poll e = false) after.

(** The state after a poll of [arn] answered by [r]. *)
Definition after_poll (invocation_arn : string) (r : exn + response)
    (st : state) : state :=
  {| n_invoke_model := n_invoke_model st; n_search := n_search st;
     n_get_object := n_get_object st; n_start := n_start st;
     n_polls := <[invocation_arn := S (polls_of st invocation_arn)]> (n_polls st);
     log := log st ++ [GetAsyncInvoke invocation_arn r] |}.

(** The state after events that call no service. *)
Definition after_events (evs : list event) (st : state) : state :=
  {| n_invoke_model := n_invoke_model st; n_search := n_search st;
     n_get_object := n_get_object st; n_start := n_start st;
     n_polls := n_polls st; log := log st ++ evs |}.

(** What one iteration of the loop logs after a poll answered by a pending
    status: the progress line, if any, and the sleep. *)
Definition pending_tail (invocation_arn : string) (resp : response)
    : list event :=
  (if String.eqb resp.(status) "InProgress"
   then [PrintLine ("Job " ++ invocation_arn ++ " is in progress. Started at: "
                ++ default "" resp.(submitTime))]
   else [])
  ++ [Sleep 60].

(** The events a monitor produces: polls, sleeps and printed lines. *)
Definition monitor_event (e : event) : bool :=
  match e with
  | GetAsyncInvoke _ _ | Sleep _ | PrintLine _ => true
  | _ => false
  end.

(** Two states in which the embedding, search, storage and submission
    services have been called equally often. *)
Definition same_calls (st st' : state) : Prop :=
  n_invoke_model st' = n_invoke_model st /\ n_search st' = n_search st /\
  n_get_object st' = n_get_object st /\ n_start st' = n_start st.

(** From [st] to [st']: how often the embedding model, the search, the
    object store and the job submission were called in between, and the
    events logged. *)
Definition advances (st st' : state) (models searches objects submits : nat)
    (evs : list event) : Prop :=
  n_invoke_model st' = (n_invoke_model st + models)%nat
  /\ n_search st' = (n_search st + searches)%nat
  /\ n_get_object st' = (n_get_object st + objects)%nat
  /\ n_start st' = (n_start st + submits)%nat
  /\ log st' = (log st ++ evs)%list
  /\ count is_search evs = searches
  /\ count is_submit evs = submits.

(** The model inputs of the generation requests in a log. *)
Definition submitted_inputs (evs : list event) : list pyval :=
  omap (fun e => match e with
                 | StartAsyncInvoke _ modelInput _ _ => Some modelInput
                 | _ => None
                 end) evs.

(** The embedding call of the n-th lookup returns an embedding. *)
Definition embedding_available (env : services) (n : nat) : Prop :=
  exists embedding vector,
    bedrock_invoke_model env n = inr embedding
    /\ py_getitem embedding "embedding" = Some vector.

(** From its [k]-th poll on, the job is pending for [n] polls and then
    Completed with an output location. *)
Definition completes_after (env : services) (invocation_arn : string)
    (k n : nat) : Prop :=
  (forall i, (i < n)%nat ->
     pending_reply (bedrock_get_async_invoke env invocation_arn (k + i)) = true)
  /\ exists resp s3_uri,
       bedrock_get_async_invoke env invocation_arn (k + n) = inr resp
       /\ resp.(status) = "Completed"
       /\ resp.(s3Uri) = Some s3_uri.

(** The prompts of a batch whose lookup finds an asset, [k] being the
    number of lookups made before the batch. *)
Fixpoint prompts_with_asset (env : services) (k : nat) (prompts : list string)
    : list string :=
  match prompts with
  | [] => []
  | p :: rest =>
      match oss_search env k with
      | inr [] => prompts_with_asset env (S k) rest
      | _ => p :: prompts_with_asset env (S k) rest
      end
  end.

(** The number of prompts of a batch whose lookup finds nothing. *)
Fixpoint missed (env : services) (k : nat) (prompts : list string) : nat :=
  match prompts with
  | [] => 0
  | _ :: rest =>
      match oss_search env k with
      | inr [] => S (missed env (S k) rest)
      | _ => missed env (S k) rest
      end
  end.

(** The submissions a log records as accepted: the model input of each
    and the invocation it returned. *)
Definition accepted_jobs (evs : list event) : list (pyval * string) :=
  omap (fun e => match e with
                 | StartAsyncInvoke _ modelInput _ (inr invocation_arn) =>
                     Some (modelInput, invocation_arn)
                 | _ => None
                 end) evs.

(** The polls a log records as answered Completed: the invocation polled
    and the output location of the reply. *)
Definition completed_polls (evs : list event) : list (string * option string) :=
  omap (fun e => match e with
                 | GetAsyncInvoke invocation_arn (inr resp) =>
                     if String.eqb resp.(status) "Completed"
                     then Some (invocation_arn, resp.(s3Uri))
                     else None
                 | _ => None
                 end) evs.

(** The model inputs a batch has to submit: for each prompt whose lookup
    finds an asset, the input built from that prompt and from the encoded
    image of the first hit as the object store returns it ([None] when the
    read fails); [k] lookups and [j] reads were made before the batch. *)
Fixpoint expected_inputs (env : services) (g : globals) (k j : nat)
    (prompts : list string) : list pyval :=
  match prompts with
  | [] => []
  | p :: rest =>
      match oss_search env k with
      | inr (best :: _) =>
          let image :=
            match s3_get_object env j g.(BUCKET)
                    (s3_key_of_uri best.(image_base64_s3_uri)) with
            | inr text => Some text
            | inl _ => None
            end in
          TextImage.build_model_input p image 6 24 "1280x720" 0
          :: expected_inputs env g (S k) (S j) rest
      | _ => expected_inputs env g (S k) j rest
      end
  end.

(** ** Scenarios *)

Definition in_progress (submit_time : string) : response :=
  {| status := "InProgress"; s3Uri := Some "s3://demo-bucket/job";
     submitTime := Some submit_time; failureMessage := None |}.

Definition completed (s3_uri : string) : response :=
  {| status := "Completed"; s3Uri := Some s3_uri;
     submitTime := Some "2025-01-01 10:00:00"; failureMessage := None |}.

Definition failed (reason : string) : response :=
  {| status := "Failed"; s3Uri := Some "s3://demo-bucket/job";
     submitTime := Some "2025-01-01 10:00:00"; failureMessage := Some reason |}.

Definition red_shoes : hit :=
  {| description := "A pair of red shoes";
     image_base64_s3_uri := "s3://demo-bucket/base64/shoes.txt";
     image_s3_uri := "s3://demo-bucket/images/shoes.jpg" |}.

Definition demo_embedding : pyval :=
  PDict {[ "embedding" := PList [PFloat 1 (-2); PFloat 1 (-1)] ;
           "inputTextTokenCount" := PInt 2 ]}.

(** Every job is in progress for two polls and completed from the third
    on; the second lookup of a run finds nothing. *)
Definition demo_services : services :=
  {| bedrock_invoke_model := fun _ => inr demo_embedding;
     oss_search := fun n => if Nat.eqb n 1 then inr [] else inr [red_shoes];
     s3_get_object := fun _ _ _ => inr "aGVsbG8=";
     bedrock_start_async_invoke := fun n => inr ("arn:job/" ++ str_of_nat n);
     bedrock_get_async_invoke := fun arn k =>
       if Nat.ltb k 2 then inr (in_progress "2025-01-01 10:00:00")
       else inr (completed ("s3://demo-bucket/" ++ arn)) |}.

(** The second job submitted fails at its second poll; the others complete
    at once. *)
Definition failing_services : services :=
  {| bedrock_invoke_model := fun _ => inr demo_embedding;
     oss_search := fun _ => inr [red_shoes];
     s3_get_object := fun _ _ _ => inr "aGVsbG8=";
     bedrock_start_async_invoke := fun n => inr ("arn:job/" ++ str_of_nat n);
     bedrock_get_async_invoke := fun arn k =>
       if String.eqb arn "arn:job/1" then
         if Nat.ltb k 1 then inr (in_progress "2025-01-01 10:00:00")
         else inr (failed "Quota exceeded")
       else inr (completed ("s3://demo-bucket/" ++ arn)) |}.

(** An index without documents: every lookup finds nothing. *)
Definition empty_store_services : services :=
  {| bedrock_invoke_model := fun _ => inr demo_embedding;
     oss_search := fun _ => inr [];
     s3_get_object := fun _ _ _ => inr "aGVsbG8=";
     bedrock_start_async_invoke := fun n => inr ("arn:job/" ++ str_of_nat n);
     bedrock_get_async_invoke := fun arn _ =>
       inr (completed ("s3://demo-bucket/" ++ arn)) |}.

(** A job that stays in progress for ever. *)
Definition stuck_services : services :=
  {| bedrock_invoke_model := fun _ => inr demo_embedding;
     oss_search := fun _ => inr [red_shoes];
     s3_get_object := fun _ _ _ => inr "aGVsbG8=";
     bedrock_start_async_invoke := fun n => inr ("arn:job/" ++ str_of_nat n);
     bedrock_get_async_invoke := fun _ _ =>
       inr (in_progress "2025-01-01 10:00:00") |}.

Definition demo_globals : globals :=
  {| BUCKET := "demo-bucket"; INDEX_NAME := "vrag-index";
     COLLECTION_ENDPOINT := "demo.aoss.amazonaws.com"; REGION := "us-east-1";
     action_prompt := "A tight ground-level shot capturing dog";
     inpainted_image_s3_key_file := "inpainted_images/dog.jpg" |}.

Definition three_prompts : list string :=
  ["red shoes on a beach"; "red shoes in the rain"; "red shoes on a table"].

(** [needle in haystack], for the text of an error. *)
Definition mentions (haystack needle : string) : bool :=
  match String.index 0 needle haystack with
  | Some _ => true
  | None => false
  end.

(** ** Ingestion documents and object keys *)

(** [c in s] for a character. *)
Fixpoint has_char (c : ascii) (s : string) : bool :=
  match s with
  | EmptyString => false
  | String d rest => Ascii.eqb d c || has_char c rest
  end.

(** The two URIs the ingestion loop of [_01_oss_ingestion] stores in a
    document: [f"s3://{BUCKET}/{BASE64_IMAGES_DIR}/{base64_img}"] and
    [f"s3://{BUCKET}/{IMAGES_DIR}/{img_path}"]. *)
Definition s3_uri_in (bucket dir file : string) : string :=
  "s3://" ++ bucket ++ "/" ++ dir ++ "/" ++ file.

(** The document the ingestion loop builds for one image;
    [embedding['embedding']] is looked up by the caller. *)
Definition ingestion_document (bucket base64_images_dir images_dir : string)
    (image_vector : pyval) (description base64_img img_path : string) : pyval :=
  PDict (list_to_map
    [("image_vector", image_vector);
     ("description", PStr description);
     ("image_base64_s3_uri", PStr (s3_uri_in bucket base64_images_dir base64_img));
     ("image_s3_uri", PStr (s3_uri_in bucket images_dir img_path))]).

(** The hit a search returns for such a document: its [_source] without
    [image_vector]. *)
Definition hit_of_document (document : pyval) : option hit :=
  match py_getitem document "description",
        py_getitem document "image_base64_s3_uri",
        py_getitem document "image_s3_uri" with
  | Some (PStr d), Some (PStr b), Some (PStr i) =>
      Some {| description := d; image_base64_s3_uri := b; image_s3_uri := i |}
  | _, _, _ => None
  end.

(** ** More scenarios *)

(** The second poll of every job fails in transport. *)
Definition flaky_services : services :=
  {| bedrock_invoke_model := fun _ => inr demo_embedding;
     oss_search := fun _ => inr [red_shoes];
     s3_get_object := fun _ _ _ =>
       inl (ClientError "Access Denied"
              "An error occurred (AccessDenied) when calling the GetObject operation: Access Denied");
     bedrock_start_async_invoke := fun _ =>
       inl (ClientError "Too many requests"
              "An error occurred (ThrottlingException) when calling the StartAsyncInvoke operation: Too many requests");
     bedrock_get_async_invoke := fun _ k =>
       if Nat.ltb k 1 then inr (in_progress "2025-01-01 10:00:00")
       else inl (TransportError "ConnectionClosedError" "Connection reset by peer") |}.

(** Every job is reported Failed at once, without a failure message, and
    the embedding model answers without an embedding. *)
Definition terse_services : services :=
  {| bedrock_invoke_model := fun _ => inr (PDict {[ "message" := PStr "throttled" ]});
     oss_search := fun _ => inr [red_shoes];
     s3_get_object := fun _ _ _ => inr "";
     bedrock_start_async_invoke := fun n => inr ("arn:job/" ++ str_of_nat n);
     bedrock_get_async_invoke := fun _ _ =>
       inr {| status := "Failed"; s3Uri := None; submitTime := None;
              failureMessage := None |} |}.

(** Every job completes at once; the image of a hit cannot be read. *)
Definition unreadable_services : services :=
  {| bedrock_invoke_model := fun _ => inr demo_embedding;
     oss_search := fun _ => inr [red_shoes];
     s3_get_object := fun _ _ _ =>
       inl (ClientError "The specified key does not exist."
              "An error occurred (NoSuchKey) when calling the GetObject operation: The specified key does not exist.");
     bedrock_start_async_invoke := fun n => inr ("arn:job/" ++ str_of_nat n);
     bedrock_get_async_invoke := fun arn _ =>
       inr (completed ("s3://demo-bucket/" ++ arn)) |}.

(** ** Cells that move files *)

(** The exceptions met by the code that downloads, uploads and indexes:
    those of the functions above, and two more of Python. *)
Inductive cell_exn : Type :=
| ServiceError (e : exn)
| IndexError (msg : string)
| OSError (msg : string).

Definition cell_exn_message (e : cell_exn) : string :=
  match e with
  | ServiceError e => exn_message e
  | IndexError msg => msg
  | OSError msg => msg
  end.

(** File transfers of the S3 client, the indexing call of the search
    client, and the local disk: replies to the n-th call as before;
    [local_file] is the content of a file ([None]: it cannot be opened),
    [text_lines] is what iterating over a file opened in text mode yields
    (the lines, each with its line end, or the exception of [open] or of
    the decoder) and [b64encode] stands for
    [base64.b64encode(...).decode('utf-8')]. *)
Record file_services : Type := {
  s3_download_file : nat -> exn + unit;
  s3_put_object : nat -> exn + unit;
  oss_index : nat -> exn + unit;
  local_file : string -> option string;
  text_lines : string -> cell_exn + list string;
  b64encode : string -> string
}.

Inductive file_event : Type :=
| DownloadFile (bucket key filename : string) (reply : exn + unit)
| PutObject (body bucket key : string) (reply : exn + unit)
| IndexDocument (index : string) (body : pyval) (reply : exn + unit)
| OpenFile (path : string) (content : option string)
| Display (html : string).

(** The state of the notebook: the calls of the functions above, and the
    file operations, oldest first. *)
Record cell_state : Type := {
  calls : state;
  n_download : nat;
  n_put : nat;
  n_index : nat;
  files : list file_event
}.

Definition initial_cell_state : cell_state :=
  {| calls := initial_state; n_download := 0; n_put := 0; n_index := 0;
     files := [] |}.

Inductive cell_outcome (A : Type) : Type :=
| Done (a : A)
| Raised (e : cell_exn)
| Unfinished.
Arguments Done {A} a.
Arguments Raised {A} e.
Arguments Unfinished {A}.

Definition N (A : Type) : Type := cell_state -> cell_outcome A * cell_state.

Definition done {A} (a : A) : N A := fun cs => (Done a, cs).

Definition raised {A} (e : cell_exn) : N A := fun cs => (Raised e, cs).

Definition and_then {A B} (m : N A) (k : A -> N B) : N B := fun cs =>
  match m cs with
  | (Done a, cs') => k a cs'
  | (Raised e, cs') => (Raised e, cs')
  | (Unfinished, cs') => (Unfinished, cs')
  end.

Notation "x <~ m ; k" := (and_then m (fun x => k))
  (at level 100, m at next level, right associativity).
Notation "m ~> k" := (and_then m (fun _ => k))
  (at level 100, right associativity).

(** [try: m except Exception as e: h e] for cells. *)
Definition try_cell {A} (m : N A) (h : cell_exn -> N A) : N A := fun cs =>
  match m cs with
  | (Raised e, cs') => h e cs'
  | r => r
  end.

(** Running a function of the previous part inside a cell. *)
Definition lift {A} (m : M A) : N A := fun cs =>
  let st' := snd (m (calls cs)) in
  let cs' := {| calls := st'; n_download := n_download cs; n_put := n_put cs;
                n_index := n_index cs; files := files cs |} in
  match fst (m (calls cs)) with
  | Ret a => (Done a, cs')
  | Raise e => (Raised (ServiceError e), cs')
  | OutOfFuel => (Unfinished, cs')
  end.

Definition file_reply {A} (r : exn + A) : cell_outcome A :=
  match r with
  | inl e => Raised (ServiceError e)
  | inr a => Done a
  end.

(** [os.path.join(a, b)] for a relative [b]. *)
Definition path_join (a b : string) : string :=
  if String.eqb a "" then b
  else if String.eqb (String.substring (String.length a - 1) 1 a) "/" then a ++ b
  else a ++ "/" ++ b.

Definition nl : string := String "010"%char EmptyString.
Definition dq : string := String "034"%char EmptyString.

(** The HTML block the display cell adds for one downloaded video. *)
Definition video_block (number : nat) (formatted_prompt local_video_path : string)
    : string :=
  nl ++ "        <div style=" ++ dq ++ "margin-bottom: 20px;" ++ dq ++ ">" ++ nl
  ++ "            <h3>Video " ++ str_of_nat number ++ ": " ++ formatted_prompt
  ++ "</h3>" ++ nl
  ++ "            <video width=" ++ dq ++ "640" ++ dq ++ " height=" ++ dq ++ "360"
  ++ dq ++ " controls>" ++ nl
  ++ "                <source src=" ++ dq ++ local_video_path ++ dq ++ " type="
  ++ dq ++ "video/mp4" ++ dq ++ ">" ++ nl
  ++ "                Your browser does not support the video tag." ++ nl
  ++ "            </video>" ++ nl
  ++ "        </div>" ++ nl
  ++ "        ".

(** *** Text of the prompt templates

    A [string] holds the UTF-8 bytes of a Python [str]. *)

Fixpoint string_drop (n : nat) (s : string) : string :=
  match n, s with
  | S n', String _ rest => string_drop n' rest
  | _, _ => s
  end.

Fixpoint string_rev (s : string) : string :=
  match s with
  | EmptyString => EmptyString
  | String c rest => string_rev rest ++ String c EmptyString
  end.

Definition bytes (l : list nat) : string :=
  fold_right (fun n s => String (ascii_of_nat n) s) EmptyString l.

(** The characters for which [str.isspace] holds, in UTF-8: the ASCII ones,
    U+0085, U+00A0, U+1680, U+2000 to U+200A, U+2028, U+2029, U+202F,
    U+205F and U+3000. *)
Definition whitespace : list string :=
  map bytes
    [[9]; [10]; [11]; [12]; [13]; [28]; [29]; [30]; [31]; [32];
     [194; 133]; [194; 160]; [225; 154; 128];
     [226; 128; 128]; [226; 128; 129]; [226; 128; 130]; [226; 128; 131];
     [226; 128; 132]; [226; 128; 133]; [226; 128; 134]; [226; 128; 135];
     [226; 128; 136]; [226; 128; 137]; [226; 128; 138];
     [226; 128; 168]; [226; 128; 169]; [226; 128; 175]; [226; 129; 159];
     [227; 128; 128]]%nat.

(** Dropping leading characters of [chars]; every step drops at least one
    byte, so [String.length s] steps are enough. *)
Fixpoint lstrip_steps (chars : list string) (steps : nat) (s : string) : string :=
  match steps with
  | O => s
  | S steps' =>
      match find (fun w => String.prefix w s) chars with
      | Some w => lstrip_steps chars steps' (string_drop (String.length w) s)
      | None => s
      end
  end.

Definition lstrip (s : string) : string :=
  lstrip_steps whitespace (String.length s) s.

Definition rstrip (s : string) : string :=
  let r := string_rev s in
  string_rev (lstrip_steps (map string_rev whitespace) (String.length r) r).

(** [s.strip()]. *)
Definition strip (s : string) : string := rstrip (lstrip s).

(** The scan of [str.replace] for a non-empty [old]: left to right, the
    occurrences replaced do not overlap and the text put in is not scanned
    again; [skip] counts the bytes of an occurrence still to be passed. *)
Fixpoint replace_from (old new : string) (skip : nat) (s : string) : string :=
  match s with
  | EmptyString => EmptyString
  | String c rest =>
      match skip with
      | S skip' => replace_from old new skip' rest
      | O =>
          if String.prefix old s
          then new ++ replace_from old new (String.length old - 1) rest
          else String c (replace_from old new 0 rest)
      end
  end.

(** With an empty [old], [new] goes before every character and at the
    end. *)
Fixpoint interleave (new s : string) : string :=
  match s with
  | EmptyString => new
  | String c rest => new ++ String c (interleave new rest)
  end.

(** [s.replace(old, new)]. *)
Definition replace (old new s : string) : string :=
  match old with
  | EmptyString => interleave new s
  | String _ _ => replace_from old new 0 s
  end.

(** The body of the loop of [load_and_format_prompts] for one line. *)
Definition format_line (object_prompt action_prompt line : string) : string :=
  let prompt_template := strip line in
  replace "<action_prompt>" action_prompt
    (replace "<object_prompt>" object_prompt prompt_template).

(** The loop of [load_and_format_prompts] over the lines of the file. *)
Fixpoint format_loop (object_prompt action_prompt : string) (lines : list string)
    (formatted_prompts : list string) : list string :=
  match lines with
  | [] => formatted_prompts
  | line :: rest =>
      format_loop object_prompt action_prompt rest
        (formatted_prompts ++ [format_line object_prompt action_prompt line])%list
  end.

Section Cells.

Context (env : services) (fs : file_services) (g : globals).

Definition download_file (bucket key filename : string) : N unit := fun cs =>
  let r := s3_download_file fs (n_download cs) in
  (file_reply r,
   {| calls := calls cs; n_download := S (n_download cs); n_put := n_put cs;
      n_index := n_index cs;
      files := files cs ++ [DownloadFile bucket key filename r] |}).

Definition put_object (body bucket key : string) : N unit := fun cs =>
  let r := s3_put_object fs (n_put cs) in
  (file_reply r,
   {| calls := calls cs; n_download := n_download cs; n_put := S (n_put cs);
      n_index := n_index cs;
      files := files cs ++ [PutObject body bucket key r] |}).

Definition index_document (index : string) (body : pyval) : N unit := fun cs =>
  let r := oss_index fs (n_index cs) in
  (file_reply r,
   {| calls := calls cs; n_download := n_download cs; n_put := n_put cs;
      n_index := S (n_index cs);
      files := files cs ++ [IndexDocument index body r] |}).

(** [open(path, 'rb').read()]. *)
Definition read_file (path : string) : N string := fun cs =>
  let content := local_file fs path in
  (match content with
   | Some bytes => Done bytes
   | None => Raised (OSError ("[Errno 2] No such file or directory: '"
                              ++ path ++ "'"))
   end,
   {| calls := calls cs; n_download := n_download cs; n_put := n_put cs;
      n_index := n_index cs; files := files cs ++ [OpenFile path content] |}).

Definition display (html : string) : N unit := fun cs =>
  (Done tt,
   {| calls := calls cs; n_download := n_download cs; n_put := n_put cs;
      n_index := n_index cs; files := files cs ++ [Display html] |}).

(** *** [_02_video_gen_text_only]: download and workflow *)

(** [download_and_display_video]; the [Video] it returns is given by its
    path.  [video_uri] may be the [None] of a skipped generation. *)
Definition download_and_display_video (bucket : string)
    (video_uri : option string) (output_dir : string) : N string :=
  match video_uri with
  | None => raised (ServiceError (AttributeError "NoneType" "split"))
  | Some video_uri =>
      match split "/"%char video_uri !! 3%nat with
      | None => raised (IndexError "list index out of range")
      | Some name =>
          let local_path := output_dir ++ "/" ++ name ++ ".mp4" in
          lift (print local_path) ~>
          download_file bucket (s3_key_of_uri video_uri) local_path ~>
          lift (print ("Video downloaded to " ++ local_path ++ ".")) ~>
          done local_path
      end
  end.

(** The main workflow cell: start, monitor, download, and every exception
    printed.  The result is the [local_path] the cell has bound, if any. *)
Definition text_only_workflow (fuel : nat) (model_input : pyval)
    (output_dir : string) : N (option string) :=
  try_cell
    (invocation_arn <~ lift (start_video_generation env g.(BUCKET) model_input);
     video_s3_uri <~ lift (monitor_video_generation env fuel invocation_arn);
     local_path <~ download_and_display_video g.(BUCKET) video_s3_uri output_dir;
     done (Some local_path))
    (fun e =>
       lift (print ("An error occurred during video generation: "
                    ++ cell_exn_message e)) ~>
       done None).

(** *** [_06_video_gen_inpainting]: upload and display *)

Definition upload_file_to_s3 (local_file_path bucket_name key_file : string)
    : N bool :=
  try_cell
    (bytes <~ read_file local_file_path;
     let encoded_string := b64encode fs bytes in
     put_object encoded_string bucket_name key_file ~>
     lift (print ("Successfully uploaded base64-encoded " ++ local_file_path
                  ++ " to " ++ bucket_name ++ "/" ++ key_file)) ~>
     done true)
    (fun e =>
       match e with
       | ServiceError (ClientError _ _) =>
           lift (print ("Error uploading file to S3: " ++ cell_exn_message e)) ~>
           done false
       | _ =>
           lift (print ("Error processing file: " ++ cell_exn_message e)) ~>
           done false
       end).

(** The loop of the display cell: [i] is the index of the next pair and
    [video_html] the text built so far. *)
Fixpoint display_loop (output_dir : string) (i : nat)
    (video_uris : list (option string * string)) (video_html : string)
    : N string :=
  match video_uris with
  | [] => done video_html
  | (video_uri, formatted_prompt) :: rest =>
      if negb (truthy video_uri) then
        lift (print ("Skipping Video " ++ str_of_nat (i + 1)
                     ++ " due to missing video URI.")) ~>
        display_loop output_dir (S i) rest video_html
      else
        let local_video_path :=
          path_join output_dir ("video_" ++ str_of_nat (i + 1) ++ ".mp4") in
        video_html <~
          try_cell
            (download_file g.(BUCKET) (s3_key_of_uri (default "" video_uri))
               local_video_path ~>
             done (video_html
                   ++ video_block (i + 1) formatted_prompt local_video_path))
            (fun e =>
               lift (print ("Error downloading video " ++ str_of_nat (i + 1)
                            ++ ": " ++ cell_exn_message e)) ~>
               done video_html);
        display_loop output_dir (S i) rest video_html
  end.

Definition display_videos (output_dir : string)
    (video_uris : list (option string * string)) : N unit :=
  video_html <~ display_loop output_dir 0 video_uris "";
  display video_html.

(** *** [_01_oss_ingestion]: the ingestion loop *)

(** The loop over [zip(embeddings, image_descriptions, _base64_images,
    _images)]: it ends with the shortest of the four lists. *)
Fixpoint ingest_loop (base64_images_dir images_dir : string)
    (embeddings : list pyval) (image_descriptions base64_images images : list string)
    : N unit :=
  match embeddings, image_descriptions, base64_images, images with
  | embedding :: embeddings', description :: image_descriptions',
    base64_img :: base64_images', img_path :: images' =>
      image_vector <~ lift (key "embedding" (py_getitem embedding "embedding"));
      index_document g.(INDEX_NAME)
        (ingestion_document g.(BUCKET) base64_images_dir images_dir image_vector
           description base64_img img_path) ~>
      lift (time_sleep 5) ~>
      ingest_loop base64_images_dir images_dir embeddings' image_descriptions'
        base64_images' images'
  | _, _, _, _ => done tt
  end.

Definition ingest (base64_images_dir images_dir : string)
    (embeddings : list pyval) (image_descriptions base64_images images : list string)
    : N unit :=
  lift (print "Ingesting data into OpenSearch...") ~>
  ingest_loop base64_images_dir images_dir embeddings image_descriptions
    base64_images images ~>
  lift (print "Data ingestion complete.").

(** *** [_06_video_gen_inpainting]: the prompt templates *)

(** [with open(file_path, "r") as file: for line in file]. *)
Definition read_lines (path : string) : N (list string) := fun cs =>
  let r := text_lines fs path in
  (match r with
   | inl e => Raised e
   | inr lines => Done lines
   end,
   {| calls := calls cs; n_download := n_download cs; n_put := n_put cs;
      n_index := n_index cs;
      files := files cs
               ++ [OpenFile path (match r with
                                  | inl _ => None
                                  | inr lines => Some (String.concat "" lines)
                                  end)] |}).

Definition load_and_format_prompts (file_path object_prompt action_prompt : string)
    : N (list string) :=
  lines <~ read_lines file_path;
  done (format_loop object_prompt action_prompt lines []).

End Cells.

(** ** Vocabulary for file operations *)

Definition is_download (e : file_event) : bool :=
  match e with DownloadFile _ _ _ _ => true | _ => false end.

Definition is_index (e : file_event) : bool :=
  match e with IndexDocument _ _ _ => true | _ => false end.

(** The transfers asked of S3 in a log of file operations: bucket, key and
    local file name of each download. *)
Definition download_requests (evs : list file_event)
    : list (string * string * string) :=
  omap (fun e => match e with
                 | DownloadFile bucket key filename _ => Some (bucket, key, filename)
                 | _ => None
                 end) evs.

(** The documents sent to the index in a log of file operations. *)
Definition indexed_documents (evs : list file_event) : list pyval :=
  omap (fun e => match e with
                 | IndexDocument _ body _ => Some body
                 | _ => None
                 end) evs.

(** The downloads the display cell asks for: one for each pair with a
    video URI, named after the position of the pair in the list. *)
Fixpoint display_requests (bucket output_dir : string) (i : nat)
    (video_uris : list (option string * string))
    : list (string * string * string) :=
  match video_uris with
  | [] => []
  | (video_uri, _) :: rest =>
      match video_uri with
      | Some uri =>
          if String.eqb uri "" then display_requests bucket output_dir (S i) rest
          else (bucket, s3_key_of_uri uri,
                path_join output_dir ("video_" ++ str_of_nat (i + 1) ++ ".mp4"))
               :: display_requests bucket output_dir (S i) rest
      | None => display_requests bucket output_dir (S i) rest
      end
  end.

(** The lines of a template file: the last one is blank. *)
Definition demo_prompts : list string :=
  ["<object_prompt> on a beach. <action_prompt>." ++ nl;
   "  A shop window with <object_prompt>, at night" ++ nl;
   nl].

(** A disk with one image and one template file, and transfers that all
    succeed. *)
Definition demo_files : file_services :=
  {| s3_download_file := fun _ => inr tt;
     s3_put_object := fun _ => inr tt;
     oss_index := fun _ => inr tt;
     local_file := fun path =>
       if String.eqb path "images/inpainting/dog/mask_image_1.jpg"
       then Some "JFIF" else None;
     text_lines := fun path =>
       if String.eqb path "prompts.txt" then inr demo_prompts
       else inl (OSError ("[Errno 2] No such file or directory: '" ++ path ++ "'"));
     b64encode := fun _ => "SkZJRg==" |}.

(** Transfers that fail: the second download and every upload. *)
Definition failing_files : file_services :=
  {| s3_download_file := fun n =>
       if Nat.eqb n 1
       then inl (ClientError "Not Found"
                   "An error occurred (404) when calling the HeadObject operation: Not Found")
       else inr tt;
     s3_put_object := fun _ =>
       inl (ClientError "Access Denied"
              "An error occurred (AccessDenied) when calling the PutObject operation: Access Denied");
     oss_index := fun n =>
       if Nat.eqb n 1 then inl (TransportError "ConnectTimeoutError" "Connection timed out")
       else inr tt;
     local_file := fun path =>
       if String.eqb path "images/inpainting/dog/mask_image_1.jpg"
       then Some "JFIF" else None;
     text_lines := fun path =>
       if String.eqb path "prompts.txt" then inr demo_prompts
       else inl (OSError ("[Errno 2] No such file or directory: '" ++ path ++ "'"));
     b64encode := fun _ => "SkZJRg==" |}.

(** The cell state after the calls have moved on to [st]. *)
Definition with_calls (st : state) (cs : cell_state) : cell_state :=
  {| calls := st; n_download := n_download cs; n_put := n_put cs;
     n_index := n_index cs; files := files cs |}.

Definition is_sleep_5 (e : event) : bool :=
  match e with Sleep seconds => Z.eqb seconds 5 | _ => false end.

(** Every job is in progress for one poll and then Failed. *)
Definition doomed_services : services :=
  {| bedrock_invoke_model := fun _ => inr demo_embedding;
     oss_search := fun _ => inr [red_shoes];
     s3_get_object := fun _ _ _ => inr "aGVsbG8=";
     bedrock_start_async_invoke := fun n => inr ("arn:job/" ++ str_of_nat n);
     bedrock_get_async_invoke := fun _ k =>
       if Nat.ltb k 1 then inr (in_progress "2025-01-01 10:00:00")
       else inr (failed "Quota exceeded") |}.

(** Every job completes at once, its output under the folder [x1y2z3]. *)
Definition tidy_services : services :=
  {| bedrock_invoke_model := fun _ => inr demo_embedding;
     oss_search := fun _ => inr [red_shoes];
     s3_get_object := fun _ _ _ => inr "aGVsbG8=";
     bedrock_start_async_invoke := fun _ => inr "arn:async-invoke/x1y2z3";
     bedrock_get_async_invoke := fun _ _ =>
       inr (completed "s3://demo-bucket/x1y2z3") |}.

(** * Properties *)

(** ** The two payload builders *)

Lemma payload_images_text_image prompt img d f r s :
  payload_images (TextImage.build_model_input prompt img d f r s) =
  Some (PList (if truthy img
               then [PDict (list_to_map
                       [("format", PStr "png");
                        ("source", PDict (list_to_map
                           [("bytes", py_str img)]))])]
               else [])).
Proof.
  unfold payload_images, TextImage.build_model_input; simpl.
  rewrite lookup_insert_ne by done. rewrite lookup_insert_eq. simpl.
  rewrite lookup_insert_ne by done. by rewrite lookup_insert_eq.
Qed.

Lemma payload_images_text_only prompt img d f r s :
  payload_images (TextOnly.build_model_input prompt img d f r s) =
  if truthy img
  then Some (PList [PDict (list_to_map
                      [("format", PStr "png");
                       ("source", PDict (list_to_map
                          [("bytes", py_str img)]))])])
  else None.
Proof.
  unfold payload_images, TextOnly.build_model_input.
  destruct (truthy img); vm_compute; reflexivity.
Qed.

Lemma build_model_input_same_with_image prompt img d f r s :
  truthy img = true ->
  TextImage.build_model_input prompt img d f r s =
  TextOnly.build_model_input prompt img d f r s.
Proof.
  intros Himg. unfold TextImage.build_model_input, TextOnly.build_model_input.
  rewrite Himg. vm_compute. reflexivity.
Qed.

Lemma truthy_nonempty (b : string) : b ≠ "" -> truthy (Some b) = true.
Proof.
  intros Hb. simpl. destruct (String.eqb_spec b ""); [contradiction | reflexivity].
Qed.

Lemma truthy_none_or_empty (img : option string) :
  img = None \/ img = Some "" -> truthy img = false.
Proof. intros [-> | ->]; reflexivity. Qed.

(** C9: the payload builders of the text-and-image notebook and of the
    text-only notebook return equal dictionaries whenever [image_base64] is
    a non-empty string; when it is [None] or empty they differ, the first
    holding an empty [images] list in [textToVideoParams] and the second
    having no [images] key there. *)
Theorem build_model_input_variants (prompt : string) (image_base64 : option string)
    (duration fps : Z) (resolution : string) (seed : Z) :
  (forall b, image_base64 = Some b -> b ≠ "" ->
     TextImage.build_model_input prompt image_base64 duration fps resolution seed =
     TextOnly.build_model_input prompt image_base64 duration fps resolution seed)
  /\
  (image_base64 = None \/ image_base64 = Some "" ->
     TextImage.build_model_input prompt image_base64 duration fps resolution seed ≠
     TextOnly.build_model_input prompt image_base64 duration fps resolution seed
     /\ payload_images
          (TextImage.build_model_input prompt image_base64 duration fps resolution seed)
        = Some (PList [])
     /\ payload_images
          (TextOnly.build_model_input prompt image_base64 duration fps resolution seed)
        = None).
Proof.
  split.
  - intros b -> Hb. apply build_model_input_same_with_image.
    by apply truthy_nonempty.
  - intros Himg. apply truthy_none_or_empty in Himg.
    assert (Hti := payload_images_text_image prompt image_base64 duration fps resolution seed).
    assert (Hto := payload_images_text_only prompt image_base64 duration fps resolution seed).
    rewrite Himg in Hti, Hto. split; [| by split].
    intros Heq. rewrite Heq in Hti. congruence.
Qed.

Lemma build_model_input_variants_witness :
  TextImage.build_model_input "A dog runs" (Some "aGVsbG8=") 6 24 "1280x720" 0 =
  TextOnly.build_model_input "A dog runs" (Some "aGVsbG8=") 6 24 "1280x720" 0
  /\ payload_images
       (TextOnly.build_model_input "A dog runs" (Some "") 6 24 "1280x720" 0) = None.
Proof.
  split.
  - apply (proj1 (build_model_input_variants "A dog runs" (Some "aGVsbG8=")
                    6 24 "1280x720" 0) "aGVsbG8="); [reflexivity | discriminate].
  - apply (proj2 (build_model_input_variants "A dog runs" (Some "")
                    6 24 "1280x720" 0)). right; reflexivity.
Defined.

(** ** The job monitor *)

Section Monitor.

Context (env : services).

Ltac run := unfold mbind, M_bind, mret, M_ret, raise, out_of_fuel, key,
  print, time_sleep, emit, get_async_invoke, reply_outcome, try_except; simpl.

Lemma polls_of_after_poll arn r st :
  polls_of (after_poll arn r st) arn = S (polls_of st arn).
Proof. unfold polls_of at 1; simpl. by rewrite lookup_insert_eq. Qed.

Lemma polls_of_after_events arn evs st :
  polls_of (after_events evs st) arn = polls_of st arn.
Proof. reflexivity. Qed.

Lemma status_stream_after_round arn r evs st i :
  status_stream env arn (after_events evs (after_poll arn r st)) i =
  status_stream env arn st (S i).
Proof.
  unfold status_stream. rewrite polls_of_after_events, polls_of_after_poll.
  f_equal. lia.
Qed.

Lemma monitor_loop_terminal fuel arn last st :
  is_terminal last = true ->
  monitor_loop env fuel arn last st = (Ret None, st).
Proof. intros H. destruct fuel; simpl; rewrite H; reflexivity. Qed.

Lemma monitor_loop_no_fuel arn last st :
  is_terminal last = false ->
  monitor_loop env 0 arn last st = (OutOfFuel, st).
Proof. intros H. simpl. rewrite H. reflexivity. Qed.

Lemma monitor_loop_raise fuel arn last st e :
  is_terminal last = false ->
  status_stream env arn st 0 = inl e ->
  monitor_loop env (S fuel) arn last st = (Raise e, after_poll arn (inl e) st).
Proof.
  unfold status_stream. rewrite Nat.add_0_r. intros Hl Hr.
  simpl. rewrite Hl. run. rewrite Hr. reflexivity.
Qed.

Lemma after_events_app evs1 evs2 st :
  after_events evs2 (after_events evs1 st) = after_events (evs1 ++ evs2) st.
Proof. unfold after_events; simpl. by rewrite <- app_assoc. Qed.

(** One iteration of the loop, by cases on the reply to the poll. *)
Lemma monitor_loop_step fuel arn last st :
  is_terminal last = false ->
  monitor_loop env (S fuel) arn last st =
  let r := status_stream env arn st 0 in
  let st1 := after_poll arn r st in
  match r with
  | inl e => (Raise e, st1)
  | inr resp =>
      if String.eqb resp.(status) "Completed" then
        match resp.(s3Uri) with
        | Some u =>
            (Ret (Some (u ++ "/output.mp4")),
             after_events
               [PrintLine ("Video generation completed. Video available at: "
                       ++ u ++ "/output.mp4")] st1)
        | None => (Raise (KeyError "outputDataConfig"), st1)
        end
      else if String.eqb resp.(status) "InProgress" then
        match resp.(submitTime) with
        | Some t =>
            monitor_loop env fuel arn resp.(status)
              (after_events
                 [PrintLine ("Job " ++ arn ++ " is in progress. Started at: " ++ t);
                  Sleep 60] st1)
        | None => (Raise (KeyError "submitTime"), st1)
        end
      else if String.eqb resp.(status) "Failed" then
        match resp.(failureMessage) with
        | Some m =>
            (Raise (RuntimeError "Video generation failed."),
             after_events
               [PrintLine ("Job " ++ arn ++ " failed. Reason: " ++ m)] st1)
        | None => (Raise (KeyError "failureMessage"), st1)
        end
      else
        monitor_loop env fuel arn resp.(status) (after_events [Sleep 60] st1)
  end.
Proof.
  intros Hlast. unfold status_stream. rewrite Nat.add_0_r.
  simpl. rewrite Hlast. run.
  destruct (bedrock_get_async_invoke env arn (polls_of st arn)) as [e | resp];
    simpl; [reflexivity |].
  destruct (String.eqb (status resp) "Completed").
  { destruct (s3Uri resp); reflexivity. }
  destruct (String.eqb (status resp) "InProgress").
  { destruct (submitTime resp); simpl; [| reflexivity].
    unfold after_events, after_poll; simpl. by rewrite <- app_assoc. }
  destruct (String.eqb (status resp) "Failed").
  { destruct (failureMessage resp); reflexivity. }
  reflexivity.
Qed.

Lemma pending_not_terminal resp :
  pending_reply (inr resp) = true -> is_terminal resp.(status) = false.
Proof. simpl. intros H. apply andb_true_iff in H as [H _]. by apply negb_true_iff. Qed.

Lemma is_terminal_false status :
  is_terminal status = false ->
  String.eqb status "Completed" = false /\ String.eqb status "Failed" = false.
Proof. unfold is_terminal. intros H. by apply orb_false_iff in H. Qed.

Lemma monitor_loop_pending fuel arn last st resp :
  is_terminal last = false ->
  status_stream env arn st 0 = inr resp ->
  pending_reply (inr resp) = true ->
  monitor_loop env (S fuel) arn last st =
  monitor_loop env fuel arn resp.(status)
    (after_events (pending_tail arn resp) (after_poll arn (inr resp) st)).
Proof.
  intros Hlast Hr Hp. rewrite monitor_loop_step by done. simpl. rewrite Hr.
  pose proof (pending_not_terminal _ Hp) as Hnt.
  apply is_terminal_false in Hnt as [Hc Hf]. rewrite Hc.
  unfold pending_tail. simpl in Hp. apply andb_true_iff in Hp as [_ Hp].
  destruct (String.eqb (status resp) "InProgress"); simpl in *.
  - apply bool_decide_eq_true in Hp as [t Ht]. rewrite Ht. reflexivity.
  - rewrite Hf. reflexivity.
Qed.

Lemma same_calls_refl st : same_calls st st.
Proof. by repeat split. Qed.

Lemma same_calls_trans st1 st2 st3 :
  same_calls st1 st2 -> same_calls st2 st3 -> same_calls st1 st3.
Proof. unfold same_calls. intuition congruence. Qed.

Lemma same_calls_round arn r evs st :
  same_calls st (after_events evs (after_poll arn r st)).
Proof. by repeat split. Qed.

Lemma count_app kind (l1 l2 : list event) :
  count kind (l1 ++ l2)%list = (count kind l1 + count kind l2)%nat.
Proof. unfold count. by rewrite filter_app, length_app. Qed.

Lemma count_pending_tail_poll arn resp : count is_poll (pending_tail arn resp) = 0%nat.
Proof. unfold pending_tail. by destruct (String.eqb _ _). Qed.

Lemma count_pending_tail_sleep arn resp : count is_sleep (pending_tail arn resp) = 1%nat.
Proof. unfold pending_tail. by destruct (String.eqb _ _). Qed.

Lemma monitor_event_pending_tail arn resp :
  Forall (fun e => monitor_event e = true) (pending_tail arn resp).
Proof. unfold pending_tail. destruct (String.eqb _ _); repeat constructor. Qed.

(** A prefix of [n] pending polls costs [n] iterations, [n] polls and [n]
    sleeps, and leaves the loop where it was, [n] replies further on. *)
Lemma monitor_loop_pending_prefix arn n : forall last st,
  is_terminal last = false ->
  (forall i, (i < n)%nat -> pending_reply (status_stream env arn st i) = true) ->
  exists last' st',
    is_terminal last' = false
    /\ (forall fuel, monitor_loop env (n + fuel) arn last st =
                     monitor_loop env fuel arn last' st')
    /\ (forall i, status_stream env arn st' i = status_stream env arn st (n + i))
    /\ same_calls st st'
    /\ exists evs, log st' = (log st ++ evs)%list
         /\ count is_poll evs = n /\ count is_sleep evs = n
         /\ Forall (fun e => monitor_event e = true) evs.
Proof.
  induction n as [| n IH]; intros last st Hlast Hpend.
  - exists last, st. repeat split; try done.
    exists []. rewrite app_nil_r. by repeat split.
  - pose proof (Hpend 0%nat ltac:(lia)) as H0.
    destruct (status_stream env arn st 0) as [e | resp] eqn:Hr; [discriminate |].
    set (st1 := after_events (pending_tail arn resp) (after_poll arn (inr resp) st)).
    destruct (IH resp.(status) st1) as
      (last' & st' & Hl' & Hrun & Hstream & Hsame & evs & Hlog & Hpolls & Hsleeps & Hev).
    + by apply pending_not_terminal.
    + intros i Hi. unfold st1. rewrite status_stream_after_round.
      apply Hpend. lia.
    + exists last', st'. split; [done |]. split; [| split; [| split]].
      * intros fuel. change (S n + fuel)%nat with (S (n + fuel)).
        rewrite (monitor_loop_pending _ _ _ _ resp) by done.
        apply Hrun.
      * intros i. rewrite Hstream. unfold st1.
        by rewrite status_stream_after_round.
      * eapply same_calls_trans; [apply same_calls_round | exact Hsame].
      * exists (GetAsyncInvoke arn (inr resp) :: pending_tail arn resp ++ evs)%list.
        split; [| split; [| split]].
        -- rewrite Hlog. unfold st1; simpl. rewrite <- !app_assoc. reflexivity.
        -- change (GetAsyncInvoke arn (inr resp) :: pending_tail arn resp ++ evs)%list
             with ([GetAsyncInvoke arn (inr resp)] ++ pending_tail arn resp ++ evs)%list.
           rewrite !count_app, count_pending_tail_poll, Hpolls. reflexivity.
        -- change (GetAsyncInvoke arn (inr resp) :: pending_tail arn resp ++ evs)%list
             with ([GetAsyncInvoke arn (inr resp)] ++ pending_tail arn resp ++ evs)%list.
           rewrite !count_app, count_pending_tail_sleep, Hsleeps. reflexivity.
        -- constructor; [reflexivity |]. apply Forall_app. split; [| done].
           apply monitor_event_pending_tail.
Qed.

(** *** No poll after a terminal status *)

Lemma polls_stop_nil : polls_stop_at_terminal [].
Proof. intros [| ? ?] ? ? ? Heq; discriminate. Qed.

Lemma polls_stop_cons_other e evs :
  is_poll e = false -> polls_stop_at_terminal evs ->
  polls_stop_at_terminal (e :: evs).
Proof.
  intros He Hevs [| b before] arn r after Heq Hterm; simpl in Heq.
  - injection Heq as -> _. discriminate.
  - injection Heq as _ ->. by eapply Hevs.
Qed.

Lemma polls_stop_cons_pending arn r evs :
  terminal_reply r = false -> polls_stop_at_terminal evs ->
  polls_stop_at_terminal (GetAsyncInvoke arn r :: evs).
Proof.
  intros Hr Hevs [| b before] arn' r' after Heq Hterm; simpl in Heq.
  - injection Heq as _ <- _. congruence.
  - injection Heq as _ ->. by eapply Hevs.
Qed.

Lemma polls_stop_cons_last arn r evs :
  Forall (fun e => is_poll e = false) evs ->
  polls_stop_at_terminal (GetAsyncInvoke arn r :: evs).
Proof.
  intros Hevs [| b before] arn' r' after Heq Hterm; simpl in Heq.
  - by injection Heq as _ _ <-.
  - injection Heq as _ ->. apply Forall_app in Hevs as [_ Hevs].
    by inversion Hevs.
Qed.

(** The trace of any run of the loop: only polls, sleeps and printed lines,
    the other services untouched, and nothing polled after a terminal
    status. *)
Lemma monitor_loop_trace arn fuel : forall last st,
  exists evs,
    log (snd (monitor_loop env fuel arn last st)) = (log st ++ evs)%list
    /\ Forall (fun e => monitor_event e = true) evs
    /\ polls_stop_at_terminal evs
    /\ same_calls st (snd (monitor_loop env fuel arn last st)).
Proof.
  induction fuel as [| fuel IH]; intros last st;
    destruct (is_terminal last) eqn:Hlast.
  - rewrite monitor_loop_terminal by done. exists [].
    rewrite app_nil_r. auto using polls_stop_nil, same_calls_refl.
  - rewrite monitor_loop_no_fuel by done. exists [].
    rewrite app_nil_r. auto using polls_stop_nil, same_calls_refl.
  - rewrite monitor_loop_terminal by done. exists [].
    rewrite app_nil_r. auto using polls_stop_nil, same_calls_refl.
  - rewrite monitor_loop_step by done. simpl.
    destruct (status_stream env arn st 0) as [e | resp] eqn:Hr.
    { exists [GetAsyncInvoke arn (inl e)]. simpl.
      repeat split; auto using polls_stop_cons_last. }
    destruct (String.eqb (status resp) "Completed") eqn:Hc.
    { destruct (s3Uri resp) as [u |]; simpl.
      - eexists [GetAsyncInvoke arn (inr resp); _].
        rewrite <- app_assoc. split; [reflexivity |].
        repeat split; auto using polls_stop_cons_last.
      - exists [GetAsyncInvoke arn (inr resp)].
        repeat split; auto using polls_stop_cons_last. }
    destruct (String.eqb (status resp) "InProgress") eqn:Hp.
    { destruct (submitTime resp) as [t |]; simpl.
      - edestruct IH as (evs & Hlog & Hev & Hstop & Hsame).
        eexists (GetAsyncInvoke arn (inr resp) :: _ :: _ :: evs)%list.
        rewrite Hlog. simpl. rewrite <- !app_assoc.
        split; [reflexivity |]. split; [| split].
        + repeat (constructor; [reflexivity |]). done.
        + apply polls_stop_cons_pending.
          { simpl. apply String.eqb_eq in Hp. rewrite Hp. reflexivity. }
          by repeat (apply polls_stop_cons_other; [reflexivity |]).
        + eapply same_calls_trans; [| exact Hsame]. by repeat split.
      - exists [GetAsyncInvoke arn (inr resp)].
        repeat split; auto using polls_stop_cons_last. }
    destruct (String.eqb (status resp) "Failed") eqn:Hf.
    { destruct (failureMessage resp) as [m |]; simpl.
      - eexists [GetAsyncInvoke arn (inr resp); _].
        rewrite <- app_assoc. split; [reflexivity |].
        repeat split; auto using polls_stop_cons_last.
      - exists [GetAsyncInvoke arn (inr resp)].
        repeat split; auto using polls_stop_cons_last. }
    edestruct IH as (evs & Hlog & Hev & Hstop & Hsame).
    eexists (GetAsyncInvoke arn (inr resp) :: _ :: evs)%list.
    rewrite Hlog. simpl. rewrite <- !app_assoc.
    split; [reflexivity |]. split; [| split].
    + repeat (constructor; [reflexivity |]). done.
    + apply polls_stop_cons_pending.
      { simpl. unfold is_terminal. by rewrite Hc, Hf. }
      by apply polls_stop_cons_other.
    + eapply same_calls_trans; [| exact Hsame]. by repeat split.
Qed.

(** C6: within a run of the monitor, no status poll is issued after a poll
    that returned a terminal status (Completed or Failed), whatever the
    service answers and however long the run is allowed to last. *)
Theorem monitor_never_polls_after_terminal (fuel : nat) (invocation_arn : string)
    (st : state) :
  exists evs,
    log (snd (monitor_video_generation env fuel invocation_arn st))
      = (log st ++ evs)%list
    /\ polls_stop_at_terminal evs.
Proof.
  destruct (monitor_loop_trace invocation_arn fuel "InProgress" st)
    as (evs & Hlog & _ & Hstop & _).
  by exists evs.
Qed.

(** *** Terminal outcomes *)

(** The run of the monitor on a stream whose first [n] replies are pending
    and whose next reply is Completed with an output location. *)
Lemma monitor_completes arn st n resp u fuel :
  (forall i, (i < n)%nat -> pending_reply (status_stream env arn st i) = true) ->
  status_stream env arn st n = inr resp ->
  resp.(status) = "Completed" ->
  resp.(s3Uri) = Some u ->
  (n < fuel)%nat ->
  exists st' evs,
    monitor_video_generation env fuel arn st = (Ret (Some (u ++ "/output.mp4")), st')
    /\ same_calls st st'
    /\ log st' = (log st ++ evs)%list
    /\ Forall (fun e => monitor_event e = true) evs
    /\ count is_poll evs = S n
    /\ count is_sleep evs = n.
Proof.
  intros Hpend Hr Hstatus Huri Hfuel.
  destruct (monitor_loop_pending_prefix arn n "InProgress" st eq_refl Hpend)
    as (last' & st1 & Hl' & Hrun & Hstream & Hsame & evs & Hlog & Hpolls & Hsleeps & Hev).
  unfold monitor_video_generation.
  replace fuel with (n + S (fuel - S n))%nat by lia.
  rewrite Hrun, monitor_loop_step by done. simpl.
  rewrite Hstream, Nat.add_0_r, Hr, Hstatus, Huri. simpl.
  eexists _, (evs ++ [GetAsyncInvoke arn (inr resp); _])%list.
  split; [reflexivity |]. split; [| split; [| split; [| split]]].
  - eapply same_calls_trans; [exact Hsame | by repeat split].
  - simpl. rewrite Hlog, <- !app_assoc. reflexivity.
  - apply Forall_app. split; [done |]. by repeat constructor.
  - rewrite count_app, Hpolls. unfold count; simpl. lia.
  - rewrite count_app, Hsleeps. unfold count; simpl. lia.
Qed.

(** The run of the monitor on a stream whose first [n] replies are pending
    and whose next reply is Failed with a failure message. *)
Lemma monitor_fails arn st n resp m fuel :
  (forall i, (i < n)%nat -> pending_reply (status_stream env arn st i) = true) ->
  status_stream env arn st n = inr resp ->
  resp.(status) = "Failed" ->
  resp.(failureMessage) = Some m ->
  (n < fuel)%nat ->
  exists st' evs,
    monitor_video_generation env fuel arn st
      = (Raise (RuntimeError "Video generation failed."), st')
    /\ same_calls st st'
    /\ log st' = (log st ++ evs
                    ++ [GetAsyncInvoke arn (inr resp);
                        PrintLine ("Job " ++ arn ++ " failed. Reason: " ++ m)])%list
    /\ Forall (fun e => monitor_event e = true) evs
    /\ count is_poll evs = n.
Proof.
  intros Hpend Hr Hstatus Hmsg Hfuel.
  destruct (monitor_loop_pending_prefix arn n "InProgress" st eq_refl Hpend)
    as (last' & st1 & Hl' & Hrun & Hstream & Hsame & evs & Hlog & Hpolls & Hsleeps & Hev).
  unfold monitor_video_generation.
  replace fuel with (n + S (fuel - S n))%nat by lia.
  rewrite Hrun, monitor_loop_step by done. simpl.
  rewrite Hstream, Nat.add_0_r, Hr, Hstatus, Hmsg. simpl.
  eexists _, evs. split; [reflexivity |].
  split; [eapply same_calls_trans; [exact Hsame | by repeat split] |].
  split; [| done].
  simpl. rewrite Hlog, <- !app_assoc. reflexivity.
Qed.

(** C5: when the polls of a job are pending up to a poll that returns
    Completed, the monitor returns the declared output location followed by
    the fixed suffix [/output.mp4]; that string is not empty. *)
Theorem monitor_completed_returns_location (invocation_arn : string) (st : state)
    (n : nat) (resp : response) (s3_uri : string) :
  (forall i, (i < n)%nat ->
     pending_reply (status_stream env invocation_arn st i) = true) ->
  status_stream env invocation_arn st n = inr resp ->
  resp.(status) = "Completed" ->
  resp.(s3Uri) = Some s3_uri ->
  forall fuel, (n < fuel)%nat ->
    exists st',
      monitor_video_generation env fuel invocation_arn st
        = (Ret (Some (s3_uri ++ "/output.mp4")), st')
      /\ s3_uri ++ "/output.mp4" ≠ "".
Proof.
  intros Hpend Hr Hstatus Huri fuel Hfuel.
  destruct (monitor_completes invocation_arn st n resp s3_uri fuel)
    as (st' & evs & Hrun & _); try done.
  exists st'. split; [done |]. by destruct s3_uri.
Qed.

(** C1 (amended): when the polls of a job are pending up to a poll that
    returns Failed with a failure message, the monitor prints the job and
    the service's failure reason, raises [RuntimeError] with the fixed text
    "Video generation failed." and stops: the Failed poll is its last call
    to the service. *)
Theorem monitor_failed_raises_fixed_error (invocation_arn : string) (st : state)
    (n : nat) (resp : response) (reason : string) :
  (forall i, (i < n)%nat ->
     pending_reply (status_stream env invocation_arn st i) = true) ->
  status_stream env invocation_arn st n = inr resp ->
  resp.(status) = "Failed" ->
  resp.(failureMessage) = Some reason ->
  forall fuel, (n < fuel)%nat ->
    exists st' evs,
      monitor_video_generation env fuel invocation_arn st
        = (Raise (RuntimeError "Video generation failed."), st')
      /\ log st' = (log st ++ evs
                      ++ [GetAsyncInvoke invocation_arn (inr resp);
                          PrintLine ("Job " ++ invocation_arn ++ " failed. Reason: "
                                 ++ reason)])%list
      /\ count is_poll evs = n.
Proof.
  intros Hpend Hr Hstatus Hmsg fuel Hfuel.
  destruct (monitor_fails invocation_arn st n resp reason fuel)
    as (st' & evs & Hrun & _ & Hlog & _ & Hpolls); try done.
  by exists st', evs.
Qed.

(** *** The scenario of three polls *)

(** C7: for a job whose first three polls return InProgress, InProgress and
    Completed, the monitor issues exactly three polls, sleeps 60 seconds
    exactly twice, once after each of the two pending polls and not after
    the third, and returns the result location at the third poll: a run cut
    short before its third iteration has returned nothing. *)
Theorem monitor_pending_pending_completed (invocation_arn : string) (st : state)
    (r0 r1 r2 : response) (t0 t1 s3_uri : string) :
  status_stream env invocation_arn st 0 = inr r0 ->
  r0.(status) = "InProgress" -> r0.(submitTime) = Some t0 ->
  status_stream env invocation_arn st 1 = inr r1 ->
  r1.(status) = "InProgress" -> r1.(submitTime) = Some t1 ->
  status_stream env invocation_arn st 2 = inr r2 ->
  r2.(status) = "Completed" -> r2.(s3Uri) = Some s3_uri ->
  (forall fuel, (3 <= fuel)%nat ->
     exists st' evs,
       monitor_video_generation env fuel invocation_arn st
         = (Ret (Some (s3_uri ++ "/output.mp4")), st')
       /\ log st' = (log st ++ evs)%list
       /\ evs =
          [GetAsyncInvoke invocation_arn (inr r0);
           PrintLine ("Job " ++ invocation_arn ++ " is in progress. Started at: " ++ t0);
           Sleep 60;
           GetAsyncInvoke invocation_arn (inr r1);
           PrintLine ("Job " ++ invocation_arn ++ " is in progress. Started at: " ++ t1);
           Sleep 60;
           GetAsyncInvoke invocation_arn (inr r2);
           PrintLine ("Video generation completed. Video available at: "
                  ++ s3_uri ++ "/output.mp4")]
       /\ count is_poll evs = 3%nat
       /\ filter (fun e => is_sleep e = true) evs = [Sleep 60; Sleep 60])
  /\ (forall fuel, (fuel < 3)%nat ->
        fst (monitor_video_generation env fuel invocation_arn st) = OutOfFuel).
Proof.
  intros H0 Hs0 Ht0 H1 Hs1 Ht1 H2 Hs2 Hu2.
  assert (Hstep1 : forall fuel,
    monitor_loop env (S fuel) invocation_arn "InProgress" st =
    monitor_loop env fuel invocation_arn "InProgress"
      (after_events
         [PrintLine ("Job " ++ invocation_arn ++ " is in progress. Started at: " ++ t0);
          Sleep 60] (after_poll invocation_arn (inr r0) st))).
  { intros fuel. rewrite monitor_loop_step by done. simpl.
    rewrite H0, Hs0, Ht0. reflexivity. }
  assert (Hstep2 : forall fuel,
    monitor_loop env (S (S fuel)) invocation_arn "InProgress" st =
    monitor_loop env fuel invocation_arn "InProgress"
      (after_events
         [PrintLine ("Job " ++ invocation_arn ++ " is in progress. Started at: " ++ t1);
          Sleep 60]
         (after_poll invocation_arn (inr r1)
            (after_events
               [PrintLine ("Job " ++ invocation_arn ++ " is in progress. Started at: " ++ t0);
                Sleep 60] (after_poll invocation_arn (inr r0) st))))).
  { intros fuel. rewrite Hstep1, monitor_loop_step by done. simpl.
    rewrite status_stream_after_round, H1, Hs1, Ht1. reflexivity. }
  split.
  - intros fuel Hfuel. unfold monitor_video_generation.
    destruct fuel as [| [| [| fuel]]]; try lia.
    rewrite Hstep2, monitor_loop_step by done. simpl.
    rewrite !status_stream_after_round, H2, Hs2, Hu2. simpl.
    eexists _, _. split; [reflexivity |]. split.
    { simpl. rewrite <- !app_assoc. simpl. reflexivity. }
    repeat split.
  - intros fuel Hfuel. unfold monitor_video_generation.
    destruct fuel as [| [| [| fuel]]]; try lia.
    + reflexivity.
    + rewrite Hstep1. reflexivity.
    + rewrite Hstep2. reflexivity.
Qed.

(** *** Termination *)

Lemma bounded_search (P : nat -> bool) (n : nat) :
  (exists i, (i < n)%nat /\ P i = true) \/ (forall i, (i < n)%nat -> P i = false).
Proof.
  induction n as [| n [(i & Hi & HP) | Hall]].
  - right. intros i Hi. lia.
  - left. exists i. split; [lia | done].
  - destruct (P n) eqn:HPn.
    + left. exists n. split; [lia | done].
    + right. intros i Hi. destruct (decide (i = n)) as [-> | Hne]; [done |].
      apply Hall. lia.
Qed.

Lemma first_true (P : nat -> bool) (i : nat) :
  P i = true ->
  exists j, (j <= i)%nat /\ P j = true /\ forall k, (k < j)%nat -> P k = false.
Proof.
  induction i as [i IH] using lt_wf_ind. intros Hi.
  destruct (bounded_search P i) as [(k & Hk & HPk) | Hnone].
  - destruct (IH k Hk HPk) as (j & Hj & HPj & Hmin).
    exists j. split; [lia | done].
  - exists i. split; [lia | done].
Qed.

Lemma monitor_loop_terminal_reply fuel arn last st :
  is_terminal last = false ->
  terminal_reply (status_stream env arn st 0) = true ->
  fst (monitor_loop env (S fuel) arn last st) ≠ OutOfFuel.
Proof.
  intros Hlast Hterm. rewrite monitor_loop_step by done. simpl.
  destruct (status_stream env arn st 0) as [e | resp]; [discriminate |].
  simpl in Hterm. unfold is_terminal in Hterm.
  destruct (String.eqb (status resp) "Completed") eqn:Hc.
  { by destruct (s3Uri resp). }
  simpl in Hterm. apply String.eqb_eq in Hterm. rewrite Hterm. simpl.
  by destruct (failureMessage resp).
Qed.

Lemma monitor_pending_out_of_fuel arn st n :
  (forall i, (i < n)%nat -> pending_reply (status_stream env arn st i) = true) ->
  exists st' evs,
    monitor_video_generation env n arn st = (OutOfFuel, st')
    /\ log st' = (log st ++ evs)%list
    /\ count is_poll evs = n.
Proof.
  intros Hpend.
  destruct (monitor_loop_pending_prefix arn n "InProgress" st eq_refl Hpend)
    as (last' & st' & Hl' & Hrun & _ & _ & evs & Hlog & Hpolls & _).
  exists st', evs. unfold monitor_video_generation.
  rewrite <- (Nat.add_0_r n) at 1. rewrite Hrun, monitor_loop_no_fuel by done.
  done.
Qed.

(** C8: the loop has no attempt limit and no timeout.  On a stream of
    status replies (every poll answered with a terminal status, or with a
    pending status that has the submit time the progress line prints) the
    monitor terminates exactly when some poll returns a terminal status: if
    poll [i] does, every run allowed more than [i] iterations ends; if none
    does, a run allowed [fuel] iterations is still polling after all of
    them, having issued [fuel] polls. *)
Theorem monitor_terminates_iff_terminal_status (invocation_arn : string)
    (st : state) :
  (forall i, terminal_reply (status_stream env invocation_arn st i) = true
             \/ pending_reply (status_stream env invocation_arn st i) = true) ->
  ((exists fuel, fst (monitor_video_generation env fuel invocation_arn st) ≠ OutOfFuel)
   <-> (exists i, terminal_reply (status_stream env invocation_arn st i) = true))
  /\ (forall i, terminal_reply (status_stream env invocation_arn st i) = true ->
        forall fuel, (i < fuel)%nat ->
          fst (monitor_video_generation env fuel invocation_arn st) ≠ OutOfFuel)
  /\ ((forall i, terminal_reply (status_stream env invocation_arn st i) = false) ->
        forall fuel, exists st' evs,
          monitor_video_generation env fuel invocation_arn st = (OutOfFuel, st')
          /\ log st' = (log st ++ evs)%list
          /\ count is_poll evs = fuel).
Proof.
  intros Hanswered.
  assert (Hpending : forall n,
    (forall i, (i < n)%nat ->
       terminal_reply (status_stream env invocation_arn st i) = false) ->
    forall i, (i < n)%nat ->
      pending_reply (status_stream env invocation_arn st i) = true).
  { intros n Hnone i Hi. destruct (Hanswered i) as [Ht | Hp]; [| done].
    rewrite Hnone in Ht by done. discriminate. }
  assert (Hends : forall i,
    terminal_reply (status_stream env invocation_arn st i) = true ->
    forall fuel, (i < fuel)%nat ->
      fst (monitor_video_generation env fuel invocation_arn st) ≠ OutOfFuel).
  { intros i Hi fuel Hfuel.
    destruct (first_true
                (fun k => terminal_reply (status_stream env invocation_arn st k)) i Hi)
      as (j & Hj & Hterm & Hmin).
    destruct (monitor_loop_pending_prefix invocation_arn j "InProgress" st eq_refl
                (Hpending j Hmin))
      as (last' & st' & Hl' & Hrun & Hstream & _).
    unfold monitor_video_generation.
    replace fuel with (j + S (fuel - S j))%nat by lia. rewrite Hrun.
    apply monitor_loop_terminal_reply; [done |].
    by rewrite Hstream, Nat.add_0_r. }
  split; [split |]; [| | split; [exact Hends |]].
  - intros [fuel Hfuel].
    destruct (bounded_search
                (fun k => terminal_reply (status_stream env invocation_arn st k)) fuel)
      as [(i & _ & Hi) | Hnone]; [by exists i |].
    destruct (monitor_pending_out_of_fuel invocation_arn st fuel (Hpending fuel Hnone))
      as (st' & evs & Hrun & _).
    rewrite Hrun in Hfuel. by destruct Hfuel.
  - intros [i Hi]. exists (S i). apply (Hends i Hi). lia.
  - intros Hnever fuel.
    apply monitor_pending_out_of_fuel. apply Hpending. intros i _. apply Hnever.
Qed.

End Monitor.

(** *** The monitor on the scenarios *)

Lemma demo_stream arn i :
  status_stream demo_services arn initial_state i =
  if Nat.ltb i 2 then inr (in_progress "2025-01-01 10:00:00")
  else inr (completed ("s3://demo-bucket/" ++ arn)).
Proof. reflexivity. Qed.

Lemma monitor_completed_returns_location_witness :
  exists st',
    monitor_video_generation demo_services 3 "arn:job/0" initial_state
      = (Ret (Some ("s3://demo-bucket/arn:job/0" ++ "/output.mp4")), st')
    /\ "s3://demo-bucket/arn:job/0" ++ "/output.mp4" ≠ "".
Proof.
  apply (monitor_completed_returns_location demo_services "arn:job/0"
           initial_state 2 (completed "s3://demo-bucket/arn:job/0")
           "s3://demo-bucket/arn:job/0").
  - intros i Hi. rewrite demo_stream.
    destruct i as [| [| i]]; [reflexivity | reflexivity | lia].
  - reflexivity.
  - reflexivity.
  - reflexivity.
  - lia.
Defined.

Lemma monitor_failed_raises_fixed_error_witness :
  exists st' evs,
    monitor_video_generation failing_services 2 "arn:job/1" initial_state
      = (Raise (RuntimeError "Video generation failed."), st')
    /\ log st' = (log initial_state ++ evs
                    ++ [GetAsyncInvoke "arn:job/1" (inr (failed "Quota exceeded"));
                        PrintLine ("Job " ++ "arn:job/1" ++ " failed. Reason: "
                               ++ "Quota exceeded")])%list
    /\ count is_poll evs = 1%nat.
Proof.
  apply (monitor_failed_raises_fixed_error failing_services "arn:job/1"
           initial_state 1 (failed "Quota exceeded") "Quota exceeded").
  - intros i Hi. destruct i as [| i]; [reflexivity | lia].
  - reflexivity.
  - reflexivity.
  - reflexivity.
  - lia.
Defined.

(** For a job that fails with the reason "Quota exceeded", no run of the
    monitor raises an error whose text carries that reason. *)
Lemma monitor_failed_error_omits_reason :
  status_stream failing_services "arn:job/1" initial_state 1
    = inr (failed "Quota exceeded")
  /\ ~ (exists fuel e st',
          monitor_video_generation failing_services fuel "arn:job/1" initial_state
            = (Raise e, st')
          /\ mentions (exn_message e) "Quota exceeded" = true).
Proof.
  split; [reflexivity |].
  intros (fuel & e & st' & Hrun & Hmentions).
  destruct fuel as [| [| fuel]]; vm_compute in Hrun; try discriminate.
  injection Hrun as <- _. vm_compute in Hmentions. discriminate.
Qed.

Lemma monitor_pending_pending_completed_witness :
  exists st',
    monitor_video_generation demo_services 3 "arn:job/0" initial_state
      = (Ret (Some ("s3://demo-bucket/arn:job/0" ++ "/output.mp4")), st')
    /\ count is_poll (log st') = 3%nat
    /\ count is_sleep (log st') = 2%nat.
Proof.
  destruct (proj1 (monitor_pending_pending_completed demo_services "arn:job/0"
                     initial_state
                     (in_progress "2025-01-01 10:00:00")
                     (in_progress "2025-01-01 10:00:00")
                     (completed "s3://demo-bucket/arn:job/0")
                     "2025-01-01 10:00:00" "2025-01-01 10:00:00"
                     "s3://demo-bucket/arn:job/0"
                     eq_refl eq_refl eq_refl eq_refl eq_refl eq_refl
                     eq_refl eq_refl eq_refl) 3%nat (le_n 3))
    as (st' & evs & Hrun & Hlog & Hevs & Hpolls & Hsleeps).
  exists st'. split; [exact Hrun |].
  rewrite Hlog. simpl. rewrite Hevs. split; reflexivity.
Defined.

Lemma monitor_terminates_iff_terminal_status_witness :
  (exists fuel,
     fst (monitor_video_generation demo_services fuel "arn:job/0" initial_state)
       ≠ OutOfFuel)
  /\ (forall fuel, exists st' evs,
        monitor_video_generation stuck_services fuel "arn:job/0" initial_state
          = (OutOfFuel, st')
        /\ log st' = (log initial_state ++ evs)%list
        /\ count is_poll evs = fuel).
Proof.
  split.
  - apply (proj1 (monitor_terminates_iff_terminal_status demo_services
                    "arn:job/0" initial_state
                    (fun i => match i with
                              | 0%nat | 1%nat => or_intror eq_refl
                              | _ => or_introl eq_refl
                              end))).
    exists 2%nat. reflexivity.
  - apply (proj2 (proj2 (monitor_terminates_iff_terminal_status stuck_services
                           "arn:job/0" initial_state
                           (fun i => or_intror eq_refl)))).
    intros i. reflexivity.
Defined.

(** ** Orchestration *)

Section Orchestration.

Context (env : services) (g : globals).

Ltac solve_advances :=
  unfold advances; simpl; rewrite <- ?app_assoc, ?Nat.add_0_r; simpl;
  repeat split; first [lia | reflexivity].

Lemma bind_ret {A B} (m : M A) (k : A -> M B) st a st' :
  m st = (Ret a, st') -> (m ≫= k) st = k a st'.
Proof. intros H. unfold mbind, M_bind. by rewrite H. Qed.

Lemma bind_raise {A B} (m : M A) (k : A -> M B) st e st' :
  m st = (Raise e, st') -> (m ≫= k) st = (Raise e, st').
Proof. intros H. unfold mbind, M_bind. by rewrite H. Qed.

Lemma print_run line st : print line st = (Ret tt, after_events [PrintLine line] st).
Proof. reflexivity. Qed.

Lemma advances_refl st : advances st st 0 0 0 0 [].
Proof. unfold advances. rewrite !Nat.add_0_r, app_nil_r. by repeat split. Qed.

Lemma advances_trans st1 st2 st3 m1 s1 o1 j1 evs1 m2 s2 o2 j2 evs2 :
  advances st1 st2 m1 s1 o1 j1 evs1 ->
  advances st2 st3 m2 s2 o2 j2 evs2 ->
  advances st1 st3 (m1 + m2) (s1 + s2) (o1 + o2) (j1 + j2) (evs1 ++ evs2).
Proof.
  intros (Hm1 & Hs1 & Ho1 & Hj1 & Hl1 & Hcs1 & Hcj1)
         (Hm2 & Hs2 & Ho2 & Hj2 & Hl2 & Hcs2 & Hcj2).
  unfold advances. rewrite !count_app, Hl2, Hl1, <- app_assoc.
  repeat split; lia.
Qed.

Lemma advances_print line st : advances st (after_events [PrintLine line] st) 0 0 0 0 [PrintLine line].
Proof. unfold advances; simpl. rewrite !Nat.add_0_r. by repeat split. Qed.

Lemma monitor_events_count evs :
  Forall (fun e => monitor_event e = true) evs ->
  count is_search evs = 0%nat /\ count is_submit evs = 0%nat
  /\ submitted_inputs evs = [].
Proof.
  induction 1 as [| e evs He _ (IH1 & IH2 & IH3)]; [done |].
  split; [| split].
  - change (e :: evs) with ([e] ++ evs)%list. rewrite count_app, IH1.
    by destruct e.
  - change (e :: evs) with ([e] ++ evs)%list. rewrite count_app, IH2.
    by destruct e.
  - destruct e; try discriminate; exact IH3.
Qed.

Lemma advances_monitor st st' evs :
  same_calls st st' -> log st' = (log st ++ evs)%list ->
  Forall (fun e => monitor_event e = true) evs ->
  advances st st' 0 0 0 0 evs.
Proof.
  intros (Hm & Hs & Ho & Hj) Hlog Hev.
  destruct (monitor_events_count evs Hev) as (Hcs & Hcj & _).
  unfold advances. rewrite !Nat.add_0_r. by repeat split.
Qed.

(** The lookup, when the embedding model answers with an embedding: one
    model call and one search, whose reply decides the outcome. *)
Lemma query_open_search_run index_name prompt top_k st :
  embedding_available env (n_invoke_model st) ->
  exists st' evs,
    query_open_search env index_name prompt top_k st
      = (reply_outcome (oss_search env (n_search st)), st')
    /\ advances st st' 1 1 0 0 evs
    /\ n_polls st' = n_polls st
    /\ count is_poll evs = 0%nat.
Proof.
  intros (embedding & vector & Hemb & Hvec).
  unfold query_open_search, get_titan_multimodal_embedding.
  unfold mbind, M_bind, invoke_model. rewrite Hemb. simpl. rewrite Hvec. simpl.
  unfold search. eexists _, [_; _]. split; [reflexivity |].
  solve_advances.
Qed.

(** Reading the image always returns: the text, or [None] after an error. *)
Lemma read_s3_text_run bucket_name file_key st :
  exists st' evs,
    read_s3_text env bucket_name file_key st
      = (Ret (match s3_get_object env (n_get_object st) bucket_name file_key with
              | inr text => Some text
              | inl _ => None
              end), st')
    /\ advances st st' 0 0 1 0 evs
    /\ n_polls st' = n_polls st
    /\ count is_poll evs = 0%nat.
Proof.
  unfold read_s3_text, try_except, mbind, M_bind, get_object.
  destruct (s3_get_object env (n_get_object st) bucket_name file_key) as [e | text];
    simpl.
  - eexists _, [_; _]. split; [reflexivity |].
    solve_advances.
  - eexists _, [_]. split; [reflexivity |].
    solve_advances.
Qed.

Lemma start_video_generation_run bucket model_input st arn :
  bedrock_start_async_invoke env (n_start st) = inr arn ->
  exists st',
    start_video_generation env bucket model_input st = (Ret arn, st')
    /\ advances st st' 0 0 0 1
         [StartAsyncInvoke "amazon.nova-reel-v1:0" model_input ("s3://" ++ bucket)
            (inr arn);
          PrintLine "Video generation job started successfully."]
    /\ n_polls st' = n_polls st.
Proof.
  intros Harn.
  unfold start_video_generation, try_except, mbind, M_bind, start_async_invoke.
  rewrite Harn. simpl. eexists. split; [reflexivity |].
  solve_advances.
Qed.

Lemma submitted_inputs_app (evs1 evs2 : list event) :
  submitted_inputs (evs1 ++ evs2)%list
  = (submitted_inputs evs1 ++ submitted_inputs evs2)%list.
Proof. apply omap_app. Qed.

(** Whatever the services answer, a lookup neither submits nor polls. *)
Lemma query_open_search_trace index_name prompt top_k st :
  exists evs,
    log (snd (query_open_search env index_name prompt top_k st))
      = (log st ++ evs)%list
    /\ count is_submit evs = 0%nat
    /\ count is_poll evs = 0%nat
    /\ n_start (snd (query_open_search env index_name prompt top_k st)) = n_start st
    /\ n_polls (snd (query_open_search env index_name prompt top_k st)) = n_polls st.
Proof.
  unfold query_open_search, get_titan_multimodal_embedding.
  unfold mbind, M_bind, invoke_model.
  destruct (bedrock_invoke_model env (n_invoke_model st)) as [e | embedding]; simpl.
  { eexists [_]. split; [reflexivity | by repeat split]. }
  destruct (py_getitem embedding "embedding") as [vector |]; simpl.
  - eexists [_; _]. rewrite <- app_assoc. split; [reflexivity | by repeat split].
  - eexists [_]. split; [reflexivity | by repeat split].
Qed.

(** C4: when the lookup for the concept prompt returns an empty result
    list, [vrag] returns the skip marker [None] and makes no call to the
    generation job client: nothing is submitted and no status is polled. *)
Theorem vrag_skips_without_results (fuel : nat)
    (image_prompt camera_prompt : string) (st st1 : state) :
  query_open_search env g.(INDEX_NAME) image_prompt 1 st = (Ret [], st1) ->
  exists st' evs,
    vrag env g fuel image_prompt camera_prompt st = (Ret None, st')
    /\ log st' = (log st ++ evs)%list
    /\ count is_submit evs = 0%nat
    /\ count is_poll evs = 0%nat
    /\ n_start st' = n_start st
    /\ n_polls st' = n_polls st.
Proof.
  intros Hquery.
  destruct (query_open_search_trace g.(INDEX_NAME) image_prompt 1 st)
    as (evs & Hlog & Hsubmit & Hpoll & Hstart & Hpolls).
  rewrite Hquery in Hlog, Hstart, Hpolls. simpl in Hlog, Hstart, Hpolls.
  unfold vrag. rewrite (bind_ret _ _ _ _ _ Hquery).
  eexists _, (evs ++ [_])%list. split; [reflexivity |]. simpl.
  rewrite Hlog, <- app_assoc, !count_app, Hsubmit, Hpoll.
  by repeat split.
Qed.

(** Whatever the service answers, starting a job submits exactly the model
    input it is given. *)
Lemma start_video_generation_trace bucket model_input st :
  exists evs,
    log (snd (start_video_generation env bucket model_input st))
      = (log st ++ evs)%list
    /\ submitted_inputs evs = [model_input].
Proof.
  unfold start_video_generation, try_except, mbind, M_bind, start_async_invoke.
  destruct (bedrock_start_async_invoke env (n_start st)) as [e | arn]; simpl.
  - destruct e; simpl; try by eexists [_].
    eexists [_; _]. by rewrite <- app_assoc.
  - eexists [_; _]. by rewrite <- app_assoc.
Qed.

(** C10: [vrag] of the inpainting part ignores both of its parameters:
    with the same globals and the same replies of the services, any two
    pairs of arguments give the same run, and the one generation request of
    that run is built from the global [action_prompt] and from the object
    read under the global key [inpainted_image_s3_key_file]. *)
Theorem vrag_inpainting_ignores_arguments (fuel : nat) (st : state)
    (image_prompt camera_prompt image_prompt' camera_prompt' : string) :
  vrag_inpainting env g fuel image_prompt camera_prompt st
    = vrag_inpainting env g fuel image_prompt' camera_prompt' st
  /\ exists reply evs,
       log (snd (vrag_inpainting env g fuel image_prompt camera_prompt st))
         = (log st
            ++ GetObject g.(BUCKET) g.(inpainted_image_s3_key_file) reply
            :: evs)%list
       /\ submitted_inputs evs =
          [TextImage.build_model_input g.(action_prompt)
             (match reply with
              | inr text => Some text
              | inl _ => None
              end) 6 24 "1280x720" 0].
Proof.
  split; [reflexivity |].
  exists (s3_get_object env (n_get_object st) g.(BUCKET)
            g.(inpainted_image_s3_key_file)).
  unfold vrag_inpainting.
  unfold mbind at 1, M_bind at 1.
  set (image := match s3_get_object env (n_get_object st) (BUCKET g)
                        (inpainted_image_s3_key_file g) with
                | inr text => Some text
                | inl _ => None
                end).
  assert (Hread : exists st1 evs1,
    read_s3_text env g.(BUCKET) g.(inpainted_image_s3_key_file) st = (Ret image, st1)
    /\ log st1 = (log st
                  ++ GetObject g.(BUCKET) g.(inpainted_image_s3_key_file)
                       (s3_get_object env (n_get_object st) g.(BUCKET)
                          g.(inpainted_image_s3_key_file))
                  :: evs1)%list
    /\ submitted_inputs evs1 = []).
  { unfold read_s3_text, try_except, mbind, M_bind, get_object. subst image.
    destruct (s3_get_object env (n_get_object st) _ _) as [e | text]; simpl.
    - eexists _, [_]. split; [reflexivity |]. by rewrite <- app_assoc.
    - eexists _, []. by split. }
  destruct Hread as (st1 & evs1 & Hread & Hlog1 & Hsub1). rewrite Hread.
  set (model_input := TextImage.build_model_input _ _ _ _ _ _).
  destruct (start_video_generation_trace g.(BUCKET) model_input st1)
    as (evs2 & Hlog2 & Hsub2).
  unfold mbind, M_bind.
  destruct (start_video_generation env g.(BUCKET) model_input st1)
    as [[arn | e |] st2] eqn:Hstart; simpl in Hlog2.
  - destruct (monitor_loop_trace env arn fuel "InProgress" st2)
      as (evs3 & Hlog3 & Hev3 & _).
    destruct (monitor_events_count evs3 Hev3) as (_ & _ & Hsub3).
    exists (evs1 ++ evs2 ++ evs3)%list. unfold monitor_video_generation.
    rewrite Hlog3, Hlog2, Hlog1, !submitted_inputs_app, Hsub1, Hsub2, Hsub3.
    split; [| reflexivity]. by rewrite <- !app_assoc.
  - exists (evs1 ++ evs2)%list. simpl.
    rewrite Hlog2, Hlog1, !submitted_inputs_app, Hsub1, Hsub2.
    split; [| reflexivity]. by rewrite <- !app_assoc.
  - exists (evs1 ++ evs2)%list. simpl.
    rewrite Hlog2, Hlog1, !submitted_inputs_app, Hsub1, Hsub2.
    split; [| reflexivity]. by rewrite <- !app_assoc.
Qed.

(** *** The batch *)

Lemma status_stream_same_polls arn st st' i :
  n_polls st' = n_polls st ->
  status_stream env arn st' i = status_stream env arn st i.
Proof. intros H. unfold status_stream, polls_of. by rewrite H. Qed.

Lemma accepted_jobs_app (evs1 evs2 : list event) :
  accepted_jobs (evs1 ++ evs2)%list = (accepted_jobs evs1 ++ accepted_jobs evs2)%list.
Proof. apply omap_app. Qed.

Lemma completed_polls_app (evs1 evs2 : list event) :
  completed_polls (evs1 ++ evs2)%list
  = (completed_polls evs1 ++ completed_polls evs2)%list.
Proof. apply omap_app. Qed.

Lemma no_submit_no_jobs (evs : list event) :
  count is_submit evs = 0%nat -> accepted_jobs evs = [].
Proof.
  induction evs as [| e evs IH]; [done |].
  change (e :: evs) with ([e] ++ evs)%list.
  rewrite count_app, accepted_jobs_app. intros Hcount.
  rewrite IH by lia. by destruct e.
Qed.

Lemma no_poll_no_completed (evs : list event) :
  count is_poll evs = 0%nat -> completed_polls evs = [].
Proof.
  induction evs as [| e evs IH]; [done |].
  change (e :: evs) with ([e] ++ evs)%list.
  rewrite count_app, completed_polls_app. intros Hcount.
  rewrite IH by lia. by destruct e.
Qed.

(** A monitor that returns has seen one Completed reply, that of its own
    job, and returns the location of that reply. *)
Lemma monitor_loop_completed_poll arn fuel : forall last st v st',
  is_terminal last = false ->
  monitor_loop env fuel arn last st = (Ret v, st') ->
  exists u evs,
    v = Some (u ++ "/output.mp4")
    /\ log st' = (log st ++ evs)%list
    /\ completed_polls evs = [(arn, Some u)].
Proof.
  induction fuel as [| fuel IH]; intros last st v st' Hlast Hrun.
  { rewrite monitor_loop_no_fuel in Hrun by done. discriminate. }
  rewrite monitor_loop_step in Hrun by done. simpl in Hrun.
  destruct (status_stream env arn st 0) as [e | resp] eqn:Hr; [discriminate |].
  destruct (String.eqb (status resp) "Completed") eqn:Hc.
  { destruct (s3Uri resp) as [u |] eqn:Hu; [| discriminate].
    injection Hrun as <- <-. exists u. eexists [GetAsyncInvoke arn (inr resp); _].
    split; [reflexivity |]. split; [simpl; by rewrite <- app_assoc |].
    simpl. by rewrite Hc, Hu. }
  assert (Hfirst : completed_polls [GetAsyncInvoke arn (inr resp)] = [])
    by (simpl; by rewrite Hc).
  destruct (String.eqb (status resp) "InProgress") eqn:Hp.
  { destruct (submitTime resp) as [t |]; [| discriminate].
    apply IH in Hrun as (u & evs & Hv & Hlog & Hpolls).
    2:{ apply String.eqb_eq in Hp. by rewrite Hp. }
    exists u. eexists ([GetAsyncInvoke arn (inr resp)] ++ [_; _] ++ evs)%list.
    split; [exact Hv |]. split.
    - rewrite Hlog. simpl. by rewrite <- !app_assoc.
    - by rewrite !completed_polls_app, Hfirst, Hpolls. }
  destruct (String.eqb (status resp) "Failed") eqn:Hf.
  { destruct (failureMessage resp); discriminate. }
  apply IH in Hrun as (u & evs & Hv & Hlog & Hpolls).
  2:{ unfold is_terminal. by rewrite Hc, Hf. }
  exists u. eexists ([GetAsyncInvoke arn (inr resp)] ++ [_] ++ evs)%list.
  split; [exact Hv |]. split.
  - rewrite Hlog. simpl. by rewrite <- !app_assoc.
  - by rewrite !completed_polls_app, Hfirst, Hpolls.
Qed.

(** The same item, with what it leaves in the log: the input submitted is
    built from the prompt and the image the object store returned. *)
Lemma item_submitted_log (formatted_prompt : string) best st arn :
  bedrock_start_async_invoke env (n_start st) = inr arn ->
  let image_base64 :=
    match s3_get_object env (n_get_object st) g.(BUCKET)
            (s3_key_of_uri best.(image_base64_s3_uri)) with
    | inr text => Some text
    | inl _ => None
    end in
  let model_input :=
    TextImage.build_model_input formatted_prompt image_base64 6 24 "1280x720" 0 in
  exists st1 st2 evs,
    read_s3_text env g.(BUCKET) (s3_key_of_uri best.(image_base64_s3_uri)) st
      = (Ret image_base64, st1)
    /\ start_video_generation env g.(BUCKET) model_input st1 = (Ret arn, st2)
    /\ advances st st2 0 0 1 1 evs
    /\ n_polls st2 = n_polls st
    /\ accepted_jobs evs = [(model_input, arn)]
    /\ completed_polls evs = [].
Proof.
  intros Harn image_base64 model_input.
  destruct (read_s3_text_run g.(BUCKET) (s3_key_of_uri best.(image_base64_s3_uri)) st)
    as (st1 & evs1 & Hread & Hadv1 & Hpolls1 & Hcp1).
  assert (Hstart1 : n_start st1 = n_start st).
  { destruct Hadv1 as (_ & _ & _ & H & _). lia. }
  destruct (start_video_generation_run g.(BUCKET) model_input st1 arn)
    as (st2 & Hstart & Hadv2 & Hpolls2); [by rewrite Hstart1 |].
  eexists st1, st2, _. split; [exact Hread |]. split; [exact Hstart |].
  split; [exact (advances_trans _ _ _ _ _ _ _ _ _ _ _ _ _ Hadv1 Hadv2) |].
  split; [congruence |].
  destruct Hadv1 as (_ & _ & _ & _ & _ & _ & Hcj1).
  rewrite accepted_jobs_app, completed_polls_app.
  by rewrite (no_submit_no_jobs _ Hcj1), (no_poll_no_completed _ Hcp1).
Qed.

(** One prompt whose lookup finds an asset: reading the image and
    submitting the job, when the submission is accepted. *)
Lemma item_submitted (formatted_prompt : string) best st arn :
  bedrock_start_async_invoke env (n_start st) = inr arn ->
  exists image_base64 st1 st2 evs,
    read_s3_text env g.(BUCKET) (s3_key_of_uri best.(image_base64_s3_uri)) st
      = (Ret image_base64, st1)
    /\ start_video_generation env g.(BUCKET)
         (TextImage.build_model_input formatted_prompt image_base64
            6 24 "1280x720" 0) st1
       = (Ret arn, st2)
    /\ advances st st2 0 0 1 1 evs
    /\ n_polls st2 = n_polls st.
Proof.
  intros Harn.
  destruct (read_s3_text_run g.(BUCKET) (s3_key_of_uri best.(image_base64_s3_uri)) st)
    as (st1 & evs1 & Hread & Hadv1 & Hpolls1 & _).
  assert (Hstart1 : n_start st1 = n_start st).
  { destruct Hadv1 as (_ & _ & _ & H & _). lia. }
  lazymatch type of Hread with
  | _ = (Ret ?image, _) =>
      destruct (start_video_generation_run g.(BUCKET)
                  (TextImage.build_model_input formatted_prompt image
                     6 24 "1280x720" 0)
                  st1 arn) as (st2 & Hstart & Hadv2 & Hpolls2)
  end.
  { by rewrite Hstart1. }
  eexists _, st1, st2, _. split; [exact Hread |]. split; [exact Hstart |].
  split; [| congruence].
  exact (advances_trans _ _ _ _ _ _ _ _ _ _ _ _ _ Hadv1 Hadv2).
Qed.

(** The batch when every lookup is answered, every submission accepted and
    every job completes within [B] polls. *)
Lemma process_loop_completes fuel B object_prompt total prompts :
  (B < fuel)%nat ->
  (forall n, embedding_available env n) ->
  (forall n, exists hits, oss_search env n = inr hits) ->
  (forall n, exists arn, bedrock_start_async_invoke env n = inr arn) ->
  (forall arn k, exists n, (n <= B)%nat /\ completes_after env arn k n) ->
  forall i video_uris st,
  exists res st' evs,
    process_loop env g fuel object_prompt total i prompts video_uris st
      = (Ret (video_uris ++ res)%list, st')
    /\ log st' = (log st ++ evs)%list
    /\ n_search st' = (n_search st + length prompts)%nat
    /\ count is_search evs = length prompts
    /\ (count is_submit evs + missed env (n_search st) prompts)%nat = length prompts
    /\ (length res + missed env (n_search st) prompts)%nat = length prompts
    /\ map snd res = prompts_with_asset env (n_search st) prompts
    /\ Forall (fun r => exists s3_uri, fst r = Some (s3_uri ++ "/output.mp4")) res
    /\ map fst (accepted_jobs evs)
       = expected_inputs env g (n_search st) (n_get_object st) prompts
    /\ map fst (completed_polls evs) = map snd (accepted_jobs evs)
    /\ map fst res
       = map (fun poll => option_map (fun u => u ++ "/output.mp4") (snd poll))
           (completed_polls evs).
Proof.
  intros Hfuel Hembed Hsearch Hsubmit Hjobs.
  induction prompts as [| p rest IH]; intros i video_uris st.
  { exists [], st, []. simpl. rewrite !app_nil_r, Nat.add_0_r. by repeat split. }
  simpl process_loop.
  rewrite (bind_ret _ _ _ _ _ (print_run _ _)).
  set (st0 := after_events _ st).
  destruct (query_open_search_run g.(INDEX_NAME) object_prompt 1 st0 (Hembed _))
    as (st1 & evs1 & Hquery & Hadv1 & Hpolls1 & Hcp1).
  destruct (Hsearch (n_search st)) as [hits Hhits].
  change (n_search st0) with (n_search st) in Hquery. rewrite Hhits in Hquery.
  rewrite (bind_ret _ _ _ _ _ Hquery).
  pose proof (advances_trans _ _ _ _ _ _ _ _ _ _ _ _ _
                (advances_print _ st : advances st st0 _ _ _ _ _) Hadv1) as Hadv01.
  assert (Hjobs1 : accepted_jobs evs1 = []).
  { destruct Hadv1 as (_ & _ & _ & _ & _ & _ & Hcj1). by apply no_submit_no_jobs. }
  assert (Hdone1 : completed_polls evs1 = []) by (by apply no_poll_no_completed).
  simpl. rewrite Hhits.
  destruct hits as [| best others].
  - rewrite (bind_ret _ _ _ _ _ (print_run _ _)).
    set (st2 := after_events _ st1).
    pose proof (advances_trans _ _ _ _ _ _ _ _ _ _ _ _ _ Hadv01
                  (advances_print _ st1 : advances st1 st2 _ _ _ _ _)) as Hadv.
    lazymatch type of Hadv with
    | advances _ _ _ _ _ _ ?l =>
        assert (Hjobs0 : accepted_jobs l = [])
          by (by rewrite !accepted_jobs_app, Hjobs1);
        assert (Hdone0 : completed_polls l = [])
          by (by rewrite !completed_polls_app, Hdone1);
        remember l as evs0 eqn:Hevs0; clear Hevs0
    end.
    destruct (IH (S i) video_uris st2)
      as (res & st' & evs & Hrun & Hlog & Hn & Hcs & Hcj & Hlen & Hmap & Hall
          & Hinputs & Harns & Hlocs).
    destruct Hadv as (_ & Hs & Ho & _ & Hl & Hcs0 & Hcj0).
    replace (n_search st2) with (S (n_search st)) in * by lia.
    replace (n_get_object st2) with (n_get_object st) in * by lia.
    exists res, st', (evs0 ++ evs)%list. split; [exact Hrun |].
    rewrite Hlog, Hl, <- app_assoc. split; [reflexivity |].
    rewrite !count_app, Hcs0, Hcj0, Hcs.
    rewrite accepted_jobs_app, completed_polls_app, Hjobs0, Hdone0. simpl in *.
    repeat split; first [lia | done].
  - destruct (Hsubmit (n_start st1)) as [arn Harn].
    destruct (item_submitted_log p best st1 arn Harn)
      as (st2 & st3 & evs2 & Hread & Hstart & Hadv2 & Hpolls2 & Hjobs2 & Hdone2).
    rewrite (bind_ret _ _ _ _ _ Hread), (bind_ret _ _ _ _ _ Hstart).
    destruct (Hjobs arn (polls_of st3 arn))
      as (n & Hn & Hpend & resp & s3_uri & Hr & Hstatus & Huri).
    destruct (monitor_completes env arn st3 n resp s3_uri fuel)
      as (st4 & evs3 & Hmonitor & Hsame & Hlog3 & Hev3 & _);
      [exact Hpend | exact Hr | exact Hstatus | exact Huri | lia |].
    destruct (monitor_loop_completed_poll arn fuel "InProgress" st3 _ st4 eq_refl
                Hmonitor) as (u & evs3' & Hv & Hlog3' & Hdone3).
    rewrite Hlog3 in Hlog3'. apply app_inv_head in Hlog3'. subst evs3'.
    rewrite Hv in Hmonitor. clear Hv Hr Hstatus Huri resp s3_uri.
    rewrite (bind_ret _ _ _ _ _ Hmonitor).
    assert (Hjobs3 : accepted_jobs evs3 = []).
    { apply no_submit_no_jobs. by destruct (monitor_events_count evs3 Hev3) as (_ & ? & _). }
    pose proof (advances_trans _ _ _ _ _ _ _ _ _ _ _ _ _
                  (advances_trans _ _ _ _ _ _ _ _ _ _ _ _ _ Hadv01 Hadv2)
                  (advances_monitor _ _ _ Hsame Hlog3 Hev3)) as Hadv.
    assert (Hget1 : n_get_object st1 = n_get_object st).
    { destruct Hadv01 as (_ & _ & Ho & _). lia. }
    rewrite Hget1 in Hjobs2.
    lazymatch type of Hadv with
    | advances _ _ _ _ _ _ ?l =>
        assert (Hjobs0 : accepted_jobs l = accepted_jobs evs2)
          by (by rewrite !accepted_jobs_app, Hjobs1, Hjobs3, app_nil_r);
        assert (Hdone0 : completed_polls l = [(arn, Some u)])
          by (by rewrite !completed_polls_app, Hdone1, Hdone2, Hdone3);
        remember l as evs0 eqn:Hevs0; clear Hevs0
    end.
    rewrite Hjobs2 in Hjobs0.
    destruct (IH (S i) (video_uris ++ [(Some (u ++ "/output.mp4")%string, p)])%list st4)
      as (res & st' & evs & Hrun & Hlog & Hn' & Hcs & Hcj & Hlen & Hmap & Hall
          & Hinputs & Harns & Hlocs).
    destruct Hadv as (_ & Hs & Ho & _ & Hl & Hcs0 & Hcj0).
    replace (n_search st4) with (S (n_search st)) in * by lia.
    replace (n_get_object st4) with (S (n_get_object st)) in * by lia.
    exists ((Some (u ++ "/output.mp4"), p) :: res), st', (evs0 ++ evs)%list.
    split.
    { rewrite Hrun, <- app_assoc. reflexivity. }
    rewrite Hlog, Hl, <- app_assoc. split; [reflexivity |].
    rewrite !count_app, Hcs0, Hcj0, Hcs.
    rewrite accepted_jobs_app, completed_polls_app, Hjobs0, Hdone0.
    simpl in *. rewrite Hmap, Hinputs, Harns, Hlocs.
    repeat split; first [lia | done | idtac].
    constructor; [by exists u | done].
Qed.


(** C2 (amended): for a list of N prompts of which M find no asset, when
    every service call is answered and every submitted job completes, the
    batch submits exactly N - M jobs and returns N - M pairs: one
    (result location, prompt) pair for each prompt whose lookup found an
    asset, in input order, and no entry for the M others.  The pair of a
    prompt belongs to that prompt's own job: the jobs are submitted in the
    order of the pairs, each with the input built from its prompt and from
    the image of the asset found for it, and the result of a pair is the
    output location in the Completed reply to a poll of that job, followed
    by [/output.mp4]. *)
Theorem batch_returns_one_pair_per_found_asset (fuel B : nat)
    (prompt_list : list string) (object_prompt : string) (st : state) :
  (B < fuel)%nat ->
  (forall n, embedding_available env n) ->
  (forall n, exists hits, oss_search env n = inr hits) ->
  (forall n, exists arn, bedrock_start_async_invoke env n = inr arn) ->
  (forall arn k, exists n, (n <= B)%nat /\ completes_after env arn k n) ->
  exists res st' evs,
    process_videos_from_prompts env g fuel prompt_list object_prompt st
      = (Ret res, st')
    /\ log st' = (log st ++ evs)%list
    /\ count is_submit evs
       = (length prompt_list - missed env (n_search st) prompt_list)%nat
    /\ length res
       = (length prompt_list - missed env (n_search st) prompt_list)%nat
    /\ map snd res = prompts_with_asset env (n_search st) prompt_list
    /\ Forall (fun r => exists s3_uri, fst r = Some (s3_uri ++ "/output.mp4")) res
    /\ map fst (accepted_jobs evs)
       = expected_inputs env g (n_search st) (n_get_object st) prompt_list
    /\ map fst (completed_polls evs) = map snd (accepted_jobs evs)
    /\ map fst res
       = map (fun poll => option_map (fun u => u ++ "/output.mp4") (snd poll))
           (completed_polls evs).
Proof.
  intros Hfuel Hembed Hsearch Hsubmit Hjobs.
  destruct (process_loop_completes fuel B object_prompt (length prompt_list)
              prompt_list Hfuel Hembed Hsearch Hsubmit Hjobs 0%nat [] st)
    as (res & st' & evs & Hrun & Hlog & _ & _ & Hcj & Hlen & Hmap & Hall
        & Hinputs & Harns & Hlocs).
  exists res, st', evs. unfold process_videos_from_prompts.
  repeat split; first [done | lia].
Qed.

(** The loop over a list cut in two: the second part starts where the
    first part returns, and is not run when the first part raises. *)
Lemma process_loop_app fuel object_prompt total pre : forall rest i video_uris st,
  process_loop env g fuel object_prompt total i (pre ++ rest) video_uris st =
  match process_loop env g fuel object_prompt total i pre video_uris st with
  | (Ret video_uris', st1) =>
      process_loop env g fuel object_prompt total (i + length pre) rest
        video_uris' st1
  | (Raise e, st1) => (Raise e, st1)
  | (OutOfFuel, st1) => (OutOfFuel, st1)
  end.
Proof.
  induction pre as [| p pre IH]; intros rest i video_uris st.
  { simpl. by rewrite Nat.add_0_r. }
  assert (Hidx : forall acc s,
    process_loop env g fuel object_prompt total (i + length (p :: pre)) rest acc s
    = process_loop env g fuel object_prompt total (S i + length pre) rest acc s).
  { intros acc s. f_equal. simpl. lia. }
  simpl app. simpl process_loop.
  rewrite !(bind_ret _ _ _ _ _ (print_run _ _)).
  unfold mbind, M_bind.
  destruct (query_open_search env _ object_prompt 1 _) as [[hits | e |] st1];
    [| reflexivity | reflexivity].
  destruct hits as [| best others]; cbv beta iota.
  - rewrite (print_run _ st1). cbv beta iota. rewrite IH.
    destruct (process_loop env g fuel object_prompt total (S i) pre _ _)
      as [[acc | e |] st2]; [| reflexivity | reflexivity].
    by rewrite Hidx.
  - destruct (read_s3_text env _ _ st1) as [[image | e |] st2];
      [| reflexivity | reflexivity].
    destruct (start_video_generation env _ _ st2) as [[arn | e |] st3];
      [| reflexivity | reflexivity].
    destruct (monitor_video_generation env fuel arn st3) as [[uri | e |] st4];
      [| reflexivity | reflexivity].
    rewrite IH.
    destruct (process_loop env g fuel object_prompt total (S i) pre _ _)
      as [[acc | e |] st5]; [| reflexivity | reflexivity].
    by rewrite Hidx.
Qed.

(** C3 (amended): when the job of one item of a batch reaches Failed, the
    error raised by the monitor is not caught: the batch raises the same
    [RuntimeError], returns no list, and makes no lookup or submission for
    the items after the failed one. *)
Theorem batch_aborts_on_failed_job (fuel : nat) (object_prompt : string)
    (pre : list string) (p : string) (post : list string)
    (st st1 : state) (video_uris : list (option string * string))
    (best : hit) (others : list hit) (arn : string) (n : nat)
    (resp : response) (reason : string) :
  process_loop env g fuel object_prompt (length (pre ++ p :: post)) 0 pre [] st
    = (Ret video_uris, st1) ->
  embedding_available env (n_invoke_model st1) ->
  oss_search env (n_search st1) = inr (best :: others) ->
  bedrock_start_async_invoke env (n_start st1) = inr arn ->
  (forall i, (i < n)%nat -> pending_reply (status_stream env arn st1 i) = true) ->
  status_stream env arn st1 n = inr resp ->
  resp.(status) = "Failed" ->
  resp.(failureMessage) = Some reason ->
  (n < fuel)%nat ->
  exists st' evs,
    process_videos_from_prompts env g fuel (pre ++ p :: post) object_prompt st
      = (Raise (RuntimeError "Video generation failed."), st')
    /\ log st' = (log st1 ++ evs)%list
    /\ count is_search evs = 1%nat
    /\ count is_submit evs = 1%nat.
Proof.
  intros Hpre Hembed Hhits Harn Hpend Hr Hstatus Hreason Hfuel.
  unfold process_videos_from_prompts. rewrite process_loop_app, Hpre.
  simpl process_loop.
  rewrite (bind_ret _ _ _ _ _ (print_run _ _)).
  set (st2 := after_events _ st1).
  destruct (query_open_search_run g.(INDEX_NAME) object_prompt 1 st2 Hembed)
    as (st3 & evs3 & Hquery & Hadv3 & Hpolls3 & _).
  change (n_search st2) with (n_search st1) in Hquery. rewrite Hhits in Hquery.
  rewrite (bind_ret _ _ _ _ _ Hquery).
  pose proof (advances_trans _ _ _ _ _ _ _ _ _ _ _ _ _
                (advances_print _ st1 : advances st1 st2 _ _ _ _ _) Hadv3) as Hadv13.
  destruct (item_submitted p best st3 arn)
    as (image & st4 & st5 & evs5 & Hread & Hstart & Hadv5 & Hpolls5).
  { destruct Hadv13 as (_ & _ & _ & -> & _). by rewrite Nat.add_0_r. }
  rewrite (bind_ret _ _ _ _ _ Hread), (bind_ret _ _ _ _ _ Hstart).
  assert (Hpolls : n_polls st5 = n_polls st1) by (rewrite Hpolls5, Hpolls3; done).
  destruct (monitor_fails env arn st5 n resp reason fuel)
    as (st6 & evs6 & Hmonitor & Hsame & Hlog6 & Hev6 & _); try done.
  { intros i Hi. rewrite (status_stream_same_polls arn st1 st5 i Hpolls).
    by apply Hpend. }
  { by rewrite (status_stream_same_polls arn st1 st5 n Hpolls). }
  rewrite (bind_raise _ _ _ _ _ Hmonitor).
  assert (Hadv6 : advances st5 st6 0 0 0 0
            (evs6 ++ [GetAsyncInvoke arn (inr resp);
                      PrintLine ("Job " ++ arn ++ " failed. Reason: " ++ reason)])%list).
  { apply advances_monitor; [done | done |].
    apply Forall_app. split; [done |]. by repeat constructor. }
  pose proof (advances_trans _ _ _ _ _ _ _ _ _ _ _ _ _
                (advances_trans _ _ _ _ _ _ _ _ _ _ _ _ _ Hadv13 Hadv5) Hadv6)
    as (_ & _ & _ & _ & Hlog & Hcs & Hcj).
  eexists st6, _. split; [reflexivity |]. split; [exact Hlog |]. by split.
Qed.

End Orchestration.

(** *** The orchestrators on the scenarios *)

Lemma vrag_skips_without_results_witness :
  exists st' evs,
    vrag empty_store_services demo_globals 3 "nonexistent object"
      "Camera zooms in" initial_state = (Ret None, st')
    /\ log st' = (log initial_state ++ evs)%list
    /\ count is_submit evs = 0%nat
    /\ count is_poll evs = 0%nat
    /\ n_start st' = n_start initial_state
    /\ n_polls st' = n_polls initial_state.
Proof.
  eapply (vrag_skips_without_results empty_store_services demo_globals 3
            "nonexistent object" "Camera zooms in" initial_state).
  vm_compute. reflexivity.
Defined.

Lemma demo_embedding_available (n : nat) : embedding_available demo_services n.
Proof. exists demo_embedding. eexists. split; [reflexivity |]. vm_compute. reflexivity. Qed.

Lemma demo_jobs_complete (arn : string) (k : nat) :
  exists n, (n <= 2)%nat /\ completes_after demo_services arn k n.
Proof.
  destruct k as [| [| k]].
  - exists 2%nat. split; [lia |]. split.
    + intros [| [| i]] Hi; [reflexivity | reflexivity | lia].
    + eexists _, _. repeat split; reflexivity.
  - exists 1%nat. split; [lia |]. split.
    + intros [| i] Hi; [reflexivity | lia].
    + eexists _, _. repeat split; reflexivity.
  - exists 0%nat. split; [lia |]. split.
    + intros i Hi. lia.
    + eexists _, _. rewrite Nat.add_0_r. repeat split; reflexivity.
Qed.

Lemma batch_returns_one_pair_per_found_asset_witness :
  exists res st' evs,
    process_videos_from_prompts demo_services demo_globals 3 three_prompts
      "red shoes" initial_state = (Ret res, st')
    /\ log st' = (log initial_state ++ evs)%list
    /\ count is_submit evs
       = (length three_prompts
          - missed demo_services (n_search initial_state) three_prompts)%nat
    /\ length res
       = (length three_prompts
          - missed demo_services (n_search initial_state) three_prompts)%nat
    /\ map snd res
       = prompts_with_asset demo_services (n_search initial_state) three_prompts
    /\ Forall (fun r => exists s3_uri, fst r = Some (s3_uri ++ "/output.mp4")) res
    /\ map fst (accepted_jobs evs)
       = expected_inputs demo_services demo_globals (n_search initial_state)
           (n_get_object initial_state) three_prompts
    /\ map fst (completed_polls evs) = map snd (accepted_jobs evs)
    /\ map fst res
       = map (fun poll => option_map (fun u => u ++ "/output.mp4") (snd poll))
           (completed_polls evs).
Proof.
  apply (batch_returns_one_pair_per_found_asset demo_services demo_globals 3 2
           three_prompts "red shoes" initial_state).
  - lia.
  - exact demo_embedding_available.
  - intros n. simpl. destruct (Nat.eqb n 1); eexists; reflexivity.
  - intros n. eexists. reflexivity.
  - exact demo_jobs_complete.
Defined.

(** Three prompts, the second of which finds no asset: the list returned
    has two entries for the three prompts, none of them a skip marker, and
    two jobs were submitted. *)
Lemma batch_result_has_no_skip_marker :
  missed demo_services 0 three_prompts = 1%nat
  /\ fst (process_videos_from_prompts demo_services demo_globals 3 three_prompts
            "red shoes" initial_state)
     = Ret [(Some "s3://demo-bucket/arn:job/0/output.mp4", "red shoes on a beach");
            (Some "s3://demo-bucket/arn:job/1/output.mp4", "red shoes on a table")]
  /\ count is_submit
       (log (snd (process_videos_from_prompts demo_services demo_globals 3
                    three_prompts "red shoes" initial_state))) = 2%nat.
Proof.
  split; [reflexivity |]. split; vm_compute; reflexivity.
Qed.

Lemma batch_aborts_on_failed_job_witness :
  exists st' evs,
    process_videos_from_prompts failing_services demo_globals 2
      (["red shoes on a beach"] ++ "red shoes in the rain" :: ["red shoes on a table"])
      "red shoes" initial_state
      = (Raise (RuntimeError "Video generation failed."), st')
    /\ log st'
       = (log (snd (process_loop failing_services demo_globals 2 "red shoes" 3 0
                      ["red shoes on a beach"] [] initial_state)) ++ evs)%list
    /\ count is_search evs = 1%nat
    /\ count is_submit evs = 1%nat.
Proof.
  eapply (batch_aborts_on_failed_job failing_services demo_globals 2 "red shoes"
            ["red shoes on a beach"] "red shoes in the rain" ["red shoes on a table"]
            initial_state
            (snd (process_loop failing_services demo_globals 2 "red shoes" 3 0
                    ["red shoes on a beach"] [] initial_state))
            _ red_shoes [] "arn:job/1" 1 (failed "Quota exceeded") "Quota exceeded").
  - vm_compute. reflexivity.
  - exists demo_embedding. eexists. split; [reflexivity |]. vm_compute. reflexivity.
  - reflexivity.
  - vm_compute. reflexivity.
  - intros [| i] Hi; [vm_compute; reflexivity | lia].
  - vm_compute. reflexivity.
  - reflexivity.
  - reflexivity.
  - lia.
Defined.

(** A batch of three prompts whose second job fails: no run returns a
    list; the run raises after two lookups and two submissions, the third
    prompt untouched. *)
Lemma batch_does_not_survive_failed_job :
  ~ (exists fuel res,
       fst (process_videos_from_prompts failing_services demo_globals fuel
              three_prompts "red shoes" initial_state) = Ret res)
  /\ fst (process_videos_from_prompts failing_services demo_globals 2
            three_prompts "red shoes" initial_state)
     = Raise (RuntimeError "Video generation failed.")
  /\ count is_search
       (log (snd (process_videos_from_prompts failing_services demo_globals 2
                    three_prompts "red shoes" initial_state))) = 2%nat
  /\ count is_submit
       (log (snd (process_videos_from_prompts failing_services demo_globals 2
                    three_prompts "red shoes" initial_state))) = 2%nat.
Proof.
  split.
  - intros (fuel & res & Hrun).
    destruct fuel as [| [| fuel]]; vm_compute in Hrun; discriminate.
  - repeat split; vm_compute; reflexivity.
Qed.

(** ** Object keys *)

Lemma split_not_nil sep s : split sep s ≠ [].
Proof.
  destruct s as [| c rest]; simpl; [done |].
  destruct (Ascii.eqb c sep); [done |]. by destruct (split sep rest).
Qed.

Lemma concat_split (sep : ascii) (s : string) :
  String.concat (String sep "") (split sep s) = s.
Proof.
  induction s as [| c rest IH]; simpl; [reflexivity |].
  destruct (Ascii.eqb_spec c sep) as [-> | Hne].
  - pose proof (split_not_nil sep rest) as Hnil.
    destruct (split sep rest) as [| piece pieces]; [done |].
    simpl in *. by rewrite IH.
  - pose proof (split_not_nil sep rest) as Hnil.
    destruct (split sep rest) as [| piece pieces]; [done |].
    destruct pieces as [| piece' pieces]; simpl in *; by rewrite <- IH.
Qed.

(** X1: joining the pieces of [s.split(sep)] with the separator gives [s]
    back, for every string and separator. *)
Theorem join_split (sep : ascii) (s : string) :
  String.concat (String sep "") (split sep s) = s.
Proof. apply concat_split. Qed.

Lemma split_until_sep sep (a b : string) :
  has_char sep a = false ->
  split sep (a ++ String sep b) = a :: split sep b.
Proof.
  induction a as [| c a IH]; simpl; intros Ha.
  - by rewrite Ascii.eqb_refl.
  - apply orb_false_iff in Ha as [Hc Ha]. rewrite Hc, (IH Ha). reflexivity.
Qed.

Lemma s3_key_of_bucket_uri (bucket key : string) :
  has_char "/"%char bucket = false ->
  s3_key_of_uri ("s3://" ++ bucket ++ "/" ++ key) = key.
Proof.
  intros Hbucket. unfold s3_key_of_uri.
  change ("s3://" ++ bucket ++ "/" ++ key)
    with ("s3:" ++ String "/" ("" ++ String "/" (bucket ++ String "/" key))).
  rewrite (split_until_sep "/" "s3:") by reflexivity.
  rewrite (split_until_sep "/" "") by reflexivity.
  rewrite (split_until_sep "/" bucket) by done.
  simpl. apply concat_split.
Qed.

(** X2: for a bucket name without a slash, the object key the orchestrators
    derive from the [image_base64_s3_uri] of a hit is the key under which
    the ingestion loop stored the encoded image:
    [BASE64_IMAGES_DIR/base64_img]. *)
Theorem ingested_uri_gives_object_key (bucket base64_images_dir images_dir : string)
    (image_vector : pyval) (description base64_img img_path : string) (h : hit) :
  has_char "/"%char bucket = false ->
  hit_of_document
    (ingestion_document bucket base64_images_dir images_dir image_vector
       description base64_img img_path) = Some h ->
  s3_key_of_uri h.(image_base64_s3_uri) = base64_images_dir ++ "/" ++ base64_img
  /\ s3_key_of_uri h.(image_s3_uri) = images_dir ++ "/" ++ img_path.
Proof.
  intros Hbucket Hhit. vm_compute in Hhit. injection Hhit as <-. simpl.
  unfold s3_uri_in. split; by apply s3_key_of_bucket_uri.
Qed.

Lemma ingested_uri_gives_object_key_witness :
  s3_key_of_uri "s3://demo-bucket/base64_images/shoes.txt" = "base64_images/shoes.txt"
  /\ s3_key_of_uri "s3://demo-bucket/images/shoes.jpg" = "images/shoes.jpg".
Proof.
  apply (ingested_uri_gives_object_key "demo-bucket" "base64_images" "images"
           (PList []) "A pair of red shoes" "shoes.txt" "shoes.jpg"
           {| description := "A pair of red shoes";
              image_base64_s3_uri := "s3://demo-bucket/base64_images/shoes.txt";
              image_s3_uri := "s3://demo-bucket/images/shoes.jpg" |}).
  - reflexivity.
  - vm_compute. reflexivity.
Defined.

(** ** More on the job monitor *)

Section MonitorEdges.

Context (env : services).

Lemma monitor_loop_returns_location arn fuel : forall last st v st',
  is_terminal last = false ->
  monitor_loop env fuel arn last st = (Ret v, st') ->
  exists resp s3_uri evs,
    v = Some (s3_uri ++ "/output.mp4")
    /\ resp.(status) = "Completed"
    /\ resp.(s3Uri) = Some s3_uri
    /\ log st' = (log st ++ evs
                    ++ [GetAsyncInvoke arn (inr resp);
                        PrintLine ("Video generation completed. Video available at: "
                                   ++ s3_uri ++ "/output.mp4")])%list.
Proof.
  induction fuel as [| fuel IH]; intros last st v st' Hlast Hrun.
  { rewrite monitor_loop_no_fuel in Hrun by done. discriminate. }
  rewrite monitor_loop_step in Hrun by done. simpl in Hrun.
  destruct (status_stream env arn st 0) as [e | resp] eqn:Hr; [discriminate |].
  destruct (String.eqb (status resp) "Completed") eqn:Hc.
  { destruct (s3Uri resp) as [u |] eqn:Hu; [| discriminate].
    injection Hrun as <- <-. exists resp, u, [].
    apply String.eqb_eq in Hc. repeat split; try done.
    simpl. by rewrite <- app_assoc. }
  destruct (String.eqb (status resp) "InProgress") eqn:Hp.
  { destruct (submitTime resp) as [t |]; [| discriminate].
    apply IH in Hrun as (resp' & u & evs & -> & Hs & Hu & Hlog).
    2:{ apply String.eqb_eq in Hp. by rewrite Hp. }
    exists resp', u. eexists (GetAsyncInvoke arn (inr resp) :: _ :: _ :: evs)%list.
    repeat split; try done. rewrite Hlog. simpl. by rewrite <- !app_assoc. }
  destruct (String.eqb (status resp) "Failed") eqn:Hf.
  { destruct (failureMessage resp); discriminate. }
  apply IH in Hrun as (resp' & u & evs & -> & Hs & Hu & Hlog).
  2:{ unfold is_terminal. by rewrite Hc, Hf. }
  exists resp', u. eexists (GetAsyncInvoke arn (inr resp) :: _ :: evs)%list.
  repeat split; try done. rewrite Hlog. simpl. by rewrite <- !app_assoc.
Qed.

(** X3: the monitor never returns [None]: whenever it returns, its result
    is the output location of a poll answered Completed, followed by
    [/output.mp4], and that poll and the completion line are the last things
    it logged. *)
Theorem monitor_never_returns_none (fuel : nat) (invocation_arn : string)
    (st st' : state) (v : option string) :
  monitor_video_generation env fuel invocation_arn st = (Ret v, st') ->
  exists resp s3_uri evs,
    v = Some (s3_uri ++ "/output.mp4")
    /\ resp.(status) = "Completed"
    /\ resp.(s3Uri) = Some s3_uri
    /\ log st' = (log st ++ evs
                    ++ [GetAsyncInvoke invocation_arn (inr resp);
                        PrintLine ("Video generation completed. Video available at: "
                                   ++ s3_uri ++ "/output.mp4")])%list.
Proof. by apply monitor_loop_returns_location. Qed.

Ltac sleeps_60 :=
  repeat (apply List.Forall_cons; [first [by left | by right] |]);
  apply List.Forall_nil.

(** The bookkeeping of one run: how many polls for how many sleeps. *)
Lemma monitor_loop_accounting arn fuel : forall last st,
  is_terminal last = false ->
  exists evs,
    log (snd (monitor_loop env fuel arn last st)) = (log st ++ evs)%list
    /\ Forall (fun e => e = Sleep 60 \/ is_sleep e = false) evs
    /\ count is_poll evs
       = (count is_sleep evs
          + match fst (monitor_loop env fuel arn last st) with
            | OutOfFuel => 0
            | _ => 1
            end)%nat.
Proof.
  induction fuel as [| fuel IH]; intros last st Hlast.
  { rewrite monitor_loop_no_fuel by done. exists []. simpl.
    rewrite app_nil_r. by repeat split. }
  rewrite monitor_loop_step by done. simpl.
  destruct (status_stream env arn st 0) as [e | resp] eqn:Hr.
  { exists [GetAsyncInvoke arn (inl e)]. simpl. repeat split.
    sleeps_60. }
  destruct (String.eqb (status resp) "Completed") eqn:Hc.
  { destruct (s3Uri resp) as [u |]; simpl.
    - eexists [GetAsyncInvoke arn (inr resp); _]. rewrite <- app_assoc.
      split; [reflexivity |]. split; [sleeps_60 | reflexivity].
    - exists [GetAsyncInvoke arn (inr resp)]. repeat split.
      sleeps_60. }
  destruct (String.eqb (status resp) "InProgress") eqn:Hp.
  { destruct (submitTime resp) as [t |]; simpl.
    - edestruct (IH (status resp)) as (evs & Hlog & Hsleep & Hcount).
      { apply String.eqb_eq in Hp. by rewrite Hp. }
      eexists ([GetAsyncInvoke arn (inr resp); _; _] ++ evs)%list.
      rewrite Hlog. simpl log. rewrite <- !app_assoc.
      split; [reflexivity |]. split.
      + apply Forall_app. split; [sleeps_60 | exact Hsleep].
      + rewrite !count_app, Hcount. reflexivity.
    - exists [GetAsyncInvoke arn (inr resp)]. repeat split.
      sleeps_60. }
  destruct (String.eqb (status resp) "Failed") eqn:Hf.
  { destruct (failureMessage resp) as [m |]; simpl.
    - eexists [GetAsyncInvoke arn (inr resp); _]. rewrite <- app_assoc.
      split; [reflexivity |]. split; [sleeps_60 | reflexivity].
    - exists [GetAsyncInvoke arn (inr resp)]. repeat split.
      sleeps_60. }
  edestruct (IH (status resp)) as (evs & Hlog & Hsleep & Hcount).
  { unfold is_terminal. by rewrite Hc, Hf. }
  eexists ([GetAsyncInvoke arn (inr resp); _] ++ evs)%list.
  rewrite Hlog. simpl log. rewrite <- !app_assoc.
  split; [reflexivity |]. split.
  + apply Forall_app. split; [sleeps_60 | exact Hsleep].
  + rewrite !count_app, Hcount. reflexivity.
Qed.

(** X4: in every run of the monitor every sleep lasts 60 seconds, and
    there is exactly one sleep between two successive polls: a run that has
    ended (returned or raised) has slept once less than it has polled, and a
    run that is still looping has slept as often as it has polled. *)
Theorem monitor_sleeps_once_between_polls (fuel : nat) (invocation_arn : string)
    (st : state) :
  exists evs,
    log (snd (monitor_video_generation env fuel invocation_arn st))
      = (log st ++ evs)%list
    /\ Forall (fun e => e = Sleep 60 \/ is_sleep e = false) evs
    /\ count is_poll evs
       = (count is_sleep evs
          + match fst (monitor_video_generation env fuel invocation_arn st) with
            | OutOfFuel => 0
            | _ => 1
            end)%nat.
Proof. by apply monitor_loop_accounting. Qed.

(** X5: an exception raised by a status poll is not caught: after [n]
    pending polls, a poll that raises [e] makes the monitor raise [e]; the
    failed poll is the last thing logged, with no sleep and no retry. *)
Theorem monitor_propagates_poll_error (invocation_arn : string) (st : state)
    (n : nat) (e : exn) :
  (forall i, (i < n)%nat ->
     pending_reply (status_stream env invocation_arn st i) = true) ->
  status_stream env invocation_arn st n = inl e ->
  forall fuel, (n < fuel)%nat ->
    exists st' evs,
      monitor_video_generation env fuel invocation_arn st = (Raise e, st')
      /\ log st' = (log st ++ evs ++ [GetAsyncInvoke invocation_arn (inl e)])%list
      /\ count is_poll evs = n.
Proof.
  intros Hpend Hr fuel Hfuel.
  destruct (monitor_loop_pending_prefix env invocation_arn n "InProgress" st
              eq_refl Hpend)
    as (last' & st1 & Hl' & Hrun & Hstream & _ & evs & Hlog & Hpolls & _).
  unfold monitor_video_generation.
  replace fuel with (n + S (fuel - S n))%nat by lia.
  rewrite Hrun, monitor_loop_step by done. simpl.
  rewrite Hstream, Nat.add_0_r, Hr.
  eexists _, evs. split; [reflexivity |]. split; [| done].
  simpl. by rewrite Hlog, <- app_assoc.
Qed.

(** X6: a poll answered Failed without a [failureMessage] makes the monitor
    raise [KeyError('failureMessage')] instead of its [RuntimeError]: the
    lookup fails before the failure line is printed. *)
Theorem monitor_failed_without_message (invocation_arn : string) (st : state)
    (n : nat) (resp : response) :
  (forall i, (i < n)%nat ->
     pending_reply (status_stream env invocation_arn st i) = true) ->
  status_stream env invocation_arn st n = inr resp ->
  resp.(status) = "Failed" ->
  resp.(failureMessage) = None ->
  forall fuel, (n < fuel)%nat ->
    exists st' evs,
      monitor_video_generation env fuel invocation_arn st
        = (Raise (KeyError "failureMessage"), st')
      /\ log st' = (log st ++ evs ++ [GetAsyncInvoke invocation_arn (inr resp)])%list
      /\ count is_poll evs = n.
Proof.
  intros Hpend Hr Hstatus Hmsg fuel Hfuel.
  destruct (monitor_loop_pending_prefix env invocation_arn n "InProgress" st
              eq_refl Hpend)
    as (last' & st1 & Hl' & Hrun & Hstream & _ & evs & Hlog & Hpolls & _).
  unfold monitor_video_generation.
  replace fuel with (n + S (fuel - S n))%nat by lia.
  rewrite Hrun, monitor_loop_step by done. simpl.
  rewrite Hstream, Nat.add_0_r, Hr, Hstatus, Hmsg. simpl.
  eexists _, evs. split; [reflexivity |]. split; [| done].
  simpl. by rewrite Hlog, <- app_assoc.
Qed.

End MonitorEdges.

Lemma monitor_never_returns_none_witness :
  exists resp s3_uri evs,
    Some "s3://demo-bucket/arn:job/0/output.mp4" = Some (s3_uri ++ "/output.mp4")
    /\ resp.(status) = "Completed"
    /\ resp.(s3Uri) = Some s3_uri
    /\ log (snd (monitor_video_generation demo_services 3 "arn:job/0" initial_state))
       = (log initial_state ++ evs
            ++ [GetAsyncInvoke "arn:job/0" (inr resp);
                PrintLine ("Video generation completed. Video available at: "
                           ++ s3_uri ++ "/output.mp4")])%list.
Proof.
  apply (monitor_never_returns_none demo_services 3 "arn:job/0" initial_state).
  vm_compute. reflexivity.
Defined.

Lemma monitor_propagates_poll_error_witness :
  exists st' evs,
    monitor_video_generation flaky_services 2 "arn:job/0" initial_state
      = (Raise (TransportError "ConnectionClosedError" "Connection reset by peer"), st')
    /\ log st'
       = (log initial_state ++ evs
            ++ [GetAsyncInvoke "arn:job/0"
                  (inl (TransportError "ConnectionClosedError" "Connection reset by peer"))])%list
    /\ count is_poll evs = 1%nat.
Proof.
  apply (monitor_propagates_poll_error flaky_services "arn:job/0" initial_state 1
           (TransportError "ConnectionClosedError" "Connection reset by peer")).
  - intros [| i] Hi; [reflexivity | lia].
  - reflexivity.
  - lia.
Defined.

Lemma monitor_failed_without_message_witness :
  exists st' evs,
    monitor_video_generation terse_services 1 "arn:job/0" initial_state
      = (Raise (KeyError "failureMessage"), st')
    /\ log st'
       = (log initial_state ++ evs
            ++ [GetAsyncInvoke "arn:job/0"
                  (inr {| status := "Failed"; s3Uri := None; submitTime := None;
                          failureMessage := None |})])%list
    /\ count is_poll evs = 0%nat.
Proof.
  apply (monitor_failed_without_message terse_services "arn:job/0" initial_state 0
           {| status := "Failed"; s3Uri := None; submitTime := None;
              failureMessage := None |}).
  - intros i Hi. lia.
  - reflexivity.
  - reflexivity.
  - reflexivity.
  - lia.
Defined.

(** ** Submission, image reads and lookups *)

Section Calls.

Context (env : services) (g : globals).


(** X8: [read_s3_text] never raises.  It asks for the object once and
    returns its text; when the request fails it prints [str(e)] behind
    [Error reading file from S3: ] and returns [None]. *)
Theorem read_s3_text_never_raises (bucket_name file_key : string) (st : state) :
  let reply := s3_get_object env (n_get_object st) bucket_name file_key in
  let run := read_s3_text env bucket_name file_key st in
  fst run = Ret (match reply with inr text => Some text | inl _ => None end)
  /\ log (snd run)
     = (log st
        ++ GetObject bucket_name file_key reply
        :: match reply with
           | inr _ => []
           | inl e => [PrintLine ("Error reading file from S3: " ++ exn_message e)]
           end)%list.
Proof.
  unfold read_s3_text, try_except, mbind, M_bind, get_object.
  destruct (s3_get_object env (n_get_object st) bucket_name file_key); simpl.
  - rewrite <- app_assoc. by split.
  - by split.
Qed.


End Calls.

(** ** More on the orchestrators *)

Section OrchestrationEdges.

Context (env : services) (g : globals).

Lemma count_submit_inputs (evs : list event) :
  count is_submit evs = length (submitted_inputs evs).
Proof.
  induction evs as [| e evs IH]; [reflexivity |].
  change (e :: evs) with ([e] ++ evs)%list.
  rewrite count_app, submitted_inputs_app, length_app, IH. by destruct e.
Qed.

Lemma no_submit_no_inputs (evs : list event) :
  count is_submit evs = 0%nat -> submitted_inputs evs = [].
Proof. rewrite count_submit_inputs. by destruct (submitted_inputs evs). Qed.

(** Reading the image of a hit, with the state it leaves. *)
Lemma read_s3_text_state bucket_name file_key st :
  exists st',
    read_s3_text env bucket_name file_key st
      = (Ret (match s3_get_object env (n_get_object st) bucket_name file_key with
              | inr text => Some text
              | inl _ => None
              end), st')
    /\ n_start st' = n_start st
    /\ n_search st' = n_search st
    /\ n_polls st' = n_polls st
    /\ exists evs,
         log st' = (log st
                    ++ GetObject bucket_name file_key
                         (s3_get_object env (n_get_object st) bucket_name file_key)
                    :: evs)%list
         /\ submitted_inputs evs = []
         /\ count is_search evs = 0%nat.
Proof.
  unfold read_s3_text, try_except, mbind, M_bind, get_object.
  destruct (s3_get_object env (n_get_object st) bucket_name file_key); simpl.
  - eexists. split; [reflexivity |]. repeat split.
    eexists [_]. rewrite <- app_assoc. by split.
  - eexists. split; [reflexivity |]. repeat split.
    exists []. by split.
Qed.

Lemma string_length_app (a b : string) :
  String.length (a ++ b) = (String.length a + String.length b)%nat.
Proof.
  induction a as [| x a IH]; [reflexivity |].
  change (String x a ++ b) with (String x (a ++ b)). simpl. by rewrite IH.
Qed.

Lemma string_app_inv_tail (a b c : string) : a ++ c = b ++ c -> a = b.
Proof.
  revert b. induction a as [| x a IH]; intros [| y b] Heq; [reflexivity | | |].
  - apply (f_equal String.length) in Heq.
    rewrite !string_length_app in Heq. simpl in Heq. lia.
  - apply (f_equal String.length) in Heq.
    rewrite !string_length_app in Heq. simpl in Heq. lia.
  - change (String x (a ++ c) = String y (b ++ c)) in Heq.
    injection Heq as -> Heq. by rewrite (IH b Heq).
Qed.

(** X10: the success path of [vrag].  When the lookup returns hits, the
    encoded image of the first hit is read under the key derived from its
    URI, one job is submitted whose input carries the camera prompt and that
    image, and what is returned is the output location of the Completed
    reply to a poll of that job, followed by [/output.mp4]. *)
Theorem vrag_generates_from_first_hit (fuel : nat)
    (image_prompt camera_prompt : string) (st st1 : state)
    (best : hit) (others : list hit) (image : string) (arn : string) (n : nat)
    (resp : response) (s3_uri : string) :
  query_open_search env g.(INDEX_NAME) image_prompt 1 st
    = (Ret (best :: others), st1) ->
  s3_get_object env (n_get_object st1) g.(BUCKET)
    (s3_key_of_uri best.(image_base64_s3_uri)) = inr image ->
  bedrock_start_async_invoke env (n_start st1) = inr arn ->
  (forall i, (i < n)%nat -> pending_reply (status_stream env arn st1 i) = true) ->
  status_stream env arn st1 n = inr resp ->
  resp.(status) = "Completed" ->
  resp.(s3Uri) = Some s3_uri ->
  (n < fuel)%nat ->
  exists st' evs,
    vrag env g fuel image_prompt camera_prompt st
      = (Ret (Some (s3_uri ++ "/output.mp4")), st')
    /\ log st'
       = (log st1
          ++ GetObject g.(BUCKET) (s3_key_of_uri best.(image_base64_s3_uri))
               (inr image)
          :: evs)%list
    /\ accepted_jobs evs
       = [(TextImage.build_model_input camera_prompt (Some image)
             6 24 "1280x720" 0, arn)]
    /\ submitted_inputs evs
       = [TextImage.build_model_input camera_prompt (Some image)
            6 24 "1280x720" 0]
    /\ completed_polls evs = [(arn, Some s3_uri)].
Proof.
  intros Hquery Himage Harn Hpend Hr Hstatus Huri Hfuel.
  unfold vrag. rewrite (bind_ret _ _ _ _ _ Hquery).
  assert (Hread : exists st2,
            read_s3_text env g.(BUCKET) (s3_key_of_uri best.(image_base64_s3_uri)) st1
              = (Ret (Some image), st2)
            /\ n_start st2 = n_start st1
            /\ n_polls st2 = n_polls st1
            /\ log st2
               = (log st1
                  ++ [GetObject g.(BUCKET) (s3_key_of_uri best.(image_base64_s3_uri))
                        (inr image)])%list).
  { unfold read_s3_text, try_except, mbind, M_bind, get_object.
    rewrite Himage. simpl. eexists. by repeat split. }
  destruct Hread as (st2 & Hread & Hstart2 & Hpolls2 & Hlog2).
  rewrite (bind_ret _ _ _ _ _ Hread).
  destruct (start_video_generation_run env g.(BUCKET)
              (TextImage.build_model_input camera_prompt (Some image)
                 6 24 "1280x720" 0) st2 arn)
    as (st3 & Hstart & (_ & _ & _ & _ & Hlog3 & _) & Hpolls3);
    [by rewrite Hstart2 |].
  rewrite (bind_ret _ _ _ _ _ Hstart).
  assert (Hpolls : n_polls st3 = n_polls st1) by congruence.
  destruct (monitor_completes env arn st3 n resp s3_uri fuel)
    as (st4 & evs4 & Hmonitor & _ & Hlog4 & Hev4 & _); try done.
  { intros i Hi. rewrite (status_stream_same_polls env arn st1 st3 i Hpolls).
    by apply Hpend. }
  { by rewrite (status_stream_same_polls env arn st1 st3 n Hpolls). }
  destruct (monitor_events_count evs4 Hev4) as (_ & Hjobs4 & Hsub4).
  destruct (monitor_loop_completed_poll env arn fuel "InProgress" st3 _ st4 eq_refl
              Hmonitor) as (u & evs4' & Hv & Hlog4' & Hdone4).
  rewrite Hlog4 in Hlog4'. apply app_inv_head in Hlog4'. subst evs4'.
  injection Hv as Hv. apply string_app_inv_tail in Hv. subst u.
  exists st4.
  eexists ([StartAsyncInvoke _ _ _ _; PrintLine _] ++ evs4)%list.
  split; [exact Hmonitor |].
  rewrite Hlog4, Hlog3, Hlog2, <- !app_assoc. split; [reflexivity |].
  rewrite !accepted_jobs_app, !submitted_inputs_app, !completed_polls_app.
  rewrite Hsub4, (no_submit_no_jobs _ Hjobs4), Hdone4.
  by repeat split.
Qed.

(** X11: a hit whose encoded image cannot be read, or is empty, does not
    stop [vrag]: the job is still submitted, as a text-only request whose
    [images] list is empty. *)
Theorem vrag_submits_without_image (fuel : nat)
    (image_prompt camera_prompt : string) (st st1 : state)
    (best : hit) (others : list hit) :
  query_open_search env g.(INDEX_NAME) image_prompt 1 st
    = (Ret (best :: others), st1) ->
  match s3_get_object env (n_get_object st1) g.(BUCKET)
          (s3_key_of_uri best.(image_base64_s3_uri)) with
  | inr text => text = ""
  | inl _ => True
  end ->
  exists evs model_input,
    log (snd (vrag env g fuel image_prompt camera_prompt st))
      = (log st1 ++ evs)%list
    /\ submitted_inputs evs = [model_input]
    /\ py_getitem model_input "textToVideoParams"
       = Some (PDict (list_to_map [("text", PStr camera_prompt);
                                   ("images", PList [])])).
Proof.
  intros Hquery Himage.
  unfold vrag. rewrite (bind_ret _ _ _ _ _ Hquery).
  destruct (read_s3_text_state g.(BUCKET) (s3_key_of_uri best.(image_base64_s3_uri)) st1)
    as (st2 & Hread & _ & _ & _ & evs2 & Hlog2 & Hsub2 & _).
  rewrite (bind_ret _ _ _ _ _ Hread).
  set (image := match s3_get_object env _ _ _ with
                | inr text => Some text
                | inl _ => None
                end) in *.
  assert (Himg : truthy image = false).
  { subst image. destruct (s3_get_object env _ _ _); [done | by subst]. }
  set (model_input := TextImage.build_model_input camera_prompt image 6 24 "1280x720" 0).
  assert (Hparams : py_getitem model_input "textToVideoParams"
                    = Some (PDict (list_to_map [("text", PStr camera_prompt);
                                                ("images", PList [])]))).
  { subst model_input. unfold TextImage.build_model_input. rewrite Himg.
    vm_compute. reflexivity. }
  destruct (start_video_generation_trace env g.(BUCKET) model_input st2)
    as (evs3 & Hlog3 & Hsub3).
  unfold mbind, M_bind.
  destruct (start_video_generation env g.(BUCKET) model_input st2)
    as [[arn | e |] st3] eqn:Hstart; simpl in Hlog3.
  - destruct (monitor_loop_trace env arn fuel "InProgress" st3)
      as (evs4 & Hlog4 & Hev4 & _).
    destruct (monitor_events_count evs4 Hev4) as (_ & _ & Hsub4).
    eexists _, model_input. unfold monitor_video_generation.
    rewrite Hlog4, Hlog3, Hlog2, <- !app_assoc. split; [reflexivity |].
    split; [| exact Hparams].
    change (?e :: ?l)%list with ([e] ++ l)%list.
    by rewrite !submitted_inputs_app, Hsub2, Hsub3, Hsub4.
  - eexists _, model_input. simpl.
    rewrite Hlog3, Hlog2, <- !app_assoc. split; [reflexivity |].
    split; [| exact Hparams].
    change (?e :: ?l)%list with ([e] ++ l)%list.
    by rewrite !submitted_inputs_app, Hsub2, Hsub3.
  - eexists _, model_input. simpl.
    rewrite Hlog3, Hlog2, <- !app_assoc. split; [reflexivity |].
    split; [| exact Hparams].
    change (?e :: ?l)%list with ([e] ++ l)%list.
    by rewrite !submitted_inputs_app, Hsub2, Hsub3.
Qed.

Lemma bind_out_of_fuel {A B} (m : M A) (k : A -> M B) st st' :
  m st = (OutOfFuel, st') -> (m ≫= k) st = (OutOfFuel, st').
Proof. intros H. unfold mbind, M_bind. by rewrite H. Qed.

Lemma query_open_search_returns index_name prompt top_k st hits st' :
  query_open_search env index_name prompt top_k st = (Ret hits, st') ->
  exists evs,
    log st' = (log st ++ evs)%list
    /\ count is_search evs = 1%nat
    /\ count is_submit evs = 0%nat.
Proof.
  unfold query_open_search, get_titan_multimodal_embedding.
  unfold mbind, M_bind, invoke_model, search.
  destruct (bedrock_invoke_model env (n_invoke_model st)); simpl; [done |].
  destruct (py_getitem _ "embedding"); simpl; [| done].
  intros [= _ <-]. eexists [_; _]. simpl. rewrite <- app_assoc. by repeat split.
Qed.

Lemma start_video_generation_returns bucket model_input st arn st' :
  start_video_generation env bucket model_input st = (Ret arn, st') ->
  log st'
  = (log st
     ++ [StartAsyncInvoke "amazon.nova-reel-v1:0" model_input ("s3://" ++ bucket)
           (inr arn);
         PrintLine "Video generation job started successfully."])%list.
Proof.
  unfold start_video_generation, try_except, mbind, M_bind, start_async_invoke.
  destruct (bedrock_start_async_invoke env (n_start st)) as [e | arn']; simpl.
  - by destruct e.
  - intros [= <- <-]. simpl. by rewrite <- app_assoc.
Qed.

(** What a batch that returns has done, whatever the services answered. *)
Lemma process_loop_returns fuel object_prompt total prompts :
  forall i video_uris st out st',
  process_loop env g fuel object_prompt total i prompts video_uris st
    = (Ret out, st') ->
  exists res evs,
    out = (video_uris ++ res)%list
    /\ Forall (fun r => exists s3_uri, fst r = Some (s3_uri ++ "/output.mp4")) res
    /\ sublist (map snd res) prompts
    /\ log st' = (log st ++ evs)%list
    /\ count is_submit evs = length res
    /\ count is_search evs = length prompts.
Proof.
  induction prompts as [| p rest IH]; intros i video_uris st out st' Hrun.
  { injection Hrun as <- <-. exists [], []. rewrite !app_nil_r.
    repeat split; by constructor. }
  simpl process_loop in Hrun.
  rewrite (bind_ret _ _ _ _ _ (print_run _ _)) in Hrun.
  set (st0 := after_events _ st) in Hrun.
  destruct (query_open_search env g.(INDEX_NAME) object_prompt 1 st0)
    as [[hits | e |] st1] eqn:Hquery.
  2:{ rewrite (bind_raise _ _ _ _ _ Hquery) in Hrun. discriminate. }
  2:{ rewrite (bind_out_of_fuel _ _ _ _ Hquery) in Hrun. discriminate. }
  rewrite (bind_ret _ _ _ _ _ Hquery) in Hrun.
  apply query_open_search_returns in Hquery as (evs1 & Hlog1 & Hcs1 & Hcj1).
  destruct hits as [| best others].
  - rewrite (bind_ret _ _ _ _ _ (print_run _ _)) in Hrun.
    apply IH in Hrun as (res & evs & -> & Hall & Hsub & Hlog & Hcj & Hcs).
    exists res. eexists ([PrintLine _] ++ evs1 ++ [PrintLine _] ++ evs)%list.
    split; [done |]. split; [done |]. split; [by constructor |].
    split; [rewrite Hlog; simpl; rewrite Hlog1; simpl; by rewrite <- !app_assoc |].
    rewrite !count_app, Hcs1, Hcj1, Hcj, Hcs. by split.
  - destruct (read_s3_text_state g.(BUCKET)
                (s3_key_of_uri best.(image_base64_s3_uri)) st1)
      as (st2 & Hread & _ & _ & _ & evs2 & Hlog2 & Hsub2 & Hcs2).
    rewrite (bind_ret _ _ _ _ _ Hread) in Hrun.
    match type of Hrun with
    | context [start_video_generation env ?b ?mi] =>
        destruct (start_video_generation env b mi st2) as [[arn | e |] st3] eqn:Hstart
    end.
    2:{ rewrite (bind_raise _ _ _ _ _ Hstart) in Hrun. discriminate. }
    2:{ rewrite (bind_out_of_fuel _ _ _ _ Hstart) in Hrun. discriminate. }
    rewrite (bind_ret _ _ _ _ _ Hstart) in Hrun.
    apply start_video_generation_returns in Hstart as Hlog3.
    destruct (monitor_video_generation env fuel arn st3) as [[v | e |] st4] eqn:Hmonitor.
    2:{ rewrite (bind_raise _ _ _ _ _ Hmonitor) in Hrun. discriminate. }
    2:{ rewrite (bind_out_of_fuel _ _ _ _ Hmonitor) in Hrun. discriminate. }
    rewrite (bind_ret _ _ _ _ _ Hmonitor) in Hrun.
    destruct (monitor_loop_trace env arn fuel "InProgress" st3)
      as (evs4 & Hlog4 & Hev4 & _).
    destruct (monitor_events_count evs4 Hev4) as (Hcs4 & Hcj4 & _).
    unfold monitor_video_generation in Hmonitor. rewrite Hmonitor in Hlog4.
    apply (monitor_loop_returns_location env) in Hmonitor
      as (_ & s3_uri & _ & -> & _); [| done].
    apply IH in Hrun as (res & evs & -> & Hall & Hsub & Hlog & Hcj & Hcs).
    exists ((Some (s3_uri ++ "/output.mp4"), p) :: res).
    eexists ([PrintLine _] ++ evs1
             ++ ([GetObject _ _ _] ++ evs2)
             ++ [StartAsyncInvoke _ _ _ _; PrintLine _] ++ evs4 ++ evs)%list.
    split; [by rewrite <- app_assoc |].
    split; [constructor; [by exists s3_uri | done] |].
    split; [by constructor |].
    split.
    { rewrite Hlog. simpl in Hlog4. rewrite Hlog4, Hlog3, Hlog2, Hlog1. simpl.
      by rewrite <- !app_assoc. }
    rewrite !count_app, Hcs1, Hcj1, Hcs2, Hcs4, Hcj4, Hcj, Hcs.
    rewrite (count_submit_inputs evs2), Hsub2. by split.
Qed.

(** X12: whatever the services answer, a batch that returns has made one
    lookup per prompt and submitted one job per pair it returns; every pair
    holds a result location ending in [/output.mp4], never a skip marker,
    and the prompts of the pairs are a sub-list of the input, in input
    order. *)
Theorem batch_result_entries (fuel : nat) (prompt_list : list string)
    (object_prompt : string) (st st' : state)
    (res : list (option string * string)) :
  process_videos_from_prompts env g fuel prompt_list object_prompt st
    = (Ret res, st') ->
  Forall (fun r => exists s3_uri, fst r = Some (s3_uri ++ "/output.mp4")) res
  /\ sublist (map snd res) prompt_list
  /\ exists evs,
       log st' = (log st ++ evs)%list
       /\ count is_submit evs = length res
       /\ count is_search evs = length prompt_list.
Proof.
  intros Hrun. apply process_loop_returns in Hrun
    as (res' & evs & -> & Hall & Hsub & Hlog & Hcj & Hcs).
  split; [done |]. split; [done |]. by exists evs.
Qed.

End OrchestrationEdges.

Lemma vrag_generates_from_first_hit_witness :
  exists st' evs,
    vrag demo_services demo_globals 3 "red shoes" "Camera zooms in" initial_state
      = (Ret (Some ("s3://demo-bucket/arn:job/0" ++ "/output.mp4")), st')
    /\ log st'
       = (log (snd (query_open_search demo_services "vrag-index" "red shoes" 1
                      initial_state))
          ++ GetObject "demo-bucket" (s3_key_of_uri red_shoes.(image_base64_s3_uri))
               (inr "aGVsbG8=")
          :: evs)%list
    /\ accepted_jobs evs
       = [(TextImage.build_model_input "Camera zooms in" (Some "aGVsbG8=")
             6 24 "1280x720" 0, "arn:job/0")]
    /\ submitted_inputs evs
       = [TextImage.build_model_input "Camera zooms in" (Some "aGVsbG8=")
            6 24 "1280x720" 0]
    /\ completed_polls evs = [("arn:job/0", Some "s3://demo-bucket/arn:job/0")].
Proof.
  apply (vrag_generates_from_first_hit demo_services demo_globals 3 "red shoes"
           "Camera zooms in" initial_state
           (snd (query_open_search demo_services "vrag-index" "red shoes" 1
                   initial_state))
           red_shoes [] "aGVsbG8=" "arn:job/0" 2
           (completed "s3://demo-bucket/arn:job/0") "s3://demo-bucket/arn:job/0").
  - vm_compute. reflexivity.
  - reflexivity.
  - reflexivity.
  - intros [| [| i]] Hi; [reflexivity | reflexivity | lia].
  - reflexivity.
  - reflexivity.
  - reflexivity.
  - lia.
Defined.

Lemma vrag_submits_without_image_witness :
  exists evs model_input,
    log (snd (vrag unreadable_services demo_globals 1 "red shoes" "Camera zooms in"
                initial_state))
      = (log (snd (query_open_search unreadable_services "vrag-index" "red shoes" 1
                     initial_state)) ++ evs)%list
    /\ submitted_inputs evs = [model_input]
    /\ py_getitem model_input "textToVideoParams"
       = Some (PDict (list_to_map [("text", PStr "Camera zooms in");
                                   ("images", PList [])])).
Proof.
  apply (vrag_submits_without_image unreadable_services demo_globals 1 "red shoes"
           "Camera zooms in" initial_state
           (snd (query_open_search unreadable_services "vrag-index" "red shoes" 1
                   initial_state))
           red_shoes []).
  - vm_compute. reflexivity.
  - exact I.
Defined.

Lemma batch_result_entries_witness :
  Forall (fun r => exists s3_uri, fst r = Some (s3_uri ++ "/output.mp4"))
    [(Some "s3://demo-bucket/arn:job/0/output.mp4", "red shoes on a beach");
     (Some "s3://demo-bucket/arn:job/1/output.mp4", "red shoes on a table")]
  /\ sublist
       (map snd
          [(Some "s3://demo-bucket/arn:job/0/output.mp4", "red shoes on a beach");
           (Some "s3://demo-bucket/arn:job/1/output.mp4", "red shoes on a table")])
       three_prompts
  /\ exists evs,
       log (snd (process_videos_from_prompts demo_services demo_globals 3
                   three_prompts "red shoes" initial_state))
         = (log initial_state ++ evs)%list
       /\ count is_submit evs = 2%nat
       /\ count is_search evs = 3%nat.
Proof.
  apply (batch_result_entries demo_services demo_globals 3 three_prompts
           "red shoes" initial_state).
  vm_compute. reflexivity.
Defined.

(** ** Downloads, uploads and ingestion *)

Section CellProperties.

Context (env : services) (fs : file_services) (g : globals).

Ltac cell := unfold and_then, try_cell, done, raised, lift, download_file,
  put_object, index_document, read_file, display, file_reply; simpl.

(** X13: [download_and_display_video] needs a URI with at least three
    slashes: on a shorter one [video_uri.split('/')[3]] raises [IndexError]
    before anything is printed or downloaded. *)
Theorem download_needs_four_pieces (bucket video_uri output_dir : string)
    (cs : cell_state) :
  (length (split "/"%char video_uri) <= 3)%nat ->
  download_and_display_video fs bucket (Some video_uri) output_dir cs
    = (Raised (IndexError "list index out of range"), cs).
Proof.
  intros Hlen. unfold download_and_display_video.
  rewrite (lookup_ge_None_2 (split "/"%char video_uri) 3) by lia. reflexivity.
Qed.

Lemma split_no_sep sep (s : string) :
  has_char sep s = false -> split sep s = [s].
Proof.
  induction s as [| c s IH]; simpl; [done |]. intros Hs.
  apply orb_false_iff in Hs as [Hc Hs]. by rewrite Hc, (IH Hs).
Qed.

Lemma split_job_output (bucket job : string) :
  has_char "/"%char bucket = false ->
  has_char "/"%char job = false ->
  split "/"%char ("s3://" ++ bucket ++ "/" ++ job ++ "/output.mp4")
  = ["s3:"; ""; bucket; job; "output.mp4"].
Proof.
  intros Hbucket Hjob.
  change ("s3://" ++ bucket ++ "/" ++ job ++ "/output.mp4")
    with ("s3:" ++ String "/" ("" ++ String "/"
            (bucket ++ String "/" (job ++ String "/" "output.mp4")))).
  rewrite (split_until_sep "/" "s3:") by reflexivity.
  rewrite (split_until_sep "/" "") by reflexivity.
  rewrite (split_until_sep "/" bucket) by done.
  rewrite (split_until_sep "/" job) by done.
  reflexivity.
Qed.

Lemma download_job_run (bucket uri_bucket job output_dir : string)
    (cs : cell_state) :
  has_char "/"%char uri_bucket = false ->
  has_char "/"%char job = false ->
  exists cs',
    download_and_display_video fs bucket
      (Some ("s3://" ++ uri_bucket ++ "/" ++ job ++ "/output.mp4")) output_dir cs
    = (match s3_download_file fs (n_download cs) with
       | inr _ => Done (output_dir ++ "/" ++ job ++ ".mp4")
       | inl e => Raised (ServiceError e)
       end, cs')
    /\ files cs'
       = (files cs
          ++ [DownloadFile bucket (job ++ "/output.mp4")
                (output_dir ++ "/" ++ job ++ ".mp4")
                (s3_download_file fs (n_download cs))])%list.
Proof.
  intros Hbucket Hjob.
  unfold download_and_display_video, s3_key_of_uri.
  rewrite !(split_job_output uri_bucket job Hbucket Hjob). simpl. cell.
  destruct (s3_download_file fs (n_download cs)); eexists; by split.
Qed.

(** X14: the monitor's result fits the download.  For the location
    [s3://<bucket>/<job>/output.mp4] of a completed job,
    [download_and_display_video] asks for the object [<job>/output.mp4] of
    the bucket it is given (the bucket named in the URI is not used), saves
    it as [<output_dir>/<job>.mp4] and returns that path; a failed transfer
    is raised. *)
Theorem download_of_job_output (bucket uri_bucket job output_dir : string)
    (cs : cell_state) :
  has_char "/"%char uri_bucket = false ->
  has_char "/"%char job = false ->
  let reply := s3_download_file fs (n_download cs) in
  let run :=
    download_and_display_video fs bucket
      (Some ("s3://" ++ uri_bucket ++ "/" ++ job ++ "/output.mp4")) output_dir cs in
  fst run = match reply with
            | inr _ => Done (output_dir ++ "/" ++ job ++ ".mp4")
            | inl e => Raised (ServiceError e)
            end
  /\ files (snd run)
     = (files cs
        ++ [DownloadFile bucket (job ++ "/output.mp4")
              (output_dir ++ "/" ++ job ++ ".mp4") reply])%list.
Proof.
  intros Hbucket Hjob. cbv zeta.
  destruct (download_job_run bucket uri_bucket job output_dir cs Hbucket Hjob)
    as (cs' & -> & Hfiles).
  by split.
Qed.

Lemma string_app_assoc (a b c : string) : (a ++ b) ++ c = a ++ (b ++ c).
Proof.
  induction a as [| x a IH]; [reflexivity |].
  change (String x ((a ++ b) ++ c) = String x (a ++ (b ++ c))). by rewrite IH.
Qed.

Lemma lift_ret {A} (m : M A) cs a st' :
  m (calls cs) = (Ret a, st') -> lift m cs = (Done a, with_calls st' cs).
Proof. intros H. unfold lift. by rewrite H. Qed.

Lemma lift_raise {A} (m : M A) cs e st' :
  m (calls cs) = (Raise e, st') ->
  lift m cs = (Raised (ServiceError e), with_calls st' cs).
Proof. intros H. unfold lift. by rewrite H. Qed.

Lemma and_then_done {A B} (m : N A) (k : A -> N B) cs a cs' :
  m cs = (Done a, cs') -> and_then m k cs = k a cs'.
Proof. intros H. unfold and_then. by rewrite H. Qed.

Lemma and_then_raised {A B} (m : N A) (k : A -> N B) cs e cs' :
  m cs = (Raised e, cs') -> and_then m k cs = (Raised e, cs').
Proof. intros H. unfold and_then. by rewrite H. Qed.

(** X15: the workflow cell never raises: whatever happens while the job is
    started, monitored and downloaded, the cell ends normally (or is still
    waiting for the job). *)
Theorem workflow_never_raises (fuel : nat) (model_input : pyval)
    (output_dir : string) (cs : cell_state) (e : cell_exn) :
  fst (text_only_workflow env fs g fuel model_input output_dir cs) ≠ Raised e.
Proof.
  unfold text_only_workflow, try_cell.
  match goal with
  | |- context [match ?run with _ => _ end] => destruct run as [[a | e' |] cs']
  end; cell; discriminate.
Qed.

(** X16: when the job fails, the workflow cell downloads nothing, binds no
    local path, and reports the monitor's fixed message: the failure reason
    is only in the line the monitor printed before. *)
Theorem workflow_reports_failed_job (fuel : nat) (model_input : pyval)
    (output_dir : string) (cs : cell_state) (arn : string) (n : nat)
    (resp : response) (reason : string) :
  bedrock_start_async_invoke env (n_start (calls cs)) = inr arn ->
  (forall i, (i < n)%nat ->
     pending_reply (status_stream env arn (calls cs) i) = true) ->
  status_stream env arn (calls cs) n = inr resp ->
  resp.(status) = "Failed" ->
  resp.(failureMessage) = Some reason ->
  (n < fuel)%nat ->
  exists cs' evs,
    text_only_workflow env fs g fuel model_input output_dir cs = (Done None, cs')
    /\ files cs' = files cs
    /\ log (calls cs')
       = (log (calls cs) ++ evs
          ++ [PrintLine ("Job " ++ arn ++ " failed. Reason: " ++ reason);
              PrintLine "An error occurred during video generation: Video generation failed."])%list.
Proof.
  intros Harn Hpend Hr Hstatus Hreason Hfuel.
  destruct (start_video_generation_run env g.(BUCKET) model_input (calls cs) arn Harn)
    as (st1 & Hstart & (_ & _ & _ & _ & Hlog1 & _) & Hpolls1).
  destruct (monitor_fails env arn st1 n resp reason fuel)
    as (st2 & evs2 & Hmonitor & _ & Hlog2 & _); try done.
  { intros i Hi. rewrite (status_stream_same_polls env arn (calls cs) st1 i Hpolls1).
    by apply Hpend. }
  { by rewrite (status_stream_same_polls env arn (calls cs) st1 n Hpolls1). }
  unfold text_only_workflow, try_cell.
  rewrite (and_then_done _ _ _ _ _ (lift_ret _ _ _ _ Hstart)).
  rewrite (and_then_raised _ _ _ _ _
             (lift_raise _ (with_calls st1 cs) _ _ Hmonitor)).
  cell.
  eexists _, ([StartAsyncInvoke _ _ _ _; PrintLine _] ++ evs2
              ++ [GetAsyncInvoke arn (inr resp)])%list.
  split; [reflexivity |]. split; [reflexivity |]. simpl.
  rewrite Hlog2, Hlog1, <- !app_assoc. reflexivity.
Qed.

(** X17: the whole workflow on a job that completes.  With the output
    location [s3://<bucket>/<job>] reported by the service, the cell
    downloads [<job>/output.mp4] from [BUCKET] to [<output_dir>/<job>.mp4]
    and binds that path. *)
Theorem workflow_downloads_completed_job (fuel : nat) (model_input : pyval)
    (output_dir : string) (cs : cell_state) (arn : string) (n : nat)
    (resp : response) (uri_bucket job : string) :
  bedrock_start_async_invoke env (n_start (calls cs)) = inr arn ->
  (forall i, (i < n)%nat ->
     pending_reply (status_stream env arn (calls cs) i) = true) ->
  status_stream env arn (calls cs) n = inr resp ->
  resp.(status) = "Completed" ->
  resp.(s3Uri) = Some ("s3://" ++ uri_bucket ++ "/" ++ job) ->
  has_char "/"%char uri_bucket = false ->
  has_char "/"%char job = false ->
  s3_download_file fs (n_download cs) = inr tt ->
  (n < fuel)%nat ->
  exists cs',
    text_only_workflow env fs g fuel model_input output_dir cs
      = (Done (Some (output_dir ++ "/" ++ job ++ ".mp4")), cs')
    /\ files cs'
       = (files cs
          ++ [DownloadFile g.(BUCKET) (job ++ "/output.mp4")
                (output_dir ++ "/" ++ job ++ ".mp4") (inr tt)])%list.
Proof.
  intros Harn Hpend Hr Hstatus Huri Hbucket Hjob Hdownload Hfuel.
  destruct (start_video_generation_run env g.(BUCKET) model_input (calls cs) arn Harn)
    as (st1 & Hstart & _ & Hpolls1).
  destruct (monitor_completes env arn st1 n resp
              ("s3://" ++ uri_bucket ++ "/" ++ job) fuel)
    as (st2 & evs2 & Hmonitor & _); try done.
  { intros i Hi. rewrite (status_stream_same_polls env arn (calls cs) st1 i Hpolls1).
    by apply Hpend. }
  { by rewrite (status_stream_same_polls env arn (calls cs) st1 n Hpolls1). }
  unfold text_only_workflow, try_cell.
  rewrite (and_then_done _ _ _ _ _ (lift_ret _ _ _ _ Hstart)).
  rewrite (and_then_done _ _ _ _ _
             (lift_ret _ (with_calls st1 cs) _ _ Hmonitor)).
  replace (("s3://" ++ uri_bucket ++ "/" ++ job) ++ "/output.mp4")
    with ("s3://" ++ uri_bucket ++ "/" ++ job ++ "/output.mp4")
    by (by rewrite !string_app_assoc).
  destruct (download_job_run g.(BUCKET) uri_bucket job output_dir
              (with_calls st2 (with_calls st1 cs)) Hbucket Hjob)
    as (cs' & Hrun & Hfiles).
  change (n_download (with_calls st2 (with_calls st1 cs))) with (n_download cs)
    in Hrun, Hfiles.
  rewrite Hdownload in Hrun, Hfiles.
  rewrite (and_then_done _ _ _ _ _ Hrun). by exists cs'.
Qed.

(** X18: [upload_file_to_s3] never raises and tells the truth: it returns
    [True] exactly when the local file could be read and its base64 text was
    put under the given bucket and key; when the file cannot be read nothing
    is sent to S3. *)
Theorem upload_file_to_s3_outcomes (local_file_path bucket_name key_file : string)
    (cs : cell_state) :
  let content := local_file fs local_file_path in
  let reply := s3_put_object fs (n_put cs) in
  let run := upload_file_to_s3 fs local_file_path bucket_name key_file cs in
  fst run = Done (match content, reply with
                  | Some _, inr _ => true
                  | _, _ => false
                  end)
  /\ files (snd run)
     = (files cs
        ++ OpenFile local_file_path content
        :: match content with
           | Some bytes =>
               [PutObject (b64encode fs bytes) bucket_name key_file reply]
           | None => []
           end)%list.
Proof.
  cbv zeta. unfold upload_file_to_s3. cell.
  destruct (local_file fs local_file_path) as [bytes |]; simpl.
  - destruct (s3_put_object fs (n_put cs)) as [[] | []]; simpl;
      rewrite <- ?app_assoc; by split.
  - by split.
Qed.

Lemma download_requests_app (evs1 evs2 : list file_event) :
  download_requests (evs1 ++ evs2)%list
  = (download_requests evs1 ++ download_requests evs2)%list.
Proof. apply omap_app. Qed.

(** The loop of the display cell from any position. *)
Lemma display_loop_run output_dir video_uris : forall i video_html cs,
  exists html cs' evs,
    display_loop fs g output_dir i video_uris video_html cs = (Done html, cs')
    /\ files cs' = (files cs ++ evs)%list
    /\ download_requests evs = display_requests g.(BUCKET) output_dir i video_uris
    /\ Forall (fun e => is_download e = true) evs.
Proof.
  induction video_uris as [| [video_uri formatted_prompt] rest IH];
    intros i video_html cs.
  { exists video_html, cs, []. simpl. rewrite app_nil_r. by repeat split. }
  simpl display_loop. simpl display_requests. unfold truthy.
  destruct video_uri as [uri |].
  2:{ cell.
      edestruct IH as (html & cs' & evs & Hrun & Hfiles & Hreq & Hall).
      exists html, cs', evs. split; [exact Hrun |]. by split. }
  destruct (String.eqb uri "") eqn:Huri.
  { cell.
    edestruct IH as (html & cs' & evs & Hrun & Hfiles & Hreq & Hall).
    exists html, cs', evs. split; [exact Hrun |]. by split. }
  cell.
  destruct (s3_download_file fs (n_download cs)) as [e | []]; simpl.
  - edestruct IH as (html & cs' & evs & Hrun & Hfiles & Hreq & Hall).
    exists html, cs'. eexists ([DownloadFile _ _ _ _] ++ evs)%list.
    split; [exact Hrun |]. rewrite Hfiles. simpl. rewrite <- app_assoc.
    split; [reflexivity |]. unfold download_requests in *. simpl. rewrite Hreq.
    unfold s3_key_of_uri. split; [reflexivity |]. by constructor.
  - edestruct IH as (html & cs' & evs & Hrun & Hfiles & Hreq & Hall).
    exists html, cs'. eexists ([DownloadFile _ _ _ _] ++ evs)%list.
    split; [exact Hrun |]. rewrite Hfiles. simpl. rewrite <- app_assoc.
    split; [reflexivity |]. unfold download_requests in *. simpl. rewrite Hreq.
    unfold s3_key_of_uri. split; [reflexivity |]. by constructor.
Qed.

(** X19: the display cell never raises, and a failed download does not
    stop it: whatever the transfers answer, it asks for one download for
    each pair that has a video URI, from [BUCKET], to the file
    [video_<k>.mp4] named after the position [k] of the pair in the list,
    and then displays once. *)
Theorem display_videos_requests (output_dir : string)
    (video_uris : list (option string * string)) (cs : cell_state) :
  exists html cs' evs,
    display_videos fs g output_dir video_uris cs = (Done tt, cs')
    /\ files cs' = (files cs ++ evs ++ [Display html])%list
    /\ download_requests evs = display_requests g.(BUCKET) output_dir 0 video_uris
    /\ Forall (fun e => is_download e = true) evs.
Proof.
  destruct (display_loop_run output_dir video_uris 0%nat "" cs)
    as (html & cs' & evs & Hrun & Hfiles & Hreq & Hall).
  unfold display_videos. rewrite (and_then_done _ _ _ _ _ Hrun).
  exists html. eexists _, evs. cell. split; [reflexivity |].
  rewrite Hfiles, <- app_assoc. by repeat split.
Qed.

Lemma display_requests_length bucket output_dir video_uris : forall i,
  Forall (fun r => exists s3_uri, fst r = Some (s3_uri ++ "/output.mp4")) video_uris ->
  length (display_requests bucket output_dir i video_uris) = length video_uris.
Proof.
  induction video_uris as [| [video_uri p] rest IH]; intros i Hall; [reflexivity |].
  inversion Hall as [| ? ? [s3_uri Huri] Hrest]; subst. simpl in Huri. subst.
  simpl. destruct (String.eqb_spec (s3_uri ++ "/output.mp4") "") as [Hempty | _].
  - by destruct s3_uri.
  - simpl. by rewrite IH.
Qed.

(** X20: on a list returned by the batch the display cell skips nothing:
    every pair has a video URI, so one download is asked for each pair. *)
Theorem display_downloads_every_batch_result (fuel : nat)
    (prompt_list : list string) (object_prompt output_dir : string)
    (st st' : state) (res : list (option string * string)) (cs : cell_state) :
  process_videos_from_prompts env g fuel prompt_list object_prompt st
    = (Ret res, st') ->
  exists html cs' evs,
    display_videos fs g output_dir res cs = (Done tt, cs')
    /\ files cs' = (files cs ++ evs ++ [Display html])%list
    /\ length (download_requests evs) = length res.
Proof.
  intros Hrun. apply (process_loop_returns env g) in Hrun
    as (res' & _ & Heq & Hall & _). simpl in Heq. subst res'.
  destruct (display_loop_run output_dir res 0%nat "" cs)
    as (html & cs' & evs & Hloop & Hfiles & Hreq & _).
  unfold display_videos. rewrite (and_then_done _ _ _ _ _ Hloop).
  exists html. eexists _, evs. cell. split; [reflexivity |].
  rewrite Hfiles, <- app_assoc. split; [reflexivity |].
  rewrite Hreq. by apply display_requests_length.
Qed.

Lemma indexed_documents_app (evs1 evs2 : list file_event) :
  indexed_documents (evs1 ++ evs2)%list
  = (indexed_documents evs1 ++ indexed_documents evs2)%list.
Proof. apply omap_app. Qed.

(** The ingestion loop when every call to the index succeeds. *)
Lemma ingest_loop_run base64_images_dir images_dir embeddings :
  Forall (fun e => is_Some (py_getitem e "embedding")) embeddings ->
  (forall n, oss_index fs n = inr tt) ->
  forall image_descriptions base64_images images cs,
  exists cs' evs,
    ingest_loop fs g base64_images_dir images_dir embeddings image_descriptions
      base64_images images cs = (Done tt, cs')
    /\ files cs' = (files cs ++ evs)%list
    /\ length (indexed_documents evs)
       = Nat.min (Nat.min (length embeddings) (length image_descriptions))
           (Nat.min (length base64_images) (length images))
    /\ log (calls cs')
       = (log (calls cs) ++ replicate (length (indexed_documents evs)) (Sleep 5))%list.
Proof.
  intros Hkeys Hindex.
  induction Hkeys as [| embedding embeddings [vector Hvector] _ IH];
    intros image_descriptions base64_images images cs.
  { exists cs, []. simpl. rewrite !app_nil_r. by repeat split. }
  destruct image_descriptions as [| description image_descriptions];
    [exists cs, []; simpl; rewrite !app_nil_r; by repeat split |].
  destruct base64_images as [| base64_img base64_images].
  { exists cs, []. simpl. rewrite !app_nil_r. repeat split; lia. }
  destruct images as [| img_path images].
  { exists cs, []. simpl. rewrite !app_nil_r. repeat split; lia. }
  simpl ingest_loop. rewrite Hvector. cell. rewrite Hindex. simpl.
  edestruct IH as (cs' & evs & Hrun & Hfiles & Hlen & Hlog).
  exists cs'. eexists ([IndexDocument _ _ _] ++ evs)%list.
  split; [exact Hrun |]. rewrite Hfiles. simpl files. rewrite <- app_assoc.
  split; [reflexivity |].
  rewrite indexed_documents_app, length_app, Hlen. simpl length.
  split; [simpl; lia |].
  rewrite Hlog, Hlen. simpl. by rewrite <- app_assoc.
Qed.

(** X21: the ingestion loop stops with the shortest of its four lists:
    when every embedding response has an [embedding] and every call to the
    index succeeds, the number of documents indexed is the minimum of the
    four lengths (the extra items of longer lists are dropped without a
    word), each document is followed by a sleep of 5 seconds, and the
    completion line is printed. *)
Theorem ingest_indexes_shortest_list (base64_images_dir images_dir : string)
    (embeddings : list pyval) (image_descriptions base64_images images : list string)
    (cs : cell_state) :
  Forall (fun e => is_Some (py_getitem e "embedding")) embeddings ->
  (forall n, oss_index fs n = inr tt) ->
  exists cs' evs,
    ingest fs g base64_images_dir images_dir embeddings image_descriptions
      base64_images images cs = (Done tt, cs')
    /\ files cs' = (files cs ++ evs)%list
    /\ length (indexed_documents evs)
       = Nat.min (Nat.min (length embeddings) (length image_descriptions))
           (Nat.min (length base64_images) (length images))
    /\ log (calls cs')
       = (log (calls cs)
          ++ [PrintLine "Ingesting data into OpenSearch..."]
          ++ replicate (length (indexed_documents evs)) (Sleep 5)
          ++ [PrintLine "Data ingestion complete."])%list.
Proof.
  intros Hkeys Hindex. unfold ingest.
  set (cs0 := with_calls (after_events [PrintLine "Ingesting data into OpenSearch..."]
                            (calls cs)) cs).
  destruct (ingest_loop_run base64_images_dir images_dir embeddings Hkeys Hindex
              image_descriptions base64_images images cs0)
    as (cs' & evs & Hrun & Hfiles & Hlen & Hlog).
  assert (Hfirst : lift (print "Ingesting data into OpenSearch...") cs = (Done tt, cs0))
    by reflexivity.
  rewrite (and_then_done _ _ _ _ _ Hfirst), (and_then_done _ _ _ _ _ Hrun).
  eexists _, evs. cell. split; [reflexivity |]. split; [exact Hfiles |].
  split; [exact Hlen |]. rewrite Hlog. simpl. by rewrite <- !app_assoc.
Qed.

(** The ingestion loop when the call to the index for the document at
    position [k] is the first to fail. *)
Lemma ingest_loop_aborts base64_images_dir images_dir (e : exn) : forall k
    embeddings image_descriptions base64_images images cs,
  Forall (fun e => is_Some (py_getitem e "embedding")) embeddings ->
  (k < length embeddings)%nat -> (k < length image_descriptions)%nat ->
  (k < length base64_images)%nat -> (k < length images)%nat ->
  (forall j, (j < k)%nat -> oss_index fs (n_index cs + j) = inr tt) ->
  oss_index fs (n_index cs + k) = inl e ->
  exists cs' evs,
    ingest_loop fs g base64_images_dir images_dir embeddings image_descriptions
      base64_images images cs = (Raised (ServiceError e), cs')
    /\ files cs' = (files cs ++ evs)%list
    /\ length (indexed_documents evs) = S k
    /\ log (calls cs') = (log (calls cs) ++ replicate k (Sleep 5))%list.
Proof.
  induction k as [| k IH];
    intros embeddings image_descriptions base64_images images cs Hkeys
      He Hd Hb Hi Hbefore Hfail;
    destruct embeddings as [| embedding embeddings]; simpl in He; try lia;
    destruct image_descriptions as [| description image_descriptions];
    simpl in Hd; try lia;
    destruct base64_images as [| base64_img base64_images]; simpl in Hb; try lia;
    destruct images as [| img_path images]; simpl in Hi; try lia;
    inversion Hkeys as [| ? ? [vector Hvector] Hkeys']; subst;
    simpl ingest_loop; rewrite Hvector; cell.
  - rewrite Nat.add_0_r in Hfail. rewrite Hfail. simpl.
    eexists _, [_]. simpl. rewrite app_nil_r. by repeat split.
  - pose proof (Hbefore 0%nat ltac:(lia)) as Hfirst.
    rewrite Nat.add_0_r in Hfirst. rewrite Hfirst. simpl.
    edestruct (IH embeddings image_descriptions base64_images images)
      as (cs' & evs & Hrun & Hfiles & Hlen & Hlog); [done | lia.. | | |].
    3:{ exists cs'. eexists ([IndexDocument _ _ _] ++ evs)%list.
        split; [exact Hrun |]. rewrite Hfiles. simpl files. rewrite <- app_assoc.
        split; [reflexivity |].
        rewrite indexed_documents_app, length_app, Hlen.
        split; [reflexivity |]. rewrite Hlog. simpl. by rewrite <- app_assoc. }
    + intros j Hj. simpl. rewrite <- Nat.add_succ_r. apply Hbefore. lia.
    + simpl. rewrite <- Nat.add_succ_r. exact Hfail.
Qed.

(** X22: a failed call to the index aborts the ingestion: the exception is
    raised, the documents after the failed one are never sent, and the
    completion line is not printed. *)
Theorem ingest_aborts_on_index_error (base64_images_dir images_dir : string)
    (embeddings : list pyval) (image_descriptions base64_images images : list string)
    (cs : cell_state) (k : nat) (e : exn) :
  Forall (fun e => is_Some (py_getitem e "embedding")) embeddings ->
  (k < length embeddings)%nat -> (k < length image_descriptions)%nat ->
  (k < length base64_images)%nat -> (k < length images)%nat ->
  (forall j, (j < k)%nat -> oss_index fs (n_index cs + j) = inr tt) ->
  oss_index fs (n_index cs + k) = inl e ->
  exists cs' evs,
    ingest fs g base64_images_dir images_dir embeddings image_descriptions
      base64_images images cs = (Raised (ServiceError e), cs')
    /\ files cs' = (files cs ++ evs)%list
    /\ length (indexed_documents evs) = S k
    /\ log (calls cs')
       = (log (calls cs)
          ++ [PrintLine "Ingesting data into OpenSearch..."]
          ++ replicate k (Sleep 5))%list.
Proof.
  intros Hkeys He Hd Hb Hi Hbefore Hfail. unfold ingest.
  set (cs0 := with_calls (after_events [PrintLine "Ingesting data into OpenSearch..."]
                            (calls cs)) cs).
  destruct (ingest_loop_aborts base64_images_dir images_dir e k embeddings
              image_descriptions base64_images images cs0 Hkeys He Hd Hb Hi
              Hbefore Hfail)
    as (cs' & evs & Hrun & Hfiles & Hlen & Hlog).
  assert (Hfirst : lift (print "Ingesting data into OpenSearch...") cs = (Done tt, cs0))
    by reflexivity.
  rewrite (and_then_done _ _ _ _ _ Hfirst), (and_then_raised _ _ _ _ _ Hrun).
  exists cs', evs. split; [reflexivity |]. split; [exact Hfiles |].
  split; [exact Hlen |]. rewrite Hlog. simpl. by rewrite <- !app_assoc.
Qed.

End CellProperties.
Lemma download_of_job_output_witness :
  fst (download_and_display_video demo_files "demo-bucket"
         (Some ("s3://" ++ "demo-bucket" ++ "/" ++ "x1y2z3" ++ "/output.mp4"))
         "output_video" initial_cell_state)
  = Done ("output_video" ++ "/" ++ "x1y2z3" ++ ".mp4")
  /\ files (snd (download_and_display_video demo_files "demo-bucket"
                   (Some ("s3://" ++ "demo-bucket" ++ "/" ++ "x1y2z3" ++ "/output.mp4"))
                   "output_video" initial_cell_state))
     = (files initial_cell_state
        ++ [DownloadFile "demo-bucket" ("x1y2z3" ++ "/output.mp4")
              ("output_video" ++ "/" ++ "x1y2z3" ++ ".mp4") (inr tt)])%list.
Proof.
  apply (download_of_job_output demo_files "demo-bucket" "demo-bucket" "x1y2z3"
           "output_video" initial_cell_state); reflexivity.
Defined.

Lemma download_needs_four_pieces_witness :
  download_and_display_video demo_files "demo-bucket" (Some "s3://demo-bucket")
    "output_video" initial_cell_state
  = (Raised (IndexError "list index out of range"), initial_cell_state).
Proof.
  apply (download_needs_four_pieces demo_files "demo-bucket" "s3://demo-bucket"
           "output_video" initial_cell_state).
  vm_compute. lia.
Defined.

Lemma workflow_reports_failed_job_witness :
  exists cs' evs,
    text_only_workflow doomed_services demo_files demo_globals 2
      (TextOnly.build_model_input "Closeup of a large seashell" None 6 24 "1280x720" 0)
      "output_video" initial_cell_state = (Done None, cs')
    /\ files cs' = files initial_cell_state
    /\ log (calls cs')
       = (log (calls initial_cell_state) ++ evs
          ++ [PrintLine ("Job " ++ "arn:job/0" ++ " failed. Reason: " ++ "Quota exceeded");
              PrintLine "An error occurred during video generation: Video generation failed."])%list.
Proof.
  apply (workflow_reports_failed_job doomed_services demo_files demo_globals 2
           (TextOnly.build_model_input "Closeup of a large seashell" None 6 24
              "1280x720" 0)
           "output_video" initial_cell_state "arn:job/0" 1 (failed "Quota exceeded")
           "Quota exceeded").
  - reflexivity.
  - intros [| i] Hi; [reflexivity | lia].
  - reflexivity.
  - reflexivity.
  - reflexivity.
  - lia.
Defined.

Lemma workflow_downloads_completed_job_witness :
  exists cs',
    text_only_workflow tidy_services demo_files demo_globals 1
      (TextOnly.build_model_input "Closeup of a large seashell" None 6 24 "1280x720" 0)
      "output_video" initial_cell_state
      = (Done (Some ("output_video" ++ "/" ++ "x1y2z3" ++ ".mp4")), cs')
    /\ files cs'
       = (files initial_cell_state
          ++ [DownloadFile "demo-bucket" ("x1y2z3" ++ "/output.mp4")
                ("output_video" ++ "/" ++ "x1y2z3" ++ ".mp4") (inr tt)])%list.
Proof.
  apply (workflow_downloads_completed_job tidy_services demo_files demo_globals 1
           (TextOnly.build_model_input "Closeup of a large seashell" None 6 24
              "1280x720" 0)
           "output_video" initial_cell_state "arn:async-invoke/x1y2z3" 0
           (completed "s3://demo-bucket/x1y2z3") "demo-bucket" "x1y2z3").
  - reflexivity.
  - intros i Hi. lia.
  - reflexivity.
  - reflexivity.
  - reflexivity.
  - reflexivity.
  - reflexivity.
  - reflexivity.
  - lia.
Defined.

Lemma display_downloads_every_batch_result_witness :
  exists html cs' evs,
    display_videos demo_files demo_globals "output_video"
      [(Some "s3://demo-bucket/arn:job/0/output.mp4", "red shoes on a beach");
       (Some "s3://demo-bucket/arn:job/1/output.mp4", "red shoes on a table")]
      initial_cell_state = (Done tt, cs')
    /\ files cs' = (files initial_cell_state ++ evs ++ [Display html])%list
    /\ length (download_requests evs)
       = length
           [(Some "s3://demo-bucket/arn:job/0/output.mp4", "red shoes on a beach");
            (Some "s3://demo-bucket/arn:job/1/output.mp4", "red shoes on a table")].
Proof.
  apply (display_downloads_every_batch_result demo_services demo_files demo_globals
           3 three_prompts "red shoes" "output_video" initial_state
           (snd (process_videos_from_prompts demo_services demo_globals 3
                   three_prompts "red shoes" initial_state))).
  vm_compute. reflexivity.
Defined.

Lemma ingest_indexes_shortest_list_witness :
  exists cs' evs,
    ingest demo_files demo_globals "base64_images" "images"
      [demo_embedding; demo_embedding; demo_embedding]
      ["red shoes"; "a road"] ["road.txt"; "shoes.txt"; "tree.txt"]
      ["road.jpg"; "shoes.jpg"; "tree.jpg"] initial_cell_state = (Done tt, cs')
    /\ files cs' = (files initial_cell_state ++ evs)%list
    /\ length (indexed_documents evs)
       = Nat.min (Nat.min 3 2) (Nat.min 3 3)
    /\ log (calls cs')
       = (log (calls initial_cell_state)
          ++ [PrintLine "Ingesting data into OpenSearch..."]
          ++ replicate (length (indexed_documents evs)) (Sleep 5)
          ++ [PrintLine "Data ingestion complete."])%list.
Proof.
  apply (ingest_indexes_shortest_list demo_files demo_globals "base64_images" "images"
           [demo_embedding; demo_embedding; demo_embedding]
           ["red shoes"; "a road"] ["road.txt"; "shoes.txt"; "tree.txt"]
           ["road.jpg"; "shoes.jpg"; "tree.jpg"] initial_cell_state).
  - repeat constructor; vm_compute; eauto.
  - reflexivity.
Defined.

Lemma ingest_aborts_on_index_error_witness :
  exists cs' evs,
    ingest failing_files demo_globals "base64_images" "images"
      [demo_embedding; demo_embedding; demo_embedding]
      ["a road"; "red shoes"; "a tree"] ["road.txt"; "shoes.txt"; "tree.txt"]
      ["road.jpg"; "shoes.jpg"; "tree.jpg"] initial_cell_state
      = (Raised (ServiceError (TransportError "ConnectTimeoutError" "Connection timed out")), cs')
    /\ files cs' = (files initial_cell_state ++ evs)%list
    /\ length (indexed_documents evs) = 2%nat
    /\ log (calls cs')
       = (log (calls initial_cell_state)
          ++ [PrintLine "Ingesting data into OpenSearch..."]
          ++ replicate 1 (Sleep 5))%list.
Proof.
  apply (ingest_aborts_on_index_error failing_files demo_globals "base64_images"
           "images" [demo_embedding; demo_embedding; demo_embedding]
           ["a road"; "red shoes"; "a tree"] ["road.txt"; "shoes.txt"; "tree.txt"]
           ["road.jpg"; "shoes.jpg"; "tree.jpg"] initial_cell_state 1
           (TransportError "ConnectTimeoutError" "Connection timed out")).
  - repeat constructor; vm_compute; eauto.
  - simpl; lia.
  - simpl; lia.
  - simpl; lia.
  - simpl; lia.
  - intros [| j] Hj; [reflexivity | lia].
  - reflexivity.
Defined.

(** ** Prompt templates *)

Lemma string_app_nil_r (s : string) : s ++ "" = s.
Proof.
  induction s as [| c s IH]; [reflexivity |].
  change (String c s ++ "") with (String c (s ++ "")). by rewrite IH.
Qed.

Lemma has_char_app (c : ascii) (s t : string) :
  has_char c (s ++ t) = has_char c s || has_char c t.
Proof.
  induction s as [| d s IH]; [reflexivity |].
  change (String d s ++ t) with (String d (s ++ t)). simpl.
  by rewrite IH, orb_assoc.
Qed.

Lemma prefix_app (s t : string) : String.prefix s (s ++ t) = true.
Proof.
  induction s as [| c s IH]; [by destruct t |].
  change (String c s ++ t) with (String c (s ++ t)). simpl.
  by destruct (ascii_dec c c).
Qed.

(** Text without the first character of [old] is copied as it is. *)
Lemma replace_from_absent (c0 : ascii) (old' new s t : string) :
  has_char c0 s = false ->
  replace_from (String c0 old') new 0 (s ++ t)
  = s ++ replace_from (String c0 old') new 0 t.
Proof.
  induction s as [| c s IH]; intros Habsent; [reflexivity |].
  simpl in Habsent. apply orb_false_iff in Habsent as [Hc Hs].
  change (String c s ++ t) with (String c (s ++ t)).
  change (String c s ++ replace_from (String c0 old') new 0 t)
    with (String c (s ++ replace_from (String c0 old') new 0 t)).
  simpl. destruct (ascii_dec c0 c) as [-> | _].
  - by rewrite Ascii.eqb_refl in Hc.
  - by rewrite IH.
Qed.

Lemma replace_from_skip (old new s t : string) :
  replace_from old new (String.length s) (s ++ t) = replace_from old new 0 t.
Proof.
  induction s as [| c s IH]; [by destruct t |].
  change (String c s ++ t) with (String c (s ++ t)). simpl. exact IH.
Qed.

(** An occurrence of [old] is replaced by [new], and the scan goes on
    behind it. *)
Lemma replace_from_occurrence (c0 : ascii) (old' new t : string) :
  replace_from (String c0 old') new 0 (String c0 old' ++ t)
  = new ++ replace_from (String c0 old') new 0 t.
Proof.
  change (String c0 old' ++ t) with (String c0 (old' ++ t)).
  cbn [replace_from].
  change (String c0 (old' ++ t)) with (String c0 old' ++ t).
  rewrite prefix_app.
  replace (String.length (String c0 old') - 1)%nat with (String.length old')
    by (simpl; lia).
  by rewrite replace_from_skip.
Qed.

Lemma replace_absent (c0 : ascii) (old' new s : string) :
  has_char c0 s = false -> replace (String c0 old') new s = s.
Proof.
  intros Habsent. unfold replace.
  rewrite <- (string_app_nil_r s) at 1.
  rewrite replace_from_absent by done. simpl. apply string_app_nil_r.
Qed.

Lemma format_loop_map (object_prompt action_prompt : string) (lines : list string) :
  forall formatted_prompts,
  format_loop object_prompt action_prompt lines formatted_prompts
  = (formatted_prompts ++ map (format_line object_prompt action_prompt) lines)%list.
Proof.
  induction lines as [| line rest IH]; intros acc; simpl.
  - by rewrite app_nil_r.
  - by rewrite IH, <- app_assoc.
Qed.

(** X23: [load_and_format_prompts] gives one prompt for each line of the
    file, in the order of the file and blank lines included; an exception
    of [open] or of the decoder is not caught; nothing is printed and no
    service is called. *)
Theorem load_and_format_prompts_one_per_line (fs : file_services)
    (file_path object_prompt action_prompt : string) (cs : cell_state) :
  let run := load_and_format_prompts fs file_path object_prompt action_prompt cs in
  fst run = match text_lines fs file_path with
            | inl e => Raised e
            | inr lines => Done (map (format_line object_prompt action_prompt) lines)
            end
  /\ calls (snd run) = calls cs
  /\ exists content,
       files (snd run) = (files cs ++ [OpenFile file_path content])%list.
Proof.
  unfold load_and_format_prompts, and_then, read_lines, done.
  destruct (text_lines fs file_path) as [e | lines]; simpl.
  - split; [reflexivity |]. split; [reflexivity |]. by eexists.
  - rewrite format_loop_map. split; [reflexivity |]. split; [reflexivity |].
    by eexists.
Qed.

(** X24: a template with one object placeholder followed by one action
    placeholder is filled in place, when neither the text around the
    placeholders nor the object prompt holds a [<]; the action prompt may
    hold anything, it is not scanned. *)
Theorem template_placeholders_filled
    (object_prompt action_prompt line pre mid post : string) :
  strip line = pre ++ "<object_prompt>" ++ mid ++ "<action_prompt>" ++ post ->
  has_char "<"%char pre = false ->
  has_char "<"%char mid = false ->
  has_char "<"%char post = false ->
  has_char "<"%char object_prompt = false ->
  format_line object_prompt action_prompt line
  = pre ++ object_prompt ++ mid ++ action_prompt ++ post.
Proof.
  intros Hline Hpre Hmid Hpost Hobject. unfold format_line. rewrite Hline.
  assert (Hfirst : replace "<object_prompt>" object_prompt
                     (pre ++ "<object_prompt>" ++ mid ++ "<action_prompt>" ++ post)
                   = pre ++ object_prompt ++ mid ++ "<action_prompt>" ++ post).
  { unfold replace. rewrite replace_from_absent by done.
    rewrite replace_from_occurrence, replace_from_absent by done.
    change ("<action_prompt>" ++ post) with (String "<" ("action_prompt>" ++ post)).
    cbn [replace_from].
    change (String "<" ("action_prompt>" ++ post)) with ("<action_prompt>" ++ post).
    replace (String.prefix "<object_prompt>" ("<action_prompt>" ++ post))
      with false by (by destruct post).
    fold (replace "<object_prompt>" object_prompt ("action_prompt>" ++ post)).
    rewrite replace_absent; [reflexivity |].
    rewrite has_char_app, Hpost. reflexivity. }
  rewrite Hfirst.
  rewrite <- !string_app_assoc. rewrite (string_app_assoc _ "<action_prompt>" post).
  unfold replace. rewrite replace_from_absent.
  - rewrite replace_from_occurrence.
    fold (replace "<action_prompt>" action_prompt post).
    rewrite replace_absent by done. by rewrite !string_app_assoc.
  - by rewrite !has_char_app, Hpre, Hobject, Hmid.
Qed.

(** X25: the two replacements are made one after the other, so an action
    placeholder inside the object prompt that was put in is filled too. *)
Theorem object_prompt_is_scanned_for_action
    (action_prompt line pre post before behind : string) :
  strip line = pre ++ "<object_prompt>" ++ post ->
  has_char "<"%char pre = false ->
  has_char "<"%char post = false ->
  has_char "<"%char before = false ->
  has_char "<"%char behind = false ->
  format_line (before ++ "<action_prompt>" ++ behind) action_prompt line
  = pre ++ (before ++ action_prompt ++ behind) ++ post.
Proof.
  intros Hline Hpre Hpost Hbefore Hbehind. unfold format_line. rewrite Hline.
  set (object_prompt := before ++ "<action_prompt>" ++ behind).
  assert (Hfirst : replace "<object_prompt>" object_prompt
                     (pre ++ "<object_prompt>" ++ post)
                   = pre ++ object_prompt ++ post).
  { unfold replace. rewrite replace_from_absent by done.
    rewrite replace_from_occurrence.
    fold (replace "<object_prompt>" object_prompt post).
    by rewrite replace_absent. }
  rewrite Hfirst. unfold object_prompt.
  rewrite !string_app_assoc, <- (string_app_assoc pre before).
  unfold replace. rewrite replace_from_absent.
  - rewrite replace_from_occurrence.
    fold (replace "<action_prompt>" action_prompt (behind ++ post)).
    rewrite replace_absent; [by rewrite !string_app_assoc |].
    by rewrite has_char_app, Hbehind, Hpost.
  - by rewrite has_char_app, Hpre, Hbefore.
Qed.

Lemma template_placeholders_filled_witness :
  format_line "red shoes" "Camera rotates counter clockwise in slow motion"
    ("<object_prompt> on a beach. <action_prompt>." ++ nl)
  = "" ++ "red shoes" ++ " on a beach. "
    ++ "Camera rotates counter clockwise in slow motion" ++ ".".
Proof.
  apply (template_placeholders_filled "red shoes"
           "Camera rotates counter clockwise in slow motion"
           ("<object_prompt> on a beach. <action_prompt>." ++ nl)
           "" " on a beach. " "."); reflexivity.
Defined.

Lemma object_prompt_is_scanned_for_action_witness :
  format_line ("shoes, " ++ "<action_prompt>" ++ "") "zoom"
    ("  A shop window with <object_prompt>, at night" ++ nl)
  = "A shop window with " ++ ("shoes, " ++ "zoom" ++ "") ++ ", at night".
Proof.
  apply (object_prompt_is_scanned_for_action "zoom"
           ("  A shop window with <object_prompt>, at night" ++ nl)
           "A shop window with " ", at night" "shoes, " ""); reflexivity.
Defined.

(** ** The embedding request *)

(** X26: the request for a text embedding is one call of
    [amazon.titan-embed-image-v1] whose body always holds the
    [embeddingConfig] with the asked dimension and never an [inputImage];
    it holds the description as [inputText] unless the description is
    empty, in which case the model is asked with the configuration alone.
    The outcome is the reply of the model. *)
Theorem embedding_request_payload (env : services) (description : string)
    (dimension : Z) (st : state) :
  let reply := bedrock_invoke_model env (n_invoke_model st) in
  let run := get_titan_multimodal_embedding env description dimension st in
  exists body,
    fst run = reply_outcome reply
    /\ log (snd run)
       = (log st ++ [InvokeModel "amazon.titan-embed-image-v1" body reply])%list
    /\ py_getitem body "embeddingConfig"
       = Some (PDict {[ "outputEmbeddingLength" := PInt dimension ]})
    /\ py_getitem body "inputImage" = None
    /\ py_getitem body "inputText"
       = (if String.eqb description "" then None else Some (PStr description)).
Proof.
  unfold get_titan_multimodal_embedding, invoke_model, truthy. simpl.
  eexists. split; [reflexivity |]. split; [reflexivity |].
  destruct (String.eqb description ""); simpl; repeat split; by vm_compute.
Qed.
